(** * botopen: the task submission / approval pipeline

    A shallow embedding of the parts of the bot that carry its invariants:
    [utils/date_utils.py], [services/openproject_service.py], the modal's
    [on_submit] ([ui/modals.py]), the "refresh" action ([ui/selects.py]) and
    [handle_approval] ([cogs/task_commands.py]).

    Conventions.
    - A Python [str] is a [string] whose characters are read as code points
      below 256; the accented letters of the Portuguese labels are written
      with their code point.
    - A Python [float] is an IEEE-754 binary64 number, [spec_float] with
      precision 53 and maximal exponent 1024, and the arithmetic is the
      correctly rounded one of [SpecFloat].
    - A reading of the clock is an exact rational number of seconds.
    - A call that may raise returns a [py A]: a value or an exception.
    - Coroutines are terms of the resumption monad [proc]: every primitive
      action is either a synchronous access to the process-wide state or an
      [await] on the chat platform, on the remote API or on the event loop. *)

From Stdlib Require Import ZArith QArith Qround String Ascii List Bool Lia DecimalString.
From Stdlib Require Import Floats.SpecFloat.
From Stdlib Require DecimalPos DecimalZ.
From stdpp Require Import gmap strings list.

Local Open Scope string_scope.
Local Open Scope Z_scope.

(** ** Exceptions and results *)

Inductive exn : Type :=
| ValueError
| TypeError
| OverflowError
| OpenProjectError
| ChatError.

Inductive py (A : Type) : Type :=
| Ok (a : A)
| Err (e : exn).
Arguments Ok {A} a.
Arguments Err {A} e.

#[global] Instance py_ret : MRet py := fun A a => Ok a.

#[global] Instance py_bind : MBind py := fun A B k m =>
  match m with
  | Ok a => k a
  | Err e => Err e
  end.

(** [try: m except (ValueError, TypeError): h] *)
Definition except_value_type {A} (m : py A) (h : py A) : py A :=
  match m with
  | Err ValueError | Err TypeError => h
  | other => other
  end.

(** ** Python strings

    A text is a [string]: a sequence of characters with code points
    below 256.  On these characters the functions below are Python's.  A
    Python [str] may also hold characters beyond this range, among them
    the decimal digits of other scripts, which [\d], [int()], [float()]
    and [str.isdigit] accept like [0-9]: such a text is outside this
    model, and a property that would read differently on it is stated
    for ASCII texts. *)

Module PyStr.

Definition code (c : ascii) : Z := Z.of_N (N_of_ascii c).

Definition chr (n : N) : ascii := ascii_of_N n.

(** Truth value of a string: the empty string is false. *)
Definition truthy (s : string) : bool :=
  match s with
  | EmptyString => false
  | String _ _ => true
  end.

Fixpoint all_chars (p : ascii -> bool) (s : string) : bool :=
  match s with
  | EmptyString => true
  | String c r => p c && all_chars p r
  end.

(** The decimal digits [0-9]: what [\d], [int()] and [float()] accept
    among the code points below 256. *)
Definition is_decimal (c : ascii) : bool :=
  (48 <=? code c) && (code c <=? 57).

(** [str.isdigit], on the code points below 256, also accepts the
    superscript digits U+00B2, U+00B3 and U+00B9, which [int()] and
    [float()] refuse. *)
Definition char_isdigit (c : ascii) : bool :=
  is_decimal c || (code c =? 178) || (code c =? 179) || (code c =? 185).

Definition isdigit (s : string) : bool :=
  truthy s && all_chars char_isdigit s.

(** Characters that [str.strip] and [int()] treat as white space. *)
Definition is_space (c : ascii) : bool :=
  ((9 <=? code c) && (code c <=? 13))
  || ((28 <=? code c) && (code c <=? 32))
  || (code c =? 133) || (code c =? 160).

(** [s.replace(old, '', 1)] for a one-character [old]. *)
Fixpoint remove_first (old : ascii) (s : string) : string :=
  match s with
  | EmptyString => EmptyString
  | String c r => if Ascii.eqb c old then r else String c (remove_first old r)
  end.

(** [s.split(sep)] for a one-character [sep]: the fields, never empty as a
    list. *)
Fixpoint split (sep : ascii) (s : string) : list string :=
  match s with
  | EmptyString => [EmptyString]
  | String c r =>
      if Ascii.eqb c sep then EmptyString :: split sep r
      else match split sep r with
           | f :: fs => String c f :: fs
           | [] => [String c EmptyString]
           end
  end.

Fixpoint lstrip (s : string) : string :=
  match s with
  | String c r => if is_space c then lstrip r else s
  | EmptyString => EmptyString
  end.

Fixpoint rstrip (s : string) : string :=
  match s with
  | EmptyString => EmptyString
  | String c r =>
      match rstrip r with
      | EmptyString => if is_space c then EmptyString else String c EmptyString
      | r' => String c r'
      end
  end.

Definition strip (s : string) : string := rstrip (lstrip s).

Definition digit_value (c : ascii) : Z := code c - 48.

(** The digits of an integer literal, most significant first; an underscore
    is allowed between two digits.  [prev] tells whether the previous
    character was a digit. *)
Fixpoint int_digits (acc : Z) (prev : bool) (s : string) : option Z :=
  match s with
  | EmptyString => if prev then Some acc else None
  | String c r =>
      if is_decimal c then int_digits (10 * acc + digit_value c) true r
      else if Ascii.eqb c "_" then
             (if prev then
                match r with
                | String d _ => if is_decimal d then int_digits acc false r else None
                | EmptyString => None
                end
              else None)
           else None
  end.

(** [int(s)] in base ten. *)
Definition int_of_str (s : string) : py Z :=
  let body (neg : bool) (t : string) :=
    match int_digits 0 false t with
    | Some n => Ok (if neg then - n else n)
    | None => Err ValueError
    end in
  match strip s with
  | String "-" t => body true t
  | String "+" t => body false t
  | t => body false t
  end.

(** [str(n)] for an integer. *)
Definition str_of_int (n : Z) : string := NilZero.string_of_int (Z.to_int n).

(** [sep.join(parts)] *)
Fixpoint join (sep : string) (parts : list string) : string :=
  match parts with
  | [] => EmptyString
  | [p] => p
  | p :: ps => p +:+ sep +:+ join sep ps
  end.

Definition LF : string := String (chr 10) EmptyString.

End PyStr.

(** ** Python floats: IEEE-754 binary64 *)

Module PyFloat.

Definition prec : Z := 53.
Definition emax : Z := 1024.

Definition float : Type := spec_float.

Definition sub (x y : float) : float := SFsub prec emax x y.
Definition mul (x y : float) : float := SFmul prec emax x y.

(** [float(n)] for an integer [n], also the implicit conversion of an
    integer operand in mixed arithmetic. *)
Definition of_int (n : Z) : py float :=
  match binary_normalize prec emax n 0 false with
  | S754_infinity _ => Err OverflowError
  | x => Ok x
  end.

(** [int(x)]: truncation toward zero. *)
Definition to_int (x : float) : py Z :=
  match x with
  | S754_zero _ => Ok 0
  | S754_finite s m e => Ok (cond_Zopp s (Z.shiftl (Zpos m) e))
  | S754_infinity _ => Err OverflowError
  | S754_nan => Err ValueError
  end.

(** The correctly rounded quotient [n / 10^k] of a decimal literal with
    digits [n] and [k] digits after the point; too large a literal rounds
    to infinity. *)
Definition of_decimal (n : Z) (k : nat) : float :=
  match n with
  | Zpos p =>
      SFdiv prec emax (S754_finite false p 0)
            (S754_finite false (Z.to_pos (10 ^ Z.of_nat k)) 0)
  | _ => S754_zero false
  end.

(** Scanning a literal [digits[.digits]]: the digits read so far as an
    integer, how many of them after the point, whether a digit was seen. *)
Fixpoint scan_decimal (acc : Z) (frac : option nat) (seen : bool) (s : string)
  : option (Z * nat) :=
  match s with
  | EmptyString =>
      if seen then Some (acc, default 0%nat frac) else None
  | String c r =>
      if PyStr.is_decimal c then
        scan_decimal (10 * acc + PyStr.digit_value c) (S <$> frac) true r
      else if Ascii.eqb c "." then
             match frac with
             | None => scan_decimal acc (Some 0%nat) seen r
             | Some _ => None
             end
           else None
  end.

(** [float(s)] on the strings that [format_duration] passes to it, which
    hold nothing but digit characters and at most one point: such a string
    is a literal when its digits are decimal, and [float] raises
    [ValueError] on the others.  The decimal digits are [0-9], the only
    ones among the code points below 256. *)
Definition of_str (s : string) : py float :=
  match scan_decimal 0 None false s with
  | Some (n, k) => Ok (of_decimal n k)
  | None => Err ValueError
  end.

(** The number of binary digits of a mantissa. *)
Definition dg (p : positive) : Z := Zpos (digits2_pos p).

(** The exponent of the format for a number of magnitude [2^e]:
    [fexp prec emax e]. *)
Definition fexp64 (e : Z) : Z := Z.max (e - 53) (-1074).

(** The number a float stands for, [m * 2^e]; zero for what is not a
    number. *)
Definition value (x : float) : Q :=
  match x with
  | S754_finite s m (Zneg k) => Qmake (cond_Zopp s (Zpos m)) (2 ^ k)
  | S754_finite s m e => inject_Z (cond_Zopp s (Zpos m) * 2 ^ e)
  | _ => 0%Q
  end.

(** A finite number of the format: a zero, or a mantissa of at most 53
    digits with an exponent of the format. *)
Definition is_finite (x : float) : bool :=
  match x with
  | S754_zero _ => true
  | S754_finite _ m e => (dg m <=? 53) && (-1074 <=? e) && (e <=? 971)
  | _ => false
  end.

(** What comes out of a rounding is a zero, an infinity, or a finite
    number with at most 53 digits and an exponent of the format. *)
Definition bounded64 (x : float) : Prop :=
  match x with
  | S754_finite _ m e => dg m <= 53 /\ -1074 <= e <= 971
  | S754_nan => False
  | _ => True
  end.

Definition has_sign (s : bool) (x : float) : Prop :=
  match x with
  | S754_zero s' | S754_infinity s' | S754_finite s' _ _ => s' = s
  | S754_nan => True
  end.

(** A finite, non-negative float that stands for the integer [H]. *)
Definition represents (y : float) (H : Z) : Prop :=
  exists m e,
    y = S754_finite false m e /\ dg m <= 53 /\ -1074 <= e <= 971
    /\ ((e <= 0 /\ Zpos m = H * 2 ^ (- e)) \/ (0 < e /\ H = Zpos m * 2 ^ e)).

(** The float [60.0]. *)
Definition sixty : float := S754_finite false 8444249301319680 (-47).

(** The whole minutes of the fraction of [mx * 2^ex], on the exact
    number. *)
Definition fraction_minutes (mx : positive) (ex : Z) : Z :=
  if ex <? 0 then 60 * (Zpos mx mod 2 ^ (- ex)) / 2 ^ (- ex) else 0.

End PyFloat.

(** ** Dynamically typed values

    What [format_duration] may receive ([Union[float, str]], and what a
    caller may pass besides), and what a stored setting may hold. *)

Inductive pyvalue : Type :=
| PyFloat (x : PyFloat.float)
| PyInt (n : Z)
| PyStr (s : string)
| PyNone.

Definition py_truthy (v : pyvalue) : bool :=
  match v with
  | PyFloat (S754_zero _) => false
  | PyFloat _ => true
  | PyInt n => negb (n =? 0)
  | PyStr s => PyStr.truthy s
  | PyNone => false
  end.

(** [int(v)] *)
Definition py_int (v : pyvalue) : py Z :=
  match v with
  | PyFloat x => PyFloat.to_int x
  | PyInt n => Ok n
  | PyStr s => PyStr.int_of_str s
  | PyNone => Err TypeError
  end.

(** ** utils/date_utils.py *)

Module DateUtils.
Import PyStr.

Definition a_grave : string := String (chr 224) EmptyString.
Definition a_tilde : string := String (chr 227) EmptyString.
Definition e_acute : string := String (chr 233) EmptyString.
Definition i_acute : string := String (chr 237) EmptyString.

(** [re.match(r'^\d{2}/\d{2}/\d{4}$', s)]: [$] also matches before a
    final line feed; among the code points below 256, [\d] matches
    [0-9]. *)
Definition matches_date_pattern (s : string) : bool :=
  match s with
  | String d1 (String d2 (String s1 (String m1 (String m2 (String s2
      (String y1 (String y2 (String y3 (String y4 rest))))))))) =>
      forallb is_decimal [d1; d2; m1; m2; y1; y2; y3; y4]
      && Ascii.eqb s1 "/" && Ascii.eqb s2 "/"
      && (String.eqb rest EmptyString || String.eqb rest LF)
  | _ => false
  end.

Definition is_leap (year : Z) : bool :=
  (year mod 4 =? 0) && (negb (year mod 100 =? 0) || (year mod 400 =? 0)).

Definition days_in_month (year month : Z) : Z :=
  if month =? 2 then (if is_leap year then 29 else 28)
  else if (month =? 4) || (month =? 6) || (month =? 9) || (month =? 11) then 30
  else 31.

Definition fits_c_int (n : Z) : bool := (- 2 ^ 31 <=? n) && (n <? 2 ^ 31).

(** A [datetime.datetime] at midnight: year, month, day. *)
Record date : Type := mk_date { d_year : Z; d_month : Z; d_day : Z }.

(** [datetime.datetime(year, month, day)] *)
Definition datetime (year month day : Z) : py date :=
  if negb (fits_c_int year && fits_c_int month && fits_c_int day) then
    Err OverflowError
  else if (1 <=? year) && (year <=? 9999) && (1 <=? month) && (month <=? 12)
          && (1 <=? day) && (day <=? days_in_month year month)
       then Ok (mk_date year month day)
       else Err ValueError.

(** [a < b] on dates *)
Definition date_ltb (a b : date) : bool :=
  (d_year a <? d_year b)
  || ((d_year a =? d_year b)
      && ((d_month a <? d_month b)
          || ((d_month a =? d_month b) && (d_day a <? d_day b)))).

(** [day, month, year = map(int, s.split('/'))] *)
Definition day_month_year (s : string) : py (Z * Z * Z) :=
  match split "/" s with
  | [a; b; c] =>
      day ← int_of_str a; month ← int_of_str b; year ← int_of_str c;
      Ok (day, month, year)
  | _ => Err ValueError
  end.

Definition validate_date (date_str : string) : py bool :=
  if negb (truthy date_str) then Ok true
  else if negb (matches_date_pattern date_str) then Ok false
  else except_value_type
         ('(day, month, year) ← day_month_year date_str;
          _ ← datetime year month day;
          Ok true)
         (Ok false).

Definition convert_date_format (date_str : string) : py string :=
  if negb (truthy date_str) then Ok EmptyString
  else except_value_type
         (valid ← validate_date date_str;
          if negb valid then Ok EmptyString
          else match split "/" date_str with
               | [day; month; year] => Ok (year +:+ "-" +:+ month +:+ "-" +:+ day)
               | _ => Err ValueError
               end)
         (Ok EmptyString).

Definition msg_end_before_start : string :=
  "A data de t" +:+ e_acute +:+ "rmino n" +:+ a_tilde +:+ "o pode ser anterior "
  +:+ a_grave +:+ " data de in" +:+ i_acute +:+ "cio.".

Definition msg_bad_format : string :=
  "Formato de data inv" +:+ String (chr 225) "lido. Use DD/MM/AAAA.".

Definition compare_dates (start_date end_date : string) : py (bool * string) :=
  if negb (truthy start_date) || negb (truthy end_date) then Ok (true, EmptyString)
  else except_value_type
         ('(start_day, start_month, start_year) ← day_month_year start_date;
          '(end_day, end_month, end_year) ← day_month_year end_date;
          start ← datetime start_year start_month start_day;
          end_ ← datetime end_year end_month end_day;
          if date_ltb end_ start then Ok (false, msg_end_before_start)
          else Ok (true, EmptyString))
         (Ok (false, msg_bad_format)).

(** A number: the value of [hours] once a string has been converted. *)
Inductive number : Type :=
| NFloat (x : PyFloat.float)
| NInt (n : Z).

(** [int(v)] *)
Definition num_int (v : number) : py Z :=
  match v with
  | NFloat x => PyFloat.to_int x
  | NInt n => Ok n
  end.

(** [v - k] for an integer [k] *)
Definition num_sub_int (v : number) (k : Z) : py number :=
  match v with
  | NFloat x => y ← PyFloat.of_int k; Ok (NFloat (PyFloat.sub x y))
  | NInt n => Ok (NInt (n - k))
  end.

(** [v * k] for an integer [k] *)
Definition num_mul_int (v : number) (k : Z) : py number :=
  match v with
  | NFloat x => y ← PyFloat.of_int k; Ok (NFloat (PyFloat.mul x y))
  | NInt n => Ok (NInt (n * k))
  end.

(** The two f-strings of [format_duration]. *)
Definition duration_text (horas_inteiras minutos : Z) : string :=
  if minutos >? 0
  then "PT" +:+ str_of_int horas_inteiras +:+ "H" +:+ str_of_int minutos +:+ "M"
  else "PT" +:+ str_of_int horas_inteiras +:+ "H".

(** The lines after the conversion of a string, inside the [try]. *)
Definition duration_of_number (hours : number) : py (option string) :=
  horas_inteiras ← num_int hours;
  rest ← num_sub_int hours horas_inteiras;
  scaled ← num_mul_int rest 60;
  minutos ← num_int scaled;
  Ok (Some (duration_text horas_inteiras minutos)).

Definition format_duration (hours : pyvalue) : py (option string) :=
  except_value_type
    (match hours with
     | PyStr s =>
         if negb (truthy s) then Ok None
         else if negb (isdigit (remove_first "." s)) then Ok None
         else x ← PyFloat.of_str s; duration_of_number (NFloat x)
     | PyFloat x => duration_of_number (NFloat x)
     | PyInt n => duration_of_number (NInt n)
     | PyNone => Err TypeError
     end)
    (Ok None).

End DateUtils.

(** ** config.py *)

Definition CACHE_DURATION : Q := 3600%Q.
Definition ITEMS_PER_PAGE : Z := 10.

(** ** Data of the pipeline *)

(** A project of the remote listing: the fields [get_projects] reads. *)
Record remote_project : Type := mk_remote_project {
  rp_id : Z;
  rp_name : string;
  rp_identifier : string;
  rp_href : string;
  rp_active : bool
}.

(** A cached project: [{'id', 'name', 'identifier', 'href'}]. *)
Record project : Type := mk_project {
  p_id : Z;
  p_name : string;
  p_identifier : string;
  p_href : string
}.

(** The dict [task_details] built by [on_submit]; the last three keys are
    absent until the approval adds them. *)
Record task_details : Type := mk_task_details {
  nome_da_tarefa : string;
  descricao : string;
  estimativa : string;
  data_inicio : string;
  data_fim : string;
  status : string;
  status_id : Z;
  project_id : string;
  project_name : string;
  solicitante_id : Z;
  solicitante_nome : string;
  analista_id : Z;
  analista_nome : string;
  version_id : option string;
  version_name : option string;
  aprovador_nome : option string;
  data_inicio_formatada : option string;
  data_fim_formatada : option string
}.

Definition set_aprovador_nome (v : string) (d : task_details) : task_details :=
  mk_task_details (nome_da_tarefa d) (descricao d) (estimativa d) (data_inicio d)
    (data_fim d) (status d) (status_id d) (project_id d) (project_name d)
    (solicitante_id d) (solicitante_nome d) (analista_id d) (analista_nome d)
    (version_id d) (version_name d) (Some v)
    (data_inicio_formatada d) (data_fim_formatada d).

Definition set_data_inicio_formatada (v : string) (d : task_details) : task_details :=
  mk_task_details (nome_da_tarefa d) (descricao d) (estimativa d) (data_inicio d)
    (data_fim d) (status d) (status_id d) (project_id d) (project_name d)
    (solicitante_id d) (solicitante_nome d) (analista_id d) (analista_nome d)
    (version_id d) (version_name d) (aprovador_nome d)
    (Some v) (data_fim_formatada d).

Definition set_data_fim_formatada (v : string) (d : task_details) : task_details :=
  mk_task_details (nome_da_tarefa d) (descricao d) (estimativa d) (data_inicio d)
    (data_fim d) (status d) (status_id d) (project_id d) (project_name d)
    (solicitante_id d) (solicitante_nome d) (analista_id d) (analista_nome d)
    (version_id d) (version_name d) (aprovador_nome d)
    (data_inicio_formatada d) (Some v).

#[global] Instance task_details_inhabited : Inhabited task_details :=
  populate (mk_task_details "" "" "" "" "" "" 0 "" "" 0 "" 0 "" None None None None None).

(** Truth value of an optional string: [None] and [''] are false. *)
Definition opt_truthy (o : option string) : bool :=
  match o with
  | Some s => PyStr.truthy s
  | None => false
  end.

(** The JSON body of [POST /api/v3/work_packages]. *)
Record payload : Type := mk_payload {
  subject : string;
  description_format : string;
  description_raw : string;
  link_project : string;
  link_type : string;
  link_status : string;
  link_version : option string;
  startDate : option string;
  dueDate : option string;
  estimatedTime : option string
}.

(** The created work package: the fields [create_task] reads. *)
Record created_task : Type := mk_created_task {
  ct_id : Z;
  ct_self_href : string;
  ct_has_version : bool
}.

(** The dict [create_task] returns. *)
Record task_result : Type := mk_task_result {
  r_task_id : Z;
  r_ui_link : option string;
  r_api_link : option string
}.

(** The repository object: configuration and project cache. *)
Record repository : Type := mk_repository {
  base_url : string;
  api_key : string;
  projects_cache : list project;
  cache_timestamp : Q
}.

(** The process-wide state: the dict objects, which the registry and the
    running handlers share by reference, the registry
    [task_service.pending_tasks] and the repository. *)
Record world : Type := mk_world {
  dicts : gmap nat task_details;
  pending_tasks : gmap string nat;
  repo : repository
}.

(** ** The outside world *)

Inductive party : Type :=
| ToRequester      (* the submitter: follow-up of the modal, or a direct message *)
| ToApprover       (* the approver: direct message, or follow-up of the decision *)
| ToChannel        (* the configured notification channel *)
| ToThread.        (* the discussion thread *)

Inductive validation_error : Type :=
| BadEstimate | BadStartDate | BadDueDate | BadDateOrder (msg : string) | NoProject.

Inductive notice : Type :=
| TaskNotFound
| RequesterLookupFailed
| Processing
| Created (link : option string)
| NotCreated
| Rejected (motivo : string)
| Feedback
| ThreadIntro
| GenericError
| Invalid (why : validation_error)
| ApprovalRequest (task_id : string)
| SubmissionSent
| Loading
| ProjectsRefreshed (shown : list project)
| RefreshFailed.

(** Calls to the chat platform. *)
Inductive chat_call : Type :=
| Defer
| Send (to : party) (what : notice)
| AddReaction (n : nat)
| CreateThread
| ThreadAddUser
| DisableButtons.

(** What a coroutine asks of its environment.  [Now] reads the clock and
    returns at once; the others are awaited. *)
Inductive call : Type -> Type :=
| Now : call Q
| Chat (c : chat_call) : call (py unit)
| FetchUser (uid : Z) : call (py unit)
| HttpGetProjects (url : string) : call (py (list remote_project))
| HttpPostWorkPackage (url : string) (body : payload) : call (py created_task)
| Sleep (seconds : Z) : call unit.

Inductive event : Type :=
| EvChat (c : chat_call)
| EvFetchUser (uid : Z)
| EvGetProjects (url : string)
| EvPost (url : string) (body : payload)
| EvSleep (seconds : Z).

Definition event_of {X} (c : call X) : option event :=
  match c with
  | Now => None
  | Chat c => Some (EvChat c)
  | FetchUser uid => Some (EvFetchUser uid)
  | HttpGetProjects url => Some (EvGetProjects url)
  | HttpPostWorkPackage url body => Some (EvPost url body)
  | Sleep n => Some (EvSleep n)
  end.

(** Awaiting a call suspends the coroutine; reading the clock does not. *)
Definition suspends {X} (c : call X) : bool :=
  match c with
  | Now => false
  | _ => true
  end.

(** The answers one interaction receives from the outside. *)
Record env : Type := mk_env {
  clock : Q;
  chat_result : chat_call -> py unit;
  fetch_user_result : py unit;
  get_projects_response : py (list remote_project);
  post_response : py created_task
}.

Definition answer (e : env) {X} (c : call X) : X :=
  match c in call X return X with
  | Now => clock e
  | Chat c => chat_result e c
  | FetchUser _ => fetch_user_result e
  | HttpGetProjects _ => get_projects_response e
  | HttpPostWorkPackage _ _ => post_response e
  | Sleep _ => tt
  end.

(** ** Coroutines *)

Inductive proc (A : Type) : Type :=
| Return (a : A)
| Raise (e : exn)
| Sync {X : Type} (f : world -> X * world) (k : X -> proc A)
| Await {X : Type} (c : call X) (k : X -> proc A).
Arguments Return {A} a.
Arguments Raise {A} e.
Arguments Sync {A X} f k.
Arguments Await {A X} c k.

Fixpoint proc_bind {A B} (k : A -> proc B) (p : proc A) : proc B :=
  match p with
  | Return a => k a
  | Raise e => Raise e
  | Sync f k' => Sync f (fun x => proc_bind k (k' x))
  | Await c k' => Await c (fun x => proc_bind k (k' x))
  end.

#[global] Instance proc_mret : MRet proc := fun A a => Return a.
#[global] Instance proc_mbind : MBind proc := fun A B k p => proc_bind k p.

(** [try: p except Exception as e: h e] *)
Fixpoint try_except {A} (p : proc A) (h : exn -> proc A) : proc A :=
  match p with
  | Return a => Return a
  | Raise e => h e
  | Sync f k => Sync f (fun x => try_except (k x) h)
  | Await c k => Await c (fun x => try_except (k x) h)
  end.

(** Running [p] and keeping its exception as a value. *)
Definition attempt {A} (p : proc A) : proc (py A) :=
  try_except (a ← p; Return (Ok a)) (fun e => Return (Err e)).

(** The value of a computation, or its exception raised here. *)
Definition lift {A} (r : py A) : proc A :=
  match r with
  | Ok a => Return a
  | Err e => Raise e
  end.

(** [await c] for a call that may raise. *)
Definition await {A} (c : call (py A)) : proc A := Await c lift.

Definition sync {X} (f : world -> X * world) : proc X := Sync f Return.

Definition chat (c : chat_call) : proc unit := await (Chat c).

(** A machine state: the process-wide state and the calls issued so far. *)
Definition state : Type := world * list event.

Definition log {X} (c : call X) (tr : list event) : list event :=
  match event_of c with
  | Some ev => tr ++ [ev]
  | None => tr
  end.

(** A coroutine run to completion, alone. *)
Fixpoint run {A} (e : env) (p : proc A) (st : state) : py A * state :=
  match p with
  | Return a => (Ok a, st)
  | Raise x => (Err x, st)
  | Sync f k => let '(x, w) := f (fst st) in run e (k x) (w, snd st)
  | Await c k => run e (k (answer e c)) (fst st, log c (snd st))
  end.

(** A coroutine run until it has issued the next call on which it
    suspends: one turn of the event loop. *)
Fixpoint turn {A} (e : env) (p : proc A) (st : state) : proc A * state :=
  match p with
  | Return a => (Return a, st)
  | Raise x => (Raise x, st)
  | Sync f k => let '(x, w) := f (fst st) in turn e (k x) (w, snd st)
  | Await c k =>
      if suspends c then (k (answer e c), (fst st, log c (snd st)))
      else turn e (k (answer e c)) (fst st, log c (snd st))
  end.

(** The tasks of the event loop, each with the answers it will receive. *)
Definition pool : Type := list (env * proc unit).

(** The event loop resumes task [i] for one turn. *)
Definition resume (i : nat) (ts : pool) (st : state) : pool * state :=
  match ts !! i with
  | Some (e, p) => let '(p', st') := turn e p st in (<[i := (e, p')]> ts, st')
  | None => (ts, st)
  end.

Fixpoint schedule (order : list nat) (ts : pool) (st : state) : pool * state :=
  match order with
  | [] => (ts, st)
  | i :: rest => let '(ts', st') := resume i ts st in schedule rest ts' st'
  end.

Definition finished {A} (p : proc A) : bool :=
  match p with
  | Return _ | Raise _ => true
  | _ => false
  end.

(** ** services/openproject_service.py *)

Definition Qlt_bool (x y : Q) : bool := negb (Qle_bool y x).

(** The dict object behind a reference; a reference is never dangling, as
    dict objects are only ever added. *)
Definition read_dict (l : nat) (w : world) : task_details * world :=
  (default inhabitant (dicts w !! l), w).

(** An assignment [task_details[key] = value] on the shared object. *)
Definition update_dict (l : nat) (g : task_details -> task_details) (w : world)
  : unit * world :=
  (tt, mk_world (alter g l (dicts w)) (pending_tasks w) (repo w)).

(** A new dict object. *)
Definition new_dict (d : task_details) (w : world) : nat * world :=
  let l := fresh (dom (dicts w)) in
  (l, mk_world (<[l := d]> (dicts w)) (pending_tasks w) (repo w)).

Definition read_repo (w : world) : repository * world := (repo w, w).

Module OpenProjectRepository.
Import PyStr.

(** [__init__]: [base_url.rstrip('/') if base_url else ""], an empty cache
    and a zero timestamp. *)
Fixpoint rstrip_slash (s : string) : string :=
  match s with
  | EmptyString => EmptyString
  | String c r =>
      match rstrip_slash r with
      | EmptyString => if Ascii.eqb c "/" then EmptyString else String c EmptyString
      | r' => String c r'
      end
  end.

Definition init (url key : string) : repository :=
  mk_repository (rstrip_slash url) key [] 0%Q.

(** [self._projects_cache = projects; self._cache_timestamp = current_time] *)
Definition update_cache (projects : list project) (current_time : Q) (w : world)
  : unit * world :=
  (tt, mk_world (dicts w) (pending_tasks w)
         (mk_repository (base_url (repo w)) (api_key (repo w)) projects current_time)).

(** One request; whatever goes wrong surfaces as an [OpenProjectError]. *)
Definition _make_request {A} (c : call (py A)) : proc A :=
  r ← sync read_repo;
  if negb (truthy (base_url r)) || negb (truthy (api_key r))
  then Raise OpenProjectError
  else try_except (await c) (fun _ => Raise OpenProjectError).

Definition to_project (rp : remote_project) : project :=
  mk_project (rp_id rp) (rp_name rp) (rp_identifier rp) (rp_href rp).

(** The loop that keeps the active projects of a listing. *)
Fixpoint active_projects (elements : list remote_project) : list project :=
  match elements with
  | [] => []
  | rp :: rest =>
      if rp_active rp then to_project rp :: active_projects rest
      else active_projects rest
  end.

(** [self._projects_cache and current_time - self._cache_timestamp < CACHE_DURATION] *)
Definition cache_is_valid (r : repository) (current_time : Q) : bool :=
  match projects_cache r with
  | [] => false
  | _ :: _ => Qlt_bool (current_time - cache_timestamp r) CACHE_DURATION
  end.

Definition get_projects : proc (list project) :=
  current_time ← Await Now Return;
  r ← sync read_repo;
  if cache_is_valid r current_time then Return (projects_cache r)
  else
    let url := base_url r +:+ "/api/v3/projects" in
    try_except
      (projects_data ← _make_request (HttpGetProjects url);
       let projects := active_projects projects_data in
       sync (update_cache projects current_time);;
       Return projects)
      (fun _ => Raise OpenProjectError).

Definition label_start : string := "Data de in" +:+ String (chr 237) "cio: ".
Definition label_due : string := "Data de t" +:+ String (chr 233) "rmino: ".
Definition label_version : string := "Vers" +:+ String (chr 227) "o: ".

(** The description body, built by successive [+=]. *)
Definition description_text (d : task_details) : string :=
  let t0 := descricao d +:+ LF +:+ LF in
  let t1 := if truthy (data_inicio d)
            then t0 +:+ label_start +:+ data_inicio d +:+ LF else t0 in
  let t2 := if truthy (data_fim d)
            then t1 +:+ label_due +:+ data_fim d +:+ LF else t1 in
  let t3 := if opt_truthy (version_name d)
            then t2 +:+ label_version +:+ default "" (version_name d) +:+ LF else t2 in
  let t4 := t3 +:+ "Solicitado por: " +:+ solicitante_nome d +:+ LF in
  t4 +:+ "Aprovado por: " +:+ default "Aprovador" (aprovador_nome d).

(** A value kept only when it is true. *)
Definition when_truthy (o : option string) : option string :=
  if opt_truthy o then o else None.

(** [estimatedTime], present when [format_duration] yields a value. *)
Definition estimated_time (d : task_details) : py (option string) :=
  if truthy (estimativa d)
  then iso ← DateUtils.format_duration (PyStr (estimativa d)); Ok (when_truthy iso)
  else Ok None.

Definition build_payload (d : task_details) (estimated : option string) : payload :=
  mk_payload
    (nome_da_tarefa d)
    "markdown"
    (description_text d)
    ("/api/v3/projects/" +:+ project_id d)
    "/api/v3/types/1"
    "/api/v3/statuses/2"
    (if opt_truthy (version_id d)
     then Some ("/api/v3/versions/" +:+ default "" (version_id d)) else None)
    (when_truthy (data_inicio_formatada d))
    (when_truthy (data_fim_formatada d))
    estimated.

(** The loop that looks the project up for its identifier. *)
Fixpoint ui_link (url : string) (projects : list project) (pid : string) (task_id : Z)
  : option string :=
  match projects with
  | [] => None
  | p :: rest =>
      if String.eqb (str_of_int (p_id p)) pid
      then Some (url +:+ "/projects/" +:+ p_identifier p +:+ "/work_packages/"
                 +:+ str_of_int task_id +:+ "/overview")
      else ui_link url rest pid task_id
  end.

Definition create_task (l : nat) : proc task_result :=
  d ← sync (read_dict l);
  if negb (truthy (project_id d)) then Raise OpenProjectError
  else if negb (truthy (nome_da_tarefa d)) then Raise OpenProjectError
  else
    estimated ← lift (estimated_time d);
    let body := build_payload d estimated in
    r ← sync read_repo;
    let create_url := base_url r +:+ "/api/v3/work_packages" in
    try_except
      (created ← _make_request (HttpPostWorkPackage create_url body);
       let task_id := ct_id created in
       projects ← get_projects;
       d' ← sync (read_dict l);
       r' ← sync read_repo;
       match ui_link (base_url r') projects (project_id d') task_id with
       | Some link => Return (mk_task_result task_id (Some link) None)
       | None =>
           Return (mk_task_result task_id None
                     (Some (base_url r' +:+ ct_self_href created)))
       end)
      (fun _ => Raise OpenProjectError).

End OpenProjectRepository.

Module TaskService.
Import PyStr.

(** [self.pending_tasks[task_id] = task_details] *)
Definition add_pending_task (task_id : string) (l : nat) (w : world) : unit * world :=
  (tt, mk_world (dicts w) (<[task_id := l]> (pending_tasks w)) (repo w)).

(** [self.pending_tasks.get(task_id)] *)
Definition get_pending_task (task_id : string) (w : world) : option nat * world :=
  (pending_tasks w !! task_id, w).

(** [if task_id in self.pending_tasks: del self.pending_tasks[task_id]] *)
Definition remove_pending_task (task_id : string) (w : world) : unit * world :=
  match pending_tasks w !! task_id with
  | Some _ => (tt, mk_world (dicts w) (delete task_id (pending_tasks w)) (repo w))
  | None => (tt, w)
  end.

Definition get_projects : proc (list project) := OpenProjectRepository.get_projects.

Definition create_task (l : nat) : proc task_result :=
  d ← sync (read_dict l);
  (if truthy (data_inicio d)
   then f ← lift (DateUtils.convert_date_format (data_inicio d));
        sync (update_dict l (set_data_inicio_formatada f))
   else Return tt);;
  (if truthy (data_fim d)
   then f ← lift (DateUtils.convert_date_format (data_fim d));
        sync (update_dict l (set_data_fim_formatada f))
   else Return tt);;
  OpenProjectRepository.create_task l.

End TaskService.

(** [task_service = TaskService()]: the state of a fresh process, with the
    configured URL and key. *)
Definition fresh_world (url key : string) : world :=
  mk_world ∅ ∅ (OpenProjectRepository.init url key).

(** ** utils/error_handler.py *)

(** [@error_handler] on a function whose first argument is the
    interaction: the exception is logged and the user told. *)
Definition error_handler (p : proc unit) : proc unit :=
  try_except p
    (fun _ => try_except (chat (Send ToApprover GenericError)) (fun _ => Return tt)).

(** [@error_handler] on a method: the first argument is the modal or the
    view, which has no [followup], so the exception is only logged. *)
Definition error_handler_method {A} (p : proc A) (otherwise : A) : proc A :=
  try_except p (fun _ => Return otherwise).

(** ** What a handler knows of its interaction *)

Record interaction : Type := mk_interaction {
  user_id : Z;
  user_display_name : string;
  interaction_id : Z;
  in_guild : bool;
  has_message : bool;
  requester_is_member : bool;
  notification_channel : pyvalue;
  channel_found : bool
}.

(** ** ui/modals.py *)

(** The modal once filled in: the five inputs and the [task_data] of the
    selection that opened it. *)
Record modal : Type := mk_modal {
  task_name : string;
  task_description : string;
  task_estimate : string;
  start_date : string;
  due_date : string;
  td_project_id : option string;
  td_project_name : string;
  td_aprovador_id : Z;
  td_aprovador_name : string;
  td_version_id : option string;
  td_version_name : option string
}.

Module TaskDetailsModal.
Import PyStr.

Definition estimate_is_malformed (m : modal) : bool :=
  truthy (task_estimate m) && negb (isdigit (remove_first "." (task_estimate m))).

Definition consolidate (m : modal) (i : interaction) : task_details :=
  mk_task_details
    (task_name m) (task_description m) (task_estimate m) (start_date m) (due_date m)
    "Em andamento" 2
    (default "" (td_project_id m)) (td_project_name m)
    (user_id i) (user_display_name i)
    (td_aprovador_id m) (td_aprovador_name m)
    (td_version_id m) (td_version_name m)
    None None None.

(** [f"{interaction.user.id}_{interaction.id}"] *)
Definition submission_id (i : interaction) : string :=
  str_of_int (user_id i) +:+ "_" +:+ str_of_int (interaction_id i).

Definition on_submit_body (m : modal) (i : interaction) : proc unit :=
  chat Defer;;
  if estimate_is_malformed m then chat (Send ToRequester (Invalid BadEstimate))
  else
    start_ok ← lift (DateUtils.validate_date (start_date m));
    if negb start_ok then chat (Send ToRequester (Invalid BadStartDate))
    else
      due_ok ← lift (DateUtils.validate_date (due_date m));
      if negb due_ok then chat (Send ToRequester (Invalid BadDueDate))
      else
        '(is_valid, error_message) ←
          lift (DateUtils.compare_dates (start_date m) (due_date m));
        if negb is_valid
        then chat (Send ToRequester (Invalid (BadDateOrder error_message)))
        else if negb (opt_truthy (td_project_id m))
             then chat (Send ToRequester (Invalid NoProject))
             else
               l ← sync (new_dict (consolidate m i));
               let task_id := submission_id i in
               sync (TaskService.add_pending_task task_id l);;
               chat (Send ToApprover (ApprovalRequest task_id));;
               chat (Send ToRequester SubmissionSent).

Definition on_submit (m : modal) (i : interaction) : proc unit :=
  error_handler_method (on_submit_body m i) tt.

End TaskDetailsModal.

(** ** cogs/task_commands.py *)

Module TaskCommands.
Import PyStr.

(** [utils/ui_utils.py], [notify_channel]: nothing it raises gets out. *)
Definition notify_channel (i : interaction) (link : option string) : proc unit :=
  try_except
    (if channel_found i then chat (Send ToChannel (Created link)) else Return tt)
    (fun _ => Return tt).

(** [a or b] on optional strings *)
Definition or_else (a b : option string) : option string :=
  if opt_truthy a then a else b.

Definition approve (i : interaction) (l : nat) : proc unit :=
  sync (update_dict l (set_aprovador_nome (user_display_name i)));;
  try_except
    (chat (Send ToApprover Processing);;
     result ← TaskService.create_task l;
     let task_link := or_else (r_ui_link result) (r_api_link result) in
     chat (Send ToRequester (Created task_link));;
     chat (Send ToApprover (Created task_link));;
     (if in_guild i
      then if py_truthy (notification_channel i)
           then _ ← lift (py_int (notification_channel i));
                notify_channel i task_link
           else Return tt
      else Return tt);;
     Await (Sleep 3) Return;;
     chat (Send ToRequester Feedback);;
     chat (AddReaction 0);;
     chat (AddReaction 1);;
     chat (AddReaction 2);;
     try_except
       (if has_message i
        then chat CreateThread;;
             chat (Send ToThread ThreadIntro);;
             if in_guild i && requester_is_member i
             then chat ThreadAddUser else Return tt
        else Return tt)
       (fun _ => Return tt))
    (fun _ =>
       chat (Send ToRequester NotCreated);;
       chat (Send ToApprover NotCreated)).

Definition default_reason : string :=
  "N" +:+ String (chr 227) "o especificado".

Definition reject (reject_reason : option string) : proc unit :=
  let motivo := default default_reason (or_else reject_reason None) in
  chat (Send ToRequester (Rejected motivo));;
  chat (Send ToApprover (Rejected motivo)).

Definition handle_approval_body (i : interaction) (task_id : string)
    (approved : bool) (reject_reason : option string) : proc unit :=
  chat Defer;;
  task_details ← sync (TaskService.get_pending_task task_id);
  match task_details with
  | None => chat (Send ToApprover TaskNotFound)
  | Some l =>
      d ← sync (read_dict l);
      solicitante ← attempt (await (FetchUser (solicitante_id d)));
      match solicitante with
      | Err _ => chat (Send ToApprover RequesterLookupFailed)
      | Ok _ =>
          (if approved then approve i l else reject reject_reason);;
          sync (TaskService.remove_pending_task task_id);;
          try_except
            (if has_message i then chat DisableButtons else Return tt)
            (fun _ => Return tt)
      end
  end.

Definition handle_approval (i : interaction) (task_id : string)
    (approved : bool) (reject_reason : option string) : proc unit :=
  error_handler (handle_approval_body i task_id approved reject_reason).

End TaskCommands.

(** ** Slices *)

Module PySlice.

(** The position a slice bound stands for in a sequence of length [len]:
    a negative bound counts from the end, and every bound is clipped to
    the sequence. *)
Definition bound (len i : Z) : Z :=
  if i <? 0 then Z.max (len + i) 0 else Z.min i len.

(** [l[start:stop]] *)
Definition slice {A} (l : list A) (start stop : Z) : list A :=
  let len := Z.of_nat (length l) in
  take (Z.to_nat (bound len stop - bound len start)) (drop (Z.to_nat (bound len start)) l).

(** [s[:stop]] *)
Definition str_to (s : string) (stop : Z) : string :=
  String.substring 0 (Z.to_nat (bound (Z.of_nat (String.length s)) stop)) s.

End PySlice.

(** ** utils/string_utils.py *)

Module StringUtils.

(** The default of [suffix]. *)
Definition dots : string := "...".

Definition truncate_string (s : string) (max_length : Z) (suffix : string) : string :=
  if negb (PyStr.truthy s) then EmptyString
  else if Z.of_nat (String.length s) <=? max_length then s
  else PySlice.str_to s (max_length - Z.of_nat (String.length suffix)) +:+ suffix.

End StringUtils.

(** ** ui/selects.py: the dropdown menus *)

Inductive emoji : Type :=
| FolderEmoji | GreenCircle | RedCircle | WhiteCircle.

(** A [discord.SelectOption]. *)
Record select_option : Type := mk_select_option {
  o_label : string;
  o_value : string;
  o_description : string;
  o_emoji : emoji
}.

(** What a dropdown is built with. *)
Record select : Type := mk_select {
  s_placeholder : string;
  s_min_values : Z;
  s_max_values : Z;
  s_options : list select_option
}.

(** The loop of a [callback] that looks the label of the selected value
    up among the options. *)
Fixpoint label_of (options : list select_option) (selected : string) : option string :=
  match options with
  | [] => None
  | o :: rest =>
      if String.eqb (o_value o) selected then Some (o_label o)
      else label_of rest selected
  end.

Module ProjectSelect.
Import PyStr.

(** [(len(self.all_projects) - 1) // ITEMS_PER_PAGE + 1] *)
Definition total_pages (all_projects : list project) : Z :=
  (Z.of_nat (length all_projects) - 1) / ITEMS_PER_PAGE + 1.

Definition current_page_projects (projects : list project) (page : Z) : list project :=
  let start_idx := page * ITEMS_PER_PAGE in
  let end_idx := Z.min (start_idx + ITEMS_PER_PAGE) (Z.of_nat (length projects)) in
  PySlice.slice projects start_idx end_idx.

Definition to_option (p : project) : select_option :=
  mk_select_option
    (StringUtils.truncate_string (p_name p) 90 StringUtils.dots)
    (str_of_int (p_id p))
    (PySlice.str_to ("ID: " +:+ str_of_int (p_id p)) 100)
    FolderEmoji.

Definition init (projects : list project) (page : Z) : select :=
  mk_select
    ("Selecione um projeto (P" +:+ String (chr 225) "gina " +:+ str_of_int (page + 1)
     +:+ "/" +:+ str_of_int (total_pages projects) +:+ ")")
    1 1
    (map to_option (current_page_projects projects page)).

(** The [project_data] that [callback] builds from the selected value:
    the id as selected and the label found for it. *)
Definition project_data (s : select) (selected : string) : string * option string :=
  (selected, label_of (s_options s) selected).

End ProjectSelect.

(** A version of a project, as [get_project_versions] returns it. *)
Record version : Type := mk_version {
  ver_id : Z;
  ver_name : string;
  ver_status : string;
  ver_description : string;
  ver_start_date : option string;
  ver_due_date : option string
}.

Module VersionSelect.
Import PyStr.

Definition no_version_label : string :=
  "Sem vers" +:+ String (chr 227) "o espec" +:+ String (chr 237) "fica".

(** The option added after the versions of every page. *)
Definition no_version : select_option :=
  mk_select_option no_version_label "0"
    ("Criar tarefa sem associar a uma vers" +:+ String (chr 227) "o")
    WhiteCircle.

(** [max(1, (len(self.versions) - 1) // ITEMS_PER_PAGE + 1)] *)
Definition total_pages (versions : list version) : Z :=
  Z.max 1 ((Z.of_nat (length versions) - 1) / ITEMS_PER_PAGE + 1).

Definition current_page_versions (versions : list version) (page : Z) : list version :=
  let items_per_page := ITEMS_PER_PAGE in
  let start_idx := page * items_per_page in
  let end_idx := Z.min (start_idx + items_per_page) (Z.of_nat (length versions)) in
  PySlice.slice versions start_idx end_idx.

Definition to_option (v : version) : select_option :=
  mk_select_option
    (StringUtils.truncate_string (ver_name v) 90 StringUtils.dots)
    (str_of_int (ver_id v))
    (PySlice.str_to ("Status: " +:+ ver_status v) 100)
    (if String.eqb (ver_status v) "open" then GreenCircle else RedCircle).

Definition init (versions : list version) (page : Z) : select :=
  mk_select
    ("Selecione a vers" +:+ String (chr 227) "o (P" +:+ String (chr 225) "gina "
     +:+ str_of_int (page + 1) +:+ "/" +:+ str_of_int (total_pages versions) +:+ ")")
    1 1
    (map to_option (current_page_versions versions page) ++ [no_version]).


End VersionSelect.

(** ** cogs/settings_commands.py *)

Module ServerSettings.
Import PyStr.

(** [self.settings] is a dict of dicts, keyed by [str(guild_id)] and then
    by the name of the setting. *)

(** [get_server_setting(guild_id, key, default)] *)
Definition get_server_setting (guild_id : Z) (key : string) (dflt : pyvalue)
    (s : gmap string (gmap string pyvalue)) : pyvalue :=
  match s !! str_of_int guild_id with
  | None => dflt
  | Some g => match g !! key with
              | Some v => v
              | None => dflt
              end
  end.

(** [set_server_setting(guild_id, key, value)]: the dict of the guild is
    created when missing and the value assigned in it.  [save_settings]
    then writes the file, logging whatever goes wrong: the dict in memory
    is the same either way. *)
Definition set_server_setting (guild_id : Z) (key : string) (value : pyvalue)
    (s : gmap string (gmap string pyvalue)) : gmap string (gmap string pyvalue) :=
  let g := str_of_int guild_id in
  let s1 := match s !! g with
            | None => <[g := ∅]> s
            | Some _ => s
            end in
  alter (insert key value) g s1.

End ServerSettings.

(** ** services/openproject_service.py: the versions of a project *)

Module ProjectVersions.
Import PyStr.

(** An element of the listing that OpenProject answers with. *)
Record remote_version : Type := mk_remote_version {
  rv_id : Z;
  rv_name : string;
  rv_status : string;
  rv_description_raw : option string;
  rv_start_date : option string;
  rv_end_date : option string
}.

(** An entry of [_versions_cache]. *)
Record cached_versions : Type := mk_cached_versions {
  cv_versions : list version;
  cv_timestamp : Q
}.

(** [f"project_{project_id}_versions"] *)
Definition cache_key (project_id : string) : string :=
  "project_" +:+ project_id +:+ "_versions".

Definition to_version (rv : remote_version) : version :=
  mk_version (rv_id rv) (rv_name rv) (rv_status rv)
    (default "" (rv_description_raw rv)) (rv_start_date rv) (rv_end_date rv).

(** [cache_key in self._versions_cache and
     current_time - self._versions_cache[cache_key].get('timestamp', 0) < CACHE_DURATION] *)
Definition cache_is_valid (cache : gmap string cached_versions) (key : string)
    (current_time : Q) : bool :=
  match cache !! key with
  | Some c => Qlt_bool (current_time - cv_timestamp c) CACHE_DURATION
  | None => false
  end.

(** [get_project_versions], on the repository [r] with the versions
    cache [cache], the clock reading [current_time] and OpenProject
    answering a request with [response]: the result, the cache
    afterwards and the URLs requested. *)
Definition get_project_versions (r : repository) (current_time : Q)
    (response : py (list remote_version)) (project_id : string)
    (cache : gmap string cached_versions)
  : py (list version) * gmap string cached_versions * list string :=
  let key := cache_key project_id in
  if cache_is_valid cache key current_time
  then (Ok (default [] (cv_versions <$> cache !! key)), cache, [])
  else
    let url := base_url r +:+ "/api/v3/projects/" +:+ project_id +:+ "/versions" in
    if negb (truthy (base_url r)) || negb (truthy (api_key r))
    then (Err OpenProjectError, cache, [])
    else match response with
         | Ok versions_data =>
             let versions := to_version <$> versions_data in
             (Ok versions, <[key := mk_cached_versions versions current_time]> cache,
              [url])
         | Err _ => (Err OpenProjectError, cache, [url])
         end.

End ProjectVersions.

(** ** ui/selects.py: the project selection view *)

Record view : Type := mk_view {
  v_projects : list project;
  v_total_pages : Z;
  v_current_page : Z;
  v_prev_disabled : bool;
  v_next_disabled : bool
}.

Module ProjectSelectView.

(** [(len(projects) - 1) // ITEMS_PER_PAGE + 1] *)
Definition total_pages (projects : list project) : Z :=
  (Z.of_nat (length projects) - 1) / ITEMS_PER_PAGE + 1.

Definition init (projects : list project) : view :=
  mk_view projects (total_pages projects) 0 true (total_pages projects <=? 1).

(** The assignments of [refresh_projects] once the list has arrived. *)
Definition refreshed (projects : list project) : view :=
  mk_view projects (total_pages projects) 0 true (total_pages projects <=? 1).

(** [refresh_projects] under its [@error_handler], returning the view as
    the call leaves it: the assignments to [self] made before an exception
    stay. *)
Definition refresh_projects (v : view) : proc view :=
  shown ← attempt (chat (Send ToRequester Loading));
  match shown with
  | Err _ => Return v
  | Ok _ =>
      fetched ← attempt TaskService.get_projects;
      match fetched with
      | Ok projects =>
          let v' := refreshed projects in
          sent ← attempt (chat (Send ToRequester (ProjectsRefreshed projects)));
          match sent with
          | Ok _ => Return v'
          | Err _ =>
              error_handler_method (chat (Send ToRequester RefreshFailed)) tt;;
              Return v'
          end
      | Err _ =>
          error_handler_method (chat (Send ToRequester RefreshFailed)) tt;;
          Return v
      end
  end.

(** [update_select]: the dropdown of the current page, which replaces the
    one shown. *)
Definition update_select (v : view) : select :=
  ProjectSelect.init (v_projects v) (v_current_page v).

(** [prev_page] and [next_page]: the view after the call, and whether the
    message was edited.  The edit is the last step, so the assignments
    stay when it raises. *)
Definition prev_page (v : view) : view * bool :=
  if v_current_page v >? 0 then
    let page := v_current_page v - 1 in
    (mk_view (v_projects v) (v_total_pages v) page (page =? 0) false, true)
  else (v, false).

Definition next_page (v : view) : view * bool :=
  if v_current_page v <? v_total_pages v - 1 then
    let page := v_current_page v + 1 in
    (mk_view (v_projects v) (v_total_pages v) page false (page >=? v_total_pages v - 1),
     true)
  else (v, false).

End ProjectSelectView.

(** ** Observations on a run *)

Definition is_post (ev : event) : bool :=
  match ev with
  | EvPost _ _ => true
  | _ => false
  end.

Definition is_get (ev : event) : bool :=
  match ev with
  | EvGetProjects _ => true
  | _ => false
  end.

Definition is_remote (ev : event) : bool := is_post ev || is_get ev.

Fixpoint count_events (p : event -> bool) (tr : list event) : nat :=
  match tr with
  | [] => 0%nat
  | ev :: rest => if p ev then S (count_events p rest) else count_events p rest
  end.

(** The create requests, the project listings and all the requests sent to
    the remote API. *)
Definition posts (tr : list event) : nat := count_events is_post tr.
Definition gets (tr : list event) : nat := count_events is_get tr.
Definition remote_calls (tr : list event) : nat := count_events is_remote tr.

(** A message was sent. *)
Definition notified (to : party) (what : notice) (tr : list event) : Prop :=
  In (EvChat (Send to what)) tr.

(** The submission stored under an id, read through the registry. *)
Definition lookup_submission (task_id : string) (w : world) : option task_details :=
  l ← pending_tasks w !! task_id; dicts w !! l.

(** Successive calls of [get_projects], each with its own answers. *)
Fixpoint get_projects_calls (es : list env) (st : state)
  : list (py (list project)) * state :=
  match es with
  | [] => ([], st)
  | e :: rest =>
      let '(r, st') := run e TaskService.get_projects st in
      let '(rs, st'') := get_projects_calls rest st' in
      (r :: rs, st'')
  end.

(** *** The description body as the specification words it

    Each field that is present on a line of its own, in the fixed order,
    the absent ones left out. *)
Definition spec_description_lines (d : task_details) : list string :=
  (if PyStr.truthy (descricao d) then [descricao d] else [])
  ++ (if PyStr.truthy (data_inicio d)
      then [OpenProjectRepository.label_start +:+ data_inicio d] else [])
  ++ (if PyStr.truthy (data_fim d)
      then [OpenProjectRepository.label_due +:+ data_fim d] else [])
  ++ (if opt_truthy (version_name d)
      then [OpenProjectRepository.label_version +:+ default "" (version_name d)] else [])
  ++ ["Solicitado por: " +:+ solicitante_nome d;
      "Aprovado por: " +:+ default "Aprovador" (aprovador_nome d)].

(** The lines the code writes: the description, always, then an empty
    line, then the optional lines and the two names. *)
Definition description_lines (d : task_details) : list string :=
  [descricao d; ""]
  ++ (if PyStr.truthy (data_inicio d)
      then [OpenProjectRepository.label_start +:+ data_inicio d] else [])
  ++ (if PyStr.truthy (data_fim d)
      then [OpenProjectRepository.label_due +:+ data_fim d] else [])
  ++ (if opt_truthy (version_name d)
      then [OpenProjectRepository.label_version +:+ default "" (version_name d)] else [])
  ++ ["Solicitado por: " +:+ solicitante_nome d;
      "Aprovado por: " +:+ default "Aprovador" (aprovador_nome d)].

(** The checks of [on_submit], by the validators of the code: a malformed
    estimate, a start or due date that [validate_date] does not accept,
    dates that [compare_dates] does not find consistent, or no project. *)
Definition validation_fails (m : modal) : Prop :=
  TaskDetailsModal.estimate_is_malformed m = true
  \/ DateUtils.validate_date (start_date m) <> Ok true
  \/ DateUtils.validate_date (due_date m) <> Ok true
  \/ (forall msg, DateUtils.compare_dates (start_date m) (due_date m) <> Ok (true, msg))
  \/ opt_truthy (td_project_id m) = false.

(** The URL and the key of the remote API are set. *)
Definition configured (r : repository) : Prop :=
  PyStr.truthy (base_url r) = true /\ PyStr.truthy (api_key r) = true.

Definition is_not_found (ev : event) : bool :=
  match ev with
  | EvChat (Send ToApprover TaskNotFound) => true
  | _ => false
  end.

(** The decisions that were answered with "not found". *)
Definition not_found_reports (tr : list event) : nat := count_events is_not_found tr.

(** Every task of the pool has run to its end. *)
Definition all_finished (ts : pool) : bool := forallb (fun t => finished (snd t)) ts.

(** The registry and the create requests are as before. *)
Definition quiet (st st' : state) : Prop :=
  pending_tasks (fst st') = pending_tasks (fst st) /\ posts (snd st') = posts (snd st).

(** *** The duration as the specification words it

    On the exact number of hours: the whole hours, and the remainder
    converted to minutes and truncated. *)
Definition spec_duration (h : Q) : string :=
  let whole := Qfloor h in
  DateUtils.duration_text whole (Qfloor ((h - inject_Z whole) * 60)).

(** The number [format_duration] computes with: an integer is its own
    value, a float stands for its binary64 value, and a decimal literal
    for the binary64 number next to it; nothing for what is not a finite
    number. *)
Definition numeric_value (h : pyvalue) : option Q :=
  match h with
  | PyInt n => Some (inject_Z n)
  | PyFloat x => if PyFloat.is_finite x then Some (PyFloat.value x) else None
  | PyStr s =>
      match PyFloat.scan_decimal 0 None false s with
      | Some (n, k) =>
          if PyFloat.is_finite (PyFloat.of_decimal n k)
          then Some (PyFloat.value (PyFloat.of_decimal n k)) else None
      | None => None
      end
  | PyNone => None
  end.

(** The number a decimal literal [digits[.digits]] denotes. *)
Definition decimal_value (s : string) : option Q :=
  match PyFloat.scan_decimal 0 None false s with
  | Some (n, k) => Some (inject_Z n / inject_Z (10 ^ Z.of_nat k))%Q
  | None => None
  end.

(** ** Sample data *)

Module Sample.

Definition details (title body : string) : task_details :=
  mk_task_details title body "2.5" "10/05/2025" "12/05/2025" "Em andamento" 2
    "7" "Site" 11 "ana" 22 "bob" (Some "3") (Some "v1") None None None.

(** A submission with neither description nor dates nor version, approved
    by bob. *)
Definition bare : task_details :=
  mk_task_details "Fix login" "" "" "" "" "Em andamento" 2
    "7" "Site" 11 "ana" 22 "bob" None None (Some "bob") None None.

Definition remote : repository :=
  OpenProjectRepository.init "https://op.example/" "secret".

(** A registry holding one submission, and a second dict not yet
    registered. *)
Definition one_pending : world :=
  mk_world {[ 0%nat := details "Fix login" "Broken"; 1%nat := details "Other" "" ]}
           {[ "t1" := 0%nat ]} remote.

(** The answers of an outside world in which the chat platform delivers
    everything: the clock, the remote listing and the reply to a create
    request. *)
Definition answers (t : Q) (listing : py (list remote_project))
    (created : py created_task) : env :=
  mk_env t (fun _ => Ok tt) (Ok tt) listing created.

Definition site : remote_project :=
  mk_remote_project 7 "Site" "site" "/api/v3/projects/7" true.

Definition archive : remote_project :=
  mk_remote_project 8 "Archive" "archive" "/api/v3/projects/8" false.

Definition shop : remote_project :=
  mk_remote_project 9 "Shop" "shop" "/api/v3/projects/9" true.

Definition created : created_task :=
  mk_created_task 501 "/api/v3/work_packages/501" true.

(** A process whose cache was filled at time 1000 with the one active
    project the remote side had then. *)
Definition cached : world :=
  mk_world ∅ ∅
    (mk_repository "https://op.example" "secret"
       [OpenProjectRepository.to_project site] 1000%Q).

Definition ana : interaction :=
  mk_interaction 11 "ana" 900 false false false PyNone false.

Definition bob : interaction :=
  mk_interaction 22 "bob" 901 false false false PyNone false.

(** A second click of bob on the same message. *)
Definition bob_again : interaction :=
  mk_interaction 22 "bob" 902 false false false PyNone false.

Definition filled (title : string) (start due : string) : modal :=
  mk_modal title "Broken" "2.5" start due (Some "7") "Site" 22 "bob"
           (Some "3") (Some "v1").

(** The same outside world, but the requester cannot be looked up. *)
Definition lost_requester (t : Q) : env :=
  mk_env t (fun _ => Ok tt) (Err ChatError) (Ok [site]) (Ok created).

(** Two tasks resumed in turn, [n] times each. *)
Fixpoint round_robin (n : nat) : list nat :=
  match n with
  | O => []
  | S k => 0%nat :: 1%nat :: round_robin k
  end.

(** Two approvals of the submission ["t1"], from two clicks. *)
Definition two_approvals : pool :=
  [(answers 2000 (Ok [site]) (Ok created),
    TaskCommands.handle_approval bob "t1" true None);
   (answers 2001 (Ok [site]) (Ok created),
    TaskCommands.handle_approval bob_again "t1" true None)].

(** The float [-2.5]. *)
Definition minus_two_and_a_half : PyFloat.float :=
  S754_finite true 5629499534213120 (-51).

(** The floats [2.5] and [3.0]. *)
Definition two_and_a_half : PyFloat.float :=
  S754_finite false 5629499534213120 (-51).

Definition three : PyFloat.float :=
  S754_finite false 6755399441055744 (-51).

End Sample.

(** ** ASCII texts *)

(** [str.isascii]: every character has a code point below 128.  In such
    a text the only characters that [\d], [int()], [float()] and
    [str.isdigit] take for digits are [0-9]. *)
Definition isascii (s : string) : bool :=
  PyStr.all_chars (fun c => PyStr.code c <? 128) s.

(** The superscript digits U+00B2, U+00B3 and U+00B9. *)
Definition is_superscript (c : ascii) : bool :=
  (PyStr.code c =? 178) || (PyStr.code c =? 179) || (PyStr.code c =? 185).

(** ** Dates as texts *)

(** The number written by decimal digits, most significant first. *)
Definition number_of_digits (digits : list ascii) : Z :=
  fold_left (fun acc c => 10 * acc + PyStr.digit_value c) digits 0.

(** The text [d1 d2 / m1 m2 / y1 y2 y3 y4] followed by [rest]. *)
Definition date_text (d1 d2 m1 m2 y1 y2 y3 y4 : ascii) (rest : string) : string :=
  String d1 (String d2 (String "/" (String m1 (String m2 (String "/"
    (String y1 (String y2 (String y3 (String y4 rest))))))))).

(** A day that exists in the calendar of [datetime]. *)
Definition calendar_date (year month day : Z) : bool :=
  (1 <=? year) && (year <=? 9999) && (1 <=? month) && (month <=? 12)
  && (1 <=? day) && (day <=? DateUtils.days_in_month year month).

(** ** What a run may change *)

(** Between two states: the registry differs under [task_id] at most,
    where the entry is the same or gone; no dict object was written to
    but the one at [written], if any; the calls issued before are still
    there, with at most [np] create requests and [ng] listings sent after
    them. *)
Definition changed_at_most (task_id : string) (written : option nat) (np ng : nat)
    (st st' : state) : Prop :=
  (forall other, other <> task_id ->
     pending_tasks (fst st') !! other = pending_tasks (fst st) !! other)
  /\ (pending_tasks (fst st') !! task_id = pending_tasks (fst st) !! task_id
      \/ pending_tasks (fst st') !! task_id = None)
  /\ (forall l, written <> Some l -> dicts (fst st') !! l = dicts (fst st) !! l)
  /\ (posts (snd st) <= posts (snd st') <= posts (snd st) + np)%nat
  /\ (gets (snd st) <= gets (snd st') <= gets (snd st) + ng)%nat.

(** A coroutine that changes no more than that, whatever the state and
    the answers it gets. *)
Definition keeps {A} (task_id : string) (written : option nat) (np ng : nat)
    (p : proc A) : Prop :=
  forall e st, changed_at_most task_id written np ng st (snd (run e p st)).

(** ** Notices of a failure *)

Definition is_not_created (ev : event) : bool :=
  match ev with
  | EvChat (Send _ NotCreated) => true
  | _ => false
  end.

(** The messages that told somebody that the task was approved but not
    created. *)
Definition failure_notices (tr : list event) : nat := count_events is_not_created tr.

(** The create requests of a run, in order. *)
Fixpoint posted (tr : list event) : list (string * payload) :=
  match tr with
  | [] => []
  | EvPost url body :: rest => (url, body) :: posted rest
  | _ :: rest => posted rest
  end.


(** ** Paging through a view *)

Inductive button : Type :=
| PrevButton | NextButton.

(** The view after a press of one of its paging buttons. *)
Definition press (v : view) (b : button) : view :=
  match b with
  | PrevButton => fst (ProjectSelectView.prev_page v)
  | NextButton => fst (ProjectSelectView.next_page v)
  end.

(** The pages of a list, first to last. *)
Definition all_pages (projects : list project) : list (list project) :=
  map (ProjectSelect.current_page_projects projects)
      (seqZ 0 (ProjectSelect.total_pages projects)).

(** A view whose page and buttons agree with its list: the page is one of
    the pages of the list (the first, when there is none), the "previous"
    button is disabled on the first page only and the "next" button on the
    last only. *)
Definition view_in_order (v : view) : Prop :=
  v_total_pages v = ProjectSelectView.total_pages (v_projects v)
  /\ 0 <= v_current_page v
  /\ (v_current_page v = 0 \/ v_current_page v < v_total_pages v)
  /\ v_prev_disabled v = (v_current_page v =? 0)
  /\ v_next_disabled v = (v_total_pages v - 1 <=? v_current_page v).

(** ** A stored submission *)

(** The state once [on_submit] has stored the submission: a new dict
    object that holds it, registered under the id of the submission. *)
Definition submitted (m : modal) (i : interaction) (w : world) : world :=
  mk_world (<[fresh (dom (dicts w)) := TaskDetailsModal.consolidate m i]> (dicts w))
           (<[TaskDetailsModal.submission_id i := fresh (dom (dicts w))]> (pending_tasks w))
           (repo w).

(** * Properties *)

(** ** The pending-task registry *)

Section Registry.
Import TaskService.

Lemma get_after_add task_id l w :
  fst (get_pending_task task_id (snd (add_pending_task task_id l w))) = Some l.
Proof. cbn. apply lookup_insert_eq. Qed.

Lemma get_after_remove task_id w :
  fst (get_pending_task task_id (snd (remove_pending_task task_id w))) = None.
Proof.
  unfold remove_pending_task.
  destruct (pending_tasks w !! task_id) eqn:E; cbn; [apply lookup_delete_eq | exact E].
Qed.

Lemma remove_absent task_id w :
  pending_tasks w !! task_id = None -> remove_pending_task task_id w = (tt, w).
Proof. intros E. unfold remove_pending_task. now rewrite E. Qed.

Lemma remove_twice task_id w :
  remove_pending_task task_id (snd (remove_pending_task task_id w))
  = remove_pending_task task_id w.
Proof.
  unfold remove_pending_task at 2 3.
  destruct (pending_tasks w !! task_id) eqn:E; cbn.
  - apply remove_absent. cbn. apply lookup_delete_eq.
  - now apply remove_absent.
Qed.
End Registry.

(** C4, as the code has it: [add_pending_task] on an id that is already
    in the registry returns normally and stores the new submission in
    place of the old one; the registry keeps its size and every other id
    keeps its entry. *)
Theorem add_pending_task_replaces (w : world) (task_id : string) (l l' : nat)
    (Hpresent : pending_tasks w !! task_id = Some l') :
  let w' := snd (TaskService.add_pending_task task_id l w) in
  fst (TaskService.add_pending_task task_id l w) = tt
  /\ pending_tasks w' !! task_id = Some l
  /\ size (pending_tasks w') = size (pending_tasks w)
  /\ (forall other, other <> task_id ->
        pending_tasks w' !! other = pending_tasks w !! other)
  /\ dicts w' = dicts w.
Proof.
  cbn. repeat split.
  - apply lookup_insert_eq.
  - rewrite <- (insert_delete_id (pending_tasks w) task_id l') at 2 by exact Hpresent.
    rewrite <- (insert_delete_eq (pending_tasks w) task_id l).
    rewrite !map_size_insert_None by apply lookup_delete_eq. reflexivity.
  - intros other Hne. now apply lookup_insert_ne.
Qed.

Lemma add_pending_task_replaces_witness :
  pending_tasks Sample.one_pending !! "t1" = Some 0%nat
  /\ pending_tasks (snd (TaskService.add_pending_task "t1" 1%nat Sample.one_pending))
       !! "t1" = Some 1%nat.
Proof.
  split; [reflexivity |].
  apply (add_pending_task_replaces Sample.one_pending "t1" 1%nat 0%nat).
  reflexivity.
Defined.

(** C4, as the specification states it, fails: adding under the id ["t1"],
    which is present, does not fail and the lookup then yields the new
    submission, not the one that was there. *)
Lemma add_pending_task_overwrites :
  lookup_submission "t1" Sample.one_pending = Some (Sample.details "Fix login" "Broken")
  /\ fst (TaskService.add_pending_task "t1" 1%nat Sample.one_pending) = tt
  /\ lookup_submission "t1"
       (snd (TaskService.add_pending_task "t1" 1%nat Sample.one_pending))
     = Some (Sample.details "Other" "").
Proof. repeat split; vm_compute; reflexivity. Qed.

(** ** The description body *)

Lemma append_assoc (a b c : string) : (a +:+ b) +:+ c = a +:+ b +:+ c.
Proof.
  induction a as [| x a IH]; [reflexivity |].
  change (String x ((a +:+ b) +:+ c) = String x (a +:+ b +:+ c)).
  now rewrite IH.
Qed.

Lemma append_empty_r (a : string) : a +:+ "" = a.
Proof.
  induction a as [| x a IH]; [reflexivity |].
  change (String x (a +:+ "") = String x a). now rewrite IH.
Qed.

(** C7, as the code has it: the description body is the description
    (even an empty one), an empty line, then the start date, the due date
    and the version name, each on a line when present and left out
    otherwise, then the requester and the approver, joined by line feeds. *)
Theorem description_text_lines (d : task_details) :
  OpenProjectRepository.description_text d
  = PyStr.join PyStr.LF (description_lines d).
Proof.
  unfold OpenProjectRepository.description_text, description_lines.
  destruct (PyStr.truthy (data_inicio d)), (PyStr.truthy (data_fim d)),
    (opt_truthy (version_name d));
    cbn [app PyStr.join]; rewrite ?append_assoc; reflexivity.
Qed.

(** C7, as the specification states it, fails: a submission without a
    description yields a body that starts with two empty lines, where the
    specification has the absent field left out. *)
Lemma description_text_blank_lines :
  PyStr.split (PyStr.chr 10) (OpenProjectRepository.description_text Sample.bare)
  = [""; ""; "Solicitado por: ana"; "Aprovado por: bob"]
  /\ spec_description_lines Sample.bare
     = ["Solicitado por: ana"; "Aprovado por: bob"]
  /\ OpenProjectRepository.description_text Sample.bare
     <> PyStr.join PyStr.LF (spec_description_lines Sample.bare).
Proof. repeat split; vm_compute; congruence. Qed.

(** ** The project cache *)

Lemma count_events_app p tr tr' :
  count_events p (tr ++ tr') = (count_events p tr + count_events p tr')%nat.
Proof.
  induction tr as [| ev tr IH]; cbn; [reflexivity |].
  destruct (p ev); cbn; now rewrite IH.
Qed.

Lemma Qlt_bool_true x y : Qlt_bool x y = true <-> (x < y)%Q.
Proof.
  unfold Qlt_bool. rewrite negb_true_iff, <- not_true_iff_false, Qle_bool_iff.
  split; [apply Qnot_le_lt | apply Qlt_not_le].
Qed.

Section ProjectCache.
Import OpenProjectRepository.

(** A valid cache answers the call: no request, no change of state. *)
Lemma get_projects_hit e w tr :
  cache_is_valid (repo w) (clock e) = true ->
  run e get_projects (w, tr) = (Ok (projects_cache (repo w)), (w, tr)).
Proof. intros H. cbn. rewrite H. reflexivity. Qed.

(** Without a valid cache one request is sent and, when it succeeds,
    its active projects replace the cache. *)
Lemma get_projects_miss e w tr elements :
  cache_is_valid (repo w) (clock e) = false ->
  configured (repo w) ->
  get_projects_response e = Ok elements ->
  run e get_projects (w, tr)
  = (Ok (active_projects elements),
     (snd (update_cache (active_projects elements) (clock e) w),
      (tr ++ [EvGetProjects (base_url (repo w) +:+ "/api/v3/projects")])%list)).
Proof.
  intros H [Hu Hk] Hr. cbn. rewrite H. cbn. rewrite Hu, Hk. cbn.
  rewrite Hr. reflexivity.
Qed.
End ProjectCache.

Section CacheWindow.
Import OpenProjectRepository.

Lemma cache_is_valid_within r t :
  projects_cache r <> [] ->
  (t - cache_timestamp r < CACHE_DURATION)%Q ->
  cache_is_valid r t = true.
Proof.
  intros Hne Hlt. unfold cache_is_valid.
  destruct (projects_cache r); [congruence |]. now apply Qlt_bool_true.
Qed.

Lemma cache_is_valid_after r t :
  ~ (t - cache_timestamp r < CACHE_DURATION)%Q ->
  cache_is_valid r t = false.
Proof.
  intros Hge. unfold cache_is_valid.
  destruct (projects_cache r); [reflexivity |].
  apply not_true_iff_false. now rewrite Qlt_bool_true.
Qed.

(** However many calls fall inside the window, each is answered from the
    cache and none moves the state. *)
Lemma calls_within_window es w tr :
  projects_cache (repo w) <> [] ->
  Forall (fun e => (clock e - cache_timestamp (repo w) < CACHE_DURATION)%Q) es ->
  get_projects_calls es (w, tr)
  = (map (fun _ => Ok (projects_cache (repo w))) es, (w, tr)).
Proof.
  intros Hne Hall. induction Hall as [| e es He _ IH]; [reflexivity |].
  cbn [get_projects_calls map]. unfold TaskService.get_projects.
  rewrite get_projects_hit by now apply cache_is_valid_within.
  now rewrite IH.
Qed.
End CacheWindow.

Section EmptyCache.
Import OpenProjectRepository.

(** An empty cache is never valid, whatever the clock reads. *)
Lemma cache_is_valid_empty r t : projects_cache r = [] -> cache_is_valid r t = false.
Proof. unfold cache_is_valid. now intros ->. Qed.

(** As long as the listings have no active project, every call sends a
    request, whenever it is made. *)
Lemma calls_on_empty_cache es w tr :
  projects_cache (repo w) = [] ->
  configured (repo w) ->
  Forall (fun e => exists listing, get_projects_response e = Ok listing
                                   /\ active_projects listing = []) es ->
  let '(rs, (w', tr')) := get_projects_calls es (w, tr) in
  rs = map (fun _ => Ok []) es
  /\ gets tr' = (gets tr + length es)%nat
  /\ projects_cache (repo w') = [].
Proof.
  intros Hempty Hconf Hall. revert w tr Hempty Hconf.
  induction Hall as [| e es (listing & He & Hnone) _ IH]; intros w tr Hempty Hconf.
  - cbn. repeat split; [lia | exact Hempty].
  - cbn [get_projects_calls]. unfold TaskService.get_projects.
    rewrite (get_projects_miss e w tr listing (cache_is_valid_empty _ _ Hempty) Hconf He).
    rewrite Hnone. cbn [snd update_cache].
    match goal with
    | |- context [get_projects_calls es (?w1, ?tr1)] =>
        specialize (IH w1 tr1 eq_refl Hconf);
        destruct (get_projects_calls es (w1, tr1)) as [rs [w' tr']]
    end.
    destruct IH as (-> & Hgets & Hcache).
    split; [reflexivity |]. split; [| exact Hcache].
    rewrite Hgets. unfold gets. rewrite count_events_app. cbn. lia.
Qed.
End EmptyCache.

(** C5, as the code has it: the first [get_projects] of a fresh process
    sends one request and returns the active projects of the listing.
    When these are not empty, every further call made before
    [CACHE_DURATION] has elapsed sends none and returns the cached list,
    and the first call after the window sends exactly one more.  When
    they are empty, the empty list is never served from the cache: as
    long as the listings have no active project, every further call,
    whenever it is made, sends a request of its own. *)
Theorem get_projects_cache_window
    (url key : string) (e0 : env) (es : list env) (e1 : env)
    (listing0 listing1 : list remote_project)
    (Hconf : configured (OpenProjectRepository.init url key))
    (Hfirst : get_projects_response e0 = Ok listing0)
    (Hwithin : Forall (fun e => (clock e - clock e0 < CACHE_DURATION)%Q) es)
    (Hafter : ~ (clock e1 - clock e0 < CACHE_DURATION)%Q)
    (Hlater : get_projects_response e1 = Ok listing1) :
  let '(r0, st0) := run e0 TaskService.get_projects (fresh_world url key, []) in
  r0 = Ok (OpenProjectRepository.active_projects listing0)
  /\ gets (snd st0) = 1%nat
  /\ (OpenProjectRepository.active_projects listing0 <> [] ->
      let '(rs, st1) := get_projects_calls es st0 in
      let '(r1, st2) := run e1 TaskService.get_projects st1 in
      rs = map (fun _ => Ok (OpenProjectRepository.active_projects listing0)) es
      /\ gets (snd st1) = 1%nat
      /\ r1 = Ok (OpenProjectRepository.active_projects listing1)
      /\ gets (snd st2) = 2%nat)
  /\ (OpenProjectRepository.active_projects listing0 = [] ->
      forall again : list env,
        Forall (fun e => exists listing,
                  get_projects_response e = Ok listing
                  /\ OpenProjectRepository.active_projects listing = []) again ->
        let '(rs, st1) := get_projects_calls again st0 in
        rs = map (fun _ => Ok []) again
        /\ gets (snd st1) = S (length again)).
Proof.
  unfold TaskService.get_projects.
  rewrite (get_projects_miss e0 _ _ listing0); [| reflexivity | exact Hconf | exact Hfirst].
  split; [reflexivity |]. split; [reflexivity |]. split.
  - intros Hnonempty.
    rewrite calls_within_window; [| exact Hnonempty | exact Hwithin].
    rewrite (get_projects_miss e1 _ _ listing1);
      [| now apply cache_is_valid_after | exact Hconf | exact Hlater].
    cbn [snd]. unfold gets. rewrite !count_events_app. cbn. repeat split.
  - intros Hnone again Hagain. rewrite Hnone.
    match goal with
    | |- context [get_projects_calls again (?w1, ?tr1)] =>
        pose proof (calls_on_empty_cache again w1 tr1 eq_refl Hconf Hagain) as Hcalls;
        destruct (get_projects_calls again (w1, tr1)) as [rs [w' tr']]
    end.
    destruct Hcalls as (-> & Hgets & _). split; [reflexivity |].
    cbn [snd]. rewrite Hgets. reflexivity.
Qed.

Lemma get_projects_cache_window_witness :
  (let '(r0, st0) :=
     run (Sample.answers 1000 (Ok [Sample.site; Sample.archive]) (Ok Sample.created))
         TaskService.get_projects (fresh_world "https://op.example/" "secret", []) in
   let '(rs, st1) :=
     get_projects_calls
       [Sample.answers 1001 (Ok [Sample.shop]) (Ok Sample.created);
        Sample.answers 4599 (Ok []) (Ok Sample.created)] st0 in
   let '(r1, st2) :=
     run (Sample.answers 4600 (Ok [Sample.site; Sample.shop]) (Ok Sample.created))
         TaskService.get_projects st1 in
   r0 = Ok [OpenProjectRepository.to_project Sample.site]
   /\ gets (snd st0) = 1%nat
   /\ rs = [Ok [OpenProjectRepository.to_project Sample.site];
            Ok [OpenProjectRepository.to_project Sample.site]]
   /\ gets (snd st1) = 1%nat
   /\ r1 = Ok [OpenProjectRepository.to_project Sample.site;
               OpenProjectRepository.to_project Sample.shop]
   /\ gets (snd st2) = 2%nat)
  /\ (let '(r0, st0) :=
        run (Sample.answers 1000 (Ok [Sample.archive]) (Ok Sample.created))
            TaskService.get_projects (fresh_world "https://op.example/" "secret", []) in
      let '(rs, st1) :=
        get_projects_calls
          [Sample.answers 1001 (Ok [Sample.archive]) (Ok Sample.created);
           Sample.answers 1002 (Ok []) (Ok Sample.created);
           Sample.answers 9000 (Ok [Sample.archive]) (Ok Sample.created)] st0 in
      r0 = Ok [] /\ gets (snd st0) = 1%nat
      /\ rs = [Ok []; Ok []; Ok []] /\ gets (snd st1) = 4%nat).
Proof.
  split.
  - pose proof (get_projects_cache_window "https://op.example/" "secret"
      (Sample.answers 1000 (Ok [Sample.site; Sample.archive]) (Ok Sample.created))
      [Sample.answers 1001 (Ok [Sample.shop]) (Ok Sample.created);
       Sample.answers 4599 (Ok []) (Ok Sample.created)]
      (Sample.answers 4600 (Ok [Sample.site; Sample.shop]) (Ok Sample.created))
      [Sample.site; Sample.archive] [Sample.site; Sample.shop]) as H.
    destruct (run _ TaskService.get_projects (fresh_world _ _, [])) as [r0 st0].
    destruct H as (Hr0 & Hg0 & Hserved & _).
    + split; reflexivity.
    + reflexivity.
    + repeat constructor.
    + intros Hlt. vm_compute in Hlt. discriminate.
    + reflexivity.
    + specialize (Hserved ltac:(discriminate)).
      destruct (get_projects_calls _ st0) as [rs st1].
      destruct (run _ TaskService.get_projects st1) as [r1 st2].
      destruct Hserved as (Hrs & Hg1 & Hr1 & Hg2). repeat split; assumption.
  - pose proof (get_projects_cache_window "https://op.example/" "secret"
      (Sample.answers 1000 (Ok [Sample.archive]) (Ok Sample.created))
      [] (Sample.answers 4600 (Ok []) (Ok Sample.created))
      [Sample.archive] []) as H.
    destruct (run _ TaskService.get_projects (fresh_world _ _, [])) as [r0 st0].
    destruct H as (Hr0 & Hg0 & _ & Hagain).
    + split; reflexivity.
    + reflexivity.
    + constructor.
    + intros Hlt. vm_compute in Hlt. discriminate.
    + reflexivity.
    + specialize (Hagain eq_refl
        [Sample.answers 1001 (Ok [Sample.archive]) (Ok Sample.created);
         Sample.answers 1002 (Ok []) (Ok Sample.created);
         Sample.answers 9000 (Ok [Sample.archive]) (Ok Sample.created)]).
      destruct (get_projects_calls _ st0) as [rs st1].
      destruct Hagain as (Hrs & Hg1).
      * repeat constructor; eexists; split; reflexivity.
      * repeat split; assumption.
Defined.

(** C5, as the specification states it, fails when no project of the
    listing is active: the empty list is stored but never served, and a
    second call one second later sends a second request. *)
Lemma get_projects_refetches_empty :
  let e0 := Sample.answers 1000 (Ok [Sample.archive]) (Ok Sample.created) in
  let e1 := Sample.answers 1001 (Ok [Sample.archive]) (Ok Sample.created) in
  let '(r0, st0) :=
    run e0 TaskService.get_projects (fresh_world "https://op.example/" "secret", []) in
  let '(r1, st1) := run e1 TaskService.get_projects st0 in
  r0 = Ok [] /\ gets (snd st0) = 1%nat
  /\ (clock e1 - clock e0 < CACHE_DURATION)%Q
  /\ r1 = Ok [] /\ gets (snd st1) = 2%nat.
Proof. vm_compute. repeat split. Qed.

(** ** The refresh action *)

(** Whatever the remote side holds by now, [refresh_projects] over a valid
    cache sends no request and shows the cached list again. *)
Lemma refresh_projects_over_valid_cache (v : view) (e : env) (w : world)
    (tr : list event) :
  OpenProjectRepository.cache_is_valid (repo w) (clock e) = true ->
  chat_result e (Send ToRequester Loading) = Ok tt ->
  let '(r, (w', tr')) := run e (ProjectSelectView.refresh_projects v) (w, tr) in
  w' = w
  /\ gets tr' = gets tr
  /\ exists v', r = Ok v' /\ v_projects v' = projects_cache (repo w).
Proof.
  intros Hvalid Hload. cbn. rewrite Hload. cbn. rewrite Hvalid. cbn.
  destruct (chat_result e (Send ToRequester (ProjectsRefreshed _))) as [[] | x]; cbn.
  - unfold gets, log. cbn. rewrite !count_events_app. cbn.
    repeat split; [lia | eauto].
  - destruct (chat_result e (Send ToRequester RefreshFailed)) as [[] | y]; cbn;
      unfold gets, log; cbn; rewrite !count_events_app; cbn;
      (repeat split; [lia | eauto]).
Qed.

(** C3 on the code: ten seconds after the cache was filled, with a new
    project on the remote side, the refresh action sends no request to the
    remote API and shows the cached list, without the new project. *)
Theorem refresh_projects_serves_cache :
  let e := Sample.answers 1010 (Ok [Sample.site; Sample.shop]) (Ok Sample.created) in
  let '(r, (w', tr')) :=
    run e (ProjectSelectView.refresh_projects
             (ProjectSelectView.init [OpenProjectRepository.to_project Sample.site]))
        (Sample.cached, []) in
  gets tr' = 0%nat
  /\ remote_calls tr' = 0%nat
  /\ r = Ok (ProjectSelectView.init [OpenProjectRepository.to_project Sample.site])
  /\ w' = Sample.cached.
Proof. vm_compute. repeat split. Qed.

(** ** Running a coroutine piece by piece *)

Lemma run_bind {A B} (e : env) (p : proc A) (k : A -> proc B) (st : state) :
  run e (p ≫= k) st
  = match run e p st with
    | (Ok a, st') => run e (k a) st'
    | (Err x, st') => (Err x, st')
    end.
Proof.
  revert st. induction p as [a | x | X f k' IH | X c k' IH]; intros st; cbn.
  - reflexivity.
  - reflexivity.
  - destruct (f (fst st)) as [y w]. apply IH.
  - apply IH.
Qed.

Lemma run_try_except {A} (e : env) (p : proc A) (h : exn -> proc A) (st : state) :
  run e (try_except p h) st
  = match run e p st with
    | (Ok a, st') => (Ok a, st')
    | (Err x, st') => run e (h x) st'
    end.
Proof.
  revert st. induction p as [a | x | X f k' IH | X c k' IH]; intros st; cbn.
  - reflexivity.
  - reflexivity.
  - destruct (f (fst st)) as [y w]. apply IH.
  - apply IH.
Qed.

Lemma run_chat (e : env) (c : chat_call) (st : state) :
  run e (chat c) st = (chat_result e c, (fst st, (snd st ++ [EvChat c])%list)).
Proof. cbn. destruct (chat_result e c); reflexivity. Qed.

Lemma remote_calls_chat (tr : list event) (c : chat_call) :
  remote_calls (tr ++ [EvChat c]) = remote_calls tr.
Proof. unfold remote_calls. rewrite count_events_app. cbn. lia. Qed.

(** ** Submitting *)

(** The submitter is told and nothing else happens. *)
Ltac told :=
  rewrite run_chat; cbn [fst snd];
  match goal with
  | |- context [chat_result ?e ?c] => destruct (chat_result e c)
  end;
  cbn [run]; now rewrite !remote_calls_chat.

(** C6, as the code has it: a submission that fails one of the checks of
    [on_submit] (malformed estimate, malformed date, due date before
    start date, no project) leaves the whole state, the registry with it,
    as it was and sends nothing to the remote API. *)
Theorem on_submit_invalid_no_write (m : modal) (i : interaction) (e : env)
    (st : state) (Hinvalid : validation_fails m) :
  let '(_, (w', tr')) := run e (TaskDetailsModal.on_submit m i) st in
  w' = fst st
  /\ pending_tasks w' = pending_tasks (fst st)
  /\ remote_calls tr' = remote_calls (snd st).
Proof.
  destruct st as [w tr].
  unfold TaskDetailsModal.on_submit, error_handler_method.
  rewrite run_try_except.
  unfold TaskDetailsModal.on_submit_body.
  rewrite run_bind, run_chat. cbn [fst snd].
  destruct (chat_result e Defer) as [[] | x]; cbn [run];
    [| now rewrite remote_calls_chat].
  destruct (TaskDetailsModal.estimate_is_malformed m) eqn:Hest.
  { told. }
  rewrite run_bind.
  destruct (DateUtils.validate_date (start_date m)) as [[] | x] eqn:Hstart;
    cbn [lift run negb]; [| told | now rewrite remote_calls_chat].
  rewrite run_bind.
  destruct (DateUtils.validate_date (due_date m)) as [[] | x] eqn:Hdue;
    cbn [lift run negb]; [| told | now rewrite remote_calls_chat].
  rewrite run_bind.
  destruct (DateUtils.compare_dates (start_date m) (due_date m))
    as [[[] msg] | x] eqn:Hcmp;
    cbn [lift run negb]; [| told | now rewrite remote_calls_chat].
  destruct (opt_truthy (td_project_id m)) eqn:Hproj; cbn [negb]; [| told].
  exfalso. destruct Hinvalid as [H | [H | [H | [H | H]]]];
    [congruence | now apply H | now apply H | now apply (H msg) | congruence].
Qed.

Lemma on_submit_invalid_no_write_witness :
  let '(_, (w', tr')) :=
    run (Sample.answers 1000 (Ok []) (Ok Sample.created))
        (TaskDetailsModal.on_submit
           (Sample.filled "Fix login" "10/05/2025" "09/05/2025") Sample.ana)
        (Sample.one_pending, []) in
  w' = Sample.one_pending
  /\ pending_tasks w' = pending_tasks Sample.one_pending
  /\ remote_calls tr' = 0%nat.
Proof.
  apply (on_submit_invalid_no_write
           (Sample.filled "Fix login" "10/05/2025" "09/05/2025") Sample.ana
           (Sample.answers 1000 (Ok []) (Ok Sample.created))
           (Sample.one_pending, [])).
  right. right. right. left. intros msg. vm_compute. discriminate.
Defined.

(** C6, as the specification states it, fails for the empty title:
    [on_submit] has no check of the title (the form marks the field as
    required), so a submission whose title is empty and whose other
    fields are in order is written to the registry. *)
Lemma on_submit_empty_title_registers :
  let '(_, (w', tr')) :=
    run (Sample.answers 1000 (Ok []) (Ok Sample.created))
        (TaskDetailsModal.on_submit
           (Sample.filled "" "10/05/2025" "12/05/2025") Sample.ana)
        (Sample.one_pending, []) in
  size (pending_tasks Sample.one_pending) = 1%nat
  /\ size (pending_tasks w') = 2%nat
  /\ nome_da_tarefa <$> lookup_submission "11_900" w' = Some "".
Proof. vm_compute. repeat split. Qed.

(** ** Deciding *)

Lemma run_sync {X} (e : env) (f : world -> X * world) (st : state) :
  run e (sync f) st = (Ok (fst (f (fst st))), (snd (f (fst st)), snd st)).
Proof. cbn. now destruct (f (fst st)). Qed.

Lemma run_await {A} (e : env) (c : call (py A)) (st : state) :
  run e (await c) st = (answer e c, (fst st, log c (snd st))).
Proof. cbn. now destruct (answer e c). Qed.

Lemma run_attempt {A} (e : env) (p : proc A) (st : state) :
  run e (attempt p) st = (Ok (fst (run e p st)), snd (run e p st)).
Proof.
  unfold attempt. rewrite run_try_except, run_bind.
  now destruct (run e p st) as [[a | x] st'].
Qed.

Lemma run_lift {A} (e : env) (r : py A) (st : state) : run e (lift r) st = (r, st).
Proof. now destruct r. Qed.

Lemma posts_chat (tr : list event) (c : chat_call) :
  posts (tr ++ [EvChat c]) = posts tr.
Proof. unfold posts. rewrite count_events_app. cbn. lia. Qed.

Lemma posts_fetch_user (tr : list event) (uid : Z) :
  posts (tr ++ [EvFetchUser uid]) = posts tr.
Proof. unfold posts. rewrite count_events_app. cbn. lia. Qed.

Lemma remote_calls_fetch_user (tr : list event) (uid : Z) :
  remote_calls (tr ++ [EvFetchUser uid]) = remote_calls tr.
Proof. unfold remote_calls. rewrite count_events_app. cbn. lia. Qed.

(** A decision on an id that is not in the registry tells the approver so
    and does nothing else. *)
Lemma handle_approval_not_found (i : interaction) (task_id : string)
    (approved : bool) (reason : option string) (e : env) (w : world)
    (tr : list event) :
  pending_tasks w !! task_id = None ->
  let '(r, (w', tr')) :=
    run e (TaskCommands.handle_approval i task_id approved reason) (w, tr) in
  r = Ok tt /\ w' = w /\ remote_calls tr' = remote_calls tr
  /\ (chat_result e Defer = Ok tt -> notified ToApprover TaskNotFound tr').
Proof.
  intros Habsent.
  unfold TaskCommands.handle_approval, error_handler, TaskCommands.handle_approval_body.
  rewrite run_try_except, run_bind, run_chat. cbn [fst snd].
  destruct (chat_result e Defer) as [[] | x].
  - rewrite run_bind, run_sync. cbn [fst snd TaskService.get_pending_task].
    rewrite Habsent, run_chat. cbn [fst snd].
    assert (Hin : notified ToApprover TaskNotFound
                    ((tr ++ [EvChat Defer]) ++ [EvChat (Send ToApprover TaskNotFound)])).
    { unfold notified. rewrite !in_app_iff. right. now left. }
    destruct (chat_result e (Send ToApprover TaskNotFound)) as [[] | x].
    + rewrite !remote_calls_chat. auto.
    + rewrite run_try_except, run_chat. cbn [fst snd].
      destruct (chat_result e _) as [[] | y]; cbn [run];
        rewrite !remote_calls_chat; repeat split; auto;
        intros _; unfold notified in *; rewrite in_app_iff; now left.
  - rewrite run_try_except, run_chat. cbn [fst snd].
    destruct (chat_result e _) as [[] | y]; cbn [run];
      rewrite !remote_calls_chat; repeat split; auto; discriminate.
Qed.

(** C10: when the lookup of the requester fails for a submission found in
    the registry, the handler returns with the state as it was: the entry
    is still there under the same id, with the same submission, and no
    request went to the remote API. *)
Theorem handle_approval_requester_lookup_fails (i : interaction)
    (task_id : string) (approved : bool) (reason : option string) (e : env)
    (w : world) (tr : list event) (l : nat) (x : exn)
    (Hfound : pending_tasks w !! task_id = Some l)
    (Hlookup : fetch_user_result e = Err x) :
  let '(r, (w', tr')) :=
    run e (TaskCommands.handle_approval i task_id approved reason) (w, tr) in
  r = Ok tt
  /\ w' = w
  /\ pending_tasks w' !! task_id = Some l
  /\ posts tr' = posts tr
  /\ remote_calls tr' = remote_calls tr.
Proof.
  unfold TaskCommands.handle_approval, error_handler, TaskCommands.handle_approval_body.
  rewrite run_try_except, run_bind, run_chat. cbn [fst snd].
  destruct (chat_result e Defer) as [[] | y].
  - rewrite run_bind, run_sync. cbn [fst snd TaskService.get_pending_task].
    rewrite Hfound, run_bind, run_sync. cbn [fst snd read_dict].
    rewrite run_bind, run_attempt, run_await. cbn [fst snd answer log event_of].
    rewrite Hlookup, run_chat. cbn [fst snd].
    destruct (chat_result e (Send ToApprover RequesterLookupFailed)) as [[] | z].
    + rewrite !posts_chat, !remote_calls_chat, posts_fetch_user, remote_calls_fetch_user,
        !posts_chat, !remote_calls_chat. auto.
    + rewrite run_try_except, run_chat. cbn [fst snd].
      destruct (chat_result e _) as [[] | z']; cbn [run];
        rewrite !posts_chat, !remote_calls_chat, posts_fetch_user,
          remote_calls_fetch_user, !posts_chat, !remote_calls_chat; auto.
  - rewrite run_try_except, run_chat. cbn [fst snd].
    destruct (chat_result e _) as [[] | z]; cbn [run];
      rewrite !posts_chat, !remote_calls_chat; auto.
Qed.

Lemma posts_post (tr : list event) (url : string) (body : payload) :
  posts (tr ++ [EvPost url body]) = S (posts tr).
Proof. unfold posts. rewrite count_events_app. cbn. lia. Qed.

Lemma repository_create_task_fails (e : env) (l : nat) (st : state) (x : exn) :
  post_response e = Err x ->
  exists y st',
    run e (OpenProjectRepository.create_task l) st = (Err y, st')
    /\ pending_tasks (fst st') = pending_tasks (fst st)
    /\ (posts (snd st') <= S (posts (snd st)))%nat.
Proof.
  intros Hpost. destruct st as [w tr].
  unfold OpenProjectRepository.create_task.
  rewrite run_bind, run_sync. cbn [fst snd read_dict].
  destruct (PyStr.truthy (project_id _)); cbn [negb run]; [| eauto 10].
  destruct (PyStr.truthy (nome_da_tarefa _)); cbn [negb run]; [| eauto 10].
  rewrite run_bind, run_lift.
  destruct (OpenProjectRepository.estimated_time _) as [est | y]; [| eauto 10].
  rewrite run_bind, run_sync. cbn [fst snd read_repo].
  rewrite run_try_except, run_bind.
  unfold OpenProjectRepository._make_request.
  rewrite run_bind, run_sync. cbn [fst snd read_repo].
  destruct (negb _ || negb _); cbn [run]; [eauto 10 |].
  rewrite run_try_except, run_await. cbn [answer fst snd log event_of].
  rewrite Hpost. cbn [run fst snd].
  eexists _, _. split; [reflexivity |]. cbn [fst snd]. rewrite posts_post. auto.
Qed.

Lemma format_step_quiet (e : env) (b : bool) (r : py string) (l : nat)
    (g : string -> task_details -> task_details) (st : state) :
  exists res st',
    run e (if b then f ← lift r; sync (update_dict l (g f)) else Return tt) st
    = (res, st') /\ quiet st st'.
Proof.
  destruct b; [| cbn; unfold quiet; eauto].
  rewrite run_bind, run_lift. destruct r as [f | y]; [| unfold quiet; eauto].
  rewrite run_sync. cbn. unfold quiet. eauto.
Qed.

Lemma service_create_task_fails (e : env) (l : nat) (st : state) (x : exn) :
  post_response e = Err x ->
  exists y st',
    run e (TaskService.create_task l) st = (Err y, st')
    /\ pending_tasks (fst st') = pending_tasks (fst st)
    /\ (posts (snd st') <= S (posts (snd st)))%nat.
Proof.
  intros Hpost. destruct st as [w tr].
  unfold TaskService.create_task.
  rewrite run_bind, run_sync. cbn [fst snd read_dict].
  rewrite run_bind.
  match goal with
  | |- context [run e (if ?b then f ← lift ?r; sync (update_dict l (?g f)) else Return tt) ?st] =>
      destruct (format_step_quiet e b r l g st) as (res & st1 & -> & Hreg1 & Hposts1)
  end.
  destruct res as [[] | y]; [| cbn [fst snd] in *; rewrite <- Hposts1, <- Hreg1; eauto 10].
  rewrite run_bind.
  match goal with
  | |- context [run e (if ?b then f ← lift ?r; sync (update_dict l (?g f)) else Return tt) ?st] =>
      destruct (format_step_quiet e b r l g st) as (res & st2 & -> & Hreg2 & Hposts2)
  end.
  cbn [fst snd] in *.
  destruct res as [[] | y];
    [| rewrite <- Hposts1, <- Hposts2, <- Hreg1, <- Hreg2; eauto 10].
  destruct (repository_create_task_fails e l st2 x Hpost) as (y & st' & -> & Hreg & Hposts).
  exists y, st'. split; [reflexivity |]. split; [congruence | lia].
Qed.

Lemma notified_app_l to what tr tr' : notified to what tr -> notified to what (tr ++ tr').
Proof. unfold notified. rewrite in_app_iff. auto. Qed.

Lemma notified_last to what tr : notified to what (tr ++ [EvChat (Send to what)]).
Proof. unfold notified. rewrite in_app_iff. right. now left. Qed.

(** The approval of a submission whose create request is answered by an
    error: both parties are told, the state keeps its registry, and at
    most one create request was sent. *)
Lemma approve_remote_failure (i : interaction) (l : nat) (e : env) (st : state)
    (x : exn) :
  post_response e = Err x ->
  chat_result e (Send ToRequester NotCreated) = Ok tt ->
  chat_result e (Send ToApprover NotCreated) = Ok tt ->
  exists st',
    run e (TaskCommands.approve i l) st = (Ok tt, st')
    /\ pending_tasks (fst st') = pending_tasks (fst st)
    /\ (posts (snd st') <= S (posts (snd st)))%nat
    /\ notified ToRequester NotCreated (snd st')
    /\ notified ToApprover NotCreated (snd st').
Proof.
  intros Hpost Hreq Happ. destruct st as [w tr].
  unfold TaskCommands.approve.
  rewrite run_bind, run_sync. cbn [fst snd update_dict].
  rewrite run_try_except, run_bind, run_chat. cbn [fst snd].
  assert (Hhandler : forall st1 : state,
    pending_tasks (fst st1) = pending_tasks w ->
    (posts (snd st1) <= S (posts tr))%nat ->
    exists st',
      run e (chat (Send ToRequester NotCreated);; chat (Send ToApprover NotCreated)) st1
      = (Ok tt, st')
      /\ pending_tasks (fst st') = pending_tasks w
      /\ (posts (snd st') <= S (posts tr))%nat
      /\ notified ToRequester NotCreated (snd st')
      /\ notified ToApprover NotCreated (snd st')).
  { intros [w1 tr1] Hreg Hposts. cbn [fst snd] in *.
    rewrite run_bind, run_chat, Hreq, run_chat, Happ. cbn [fst snd].
    eexists. split; [reflexivity |]. cbn [fst snd]. rewrite !posts_chat.
    repeat split; auto using notified_last, notified_app_l. }
  destruct (chat_result e (Send ToApprover Processing)) as [[] | y].
  - rewrite run_bind.
    match goal with
    | |- context [run e (TaskService.create_task l) ?st0] =>
        destruct (service_create_task_fails e l st0 x Hpost)
          as (y & st1 & -> & Hreg & Hposts)
    end.
    cbn [fst snd] in *. apply Hhandler; [exact Hreg |].
    now rewrite posts_chat in Hposts.
  - apply Hhandler; cbn [fst snd]; [reflexivity | rewrite posts_chat; lia].
Qed.

(** C2, as the code has it: an approval of a registered submission whose
    create request is answered by an error, when the two notices of the
    failure are delivered, ends with the entry removed (a later lookup of
    the id yields none), with the requester and the approver both told
    that the task was approved but not created, and with at most one
    create request sent: the request is not sent again. *)
Theorem handle_approval_remote_failure (i : interaction) (task_id : string)
    (e : env) (w : world) (tr : list event) (l : nat) (x : exn)
    (Hfound : pending_tasks w !! task_id = Some l)
    (Hdefer : chat_result e Defer = Ok tt)
    (Hrequester : fetch_user_result e = Ok tt)
    (Hpost : post_response e = Err x)
    (Htold_requester : chat_result e (Send ToRequester NotCreated) = Ok tt)
    (Htold_approver : chat_result e (Send ToApprover NotCreated) = Ok tt) :
  let '(r, (w', tr')) :=
    run e (TaskCommands.handle_approval i task_id true None) (w, tr) in
  r = Ok tt
  /\ pending_tasks w' !! task_id = None
  /\ lookup_submission task_id w' = None
  /\ notified ToRequester NotCreated tr'
  /\ notified ToApprover NotCreated tr'
  /\ (posts tr' <= S (posts tr))%nat.
Proof.
  unfold TaskCommands.handle_approval, error_handler, TaskCommands.handle_approval_body.
  rewrite run_try_except, run_bind, run_chat, Hdefer. cbn [fst snd].
  rewrite run_bind, run_sync. cbn [fst snd TaskService.get_pending_task].
  rewrite Hfound, run_bind, run_sync. cbn [fst snd read_dict].
  rewrite run_bind, run_attempt, run_await. cbn [fst snd answer log event_of].
  rewrite Hrequester, run_bind.
  match goal with
  | |- context [run e (TaskCommands.approve i l) ?st0] =>
      destruct (approve_remote_failure i l e st0 x Hpost Htold_requester Htold_approver)
        as ([w1 tr1] & -> & Hreg & Hposts & Hn1 & Hn2)
  end.
  cbn [fst snd] in *. rewrite posts_fetch_user, posts_chat in Hposts.
  rewrite run_bind, run_sync. cbn [fst snd].
  assert (Hgone : pending_tasks (snd (TaskService.remove_pending_task task_id w1))
                    !! task_id = None) by apply get_after_remove.
  rewrite run_try_except.
  destruct (has_message i).
  - rewrite run_chat. cbn [fst snd].
    destruct (chat_result e DisableButtons) as [[] | y]; cbn [run];
      rewrite posts_chat; unfold lookup_submission; rewrite Hgone;
      repeat split; auto using notified_app_l.
  - cbn [run]. unfold lookup_submission. rewrite Hgone. repeat split; auto.
Qed.

Lemma handle_approval_remote_failure_witness :
  let '(r, (w', tr')) :=
    run (Sample.answers 2000 (Ok [Sample.site]) (Err OpenProjectError))
        (TaskCommands.handle_approval Sample.bob "t1" true None)
        (Sample.one_pending, []) in
  r = Ok tt
  /\ pending_tasks w' !! "t1" = None
  /\ lookup_submission "t1" w' = None
  /\ notified ToRequester NotCreated tr'
  /\ notified ToApprover NotCreated tr'
  /\ (posts tr' <= 1)%nat.
Proof.
  apply (handle_approval_remote_failure Sample.bob "t1"
           (Sample.answers 2000 (Ok [Sample.site]) (Err OpenProjectError))
           Sample.one_pending [] 0%nat OpenProjectError); reflexivity.
Defined.

(** C2, as the specification states it, fails when the notice of the
    failure cannot be delivered to the requester: the decision was
    accepted and the create request failed, but the exception of the
    notice leaves the handler before the removal, so the entry is still
    in the registry and the approver is told of no inconsistency, only
    of an error. *)
Lemma handle_approval_remote_failure_unreported :
  let e := mk_env 2000
             (fun c => match c with
                       | Send ToRequester NotCreated => Err ChatError
                       | _ => Ok tt
                       end)
             (Ok tt) (Ok [Sample.site]) (Err OpenProjectError) in
  let '(r, (w', tr')) :=
    run e (TaskCommands.handle_approval Sample.bob "t1" true None)
        (Sample.one_pending, []) in
  pending_tasks Sample.one_pending !! "t1" = Some 0%nat
  /\ chat_result e Defer = Ok tt
  /\ fetch_user_result e = Ok tt
  /\ post_response e = Err OpenProjectError
  /\ posts tr' = 1%nat
  /\ pending_tasks w' !! "t1" = Some 0%nat
  /\ lookup_submission "t1" w' <> None
  /\ ~ notified ToApprover NotCreated tr'
  /\ notified ToApprover GenericError tr'.
Proof.
  vm_compute. repeat split; try discriminate.
  - intros H. repeat (destruct H as [H | H]; [discriminate |]). exact H.
  - tauto.
Qed.

Lemma handle_approval_requester_lookup_fails_witness :
  let '(r, (w', tr')) :=
    run (Sample.lost_requester 2000)
        (TaskCommands.handle_approval Sample.bob "t1" true None)
        (Sample.one_pending, []) in
  r = Ok tt
  /\ w' = Sample.one_pending
  /\ pending_tasks w' !! "t1" = Some 0%nat
  /\ posts tr' = 0%nat
  /\ remote_calls tr' = 0%nat.
Proof.
  apply (handle_approval_requester_lookup_fails Sample.bob "t1" true None
           (Sample.lost_requester 2000) Sample.one_pending [] 0%nat ChatError);
    reflexivity.
Defined.

(** A rejection of a registered submission, the requester being found
    and the messages delivered, tells both parties and removes the entry:
    this is what a later decision does with an entry that an earlier,
    aborted one has left in place. *)
Lemma handle_approval_reject_acts (i : interaction) (task_id : string)
    (reason : option string) (e : env) (w : world) (tr : list event) (l : nat) :
  pending_tasks w !! task_id = Some l ->
  chat_result e Defer = Ok tt ->
  fetch_user_result e = Ok tt ->
  (forall motivo to, chat_result e (Send to (Rejected motivo)) = Ok tt) ->
  let '(r, (w', tr')) :=
    run e (TaskCommands.handle_approval i task_id false reason) (w, tr) in
  r = Ok tt
  /\ pending_tasks w' !! task_id = None
  /\ (exists motivo, notified ToRequester (Rejected motivo) tr'
                     /\ notified ToApprover (Rejected motivo) tr')
  /\ remote_calls tr' = remote_calls tr.
Proof.
  intros Hfound Hdefer Hrequester Hsent.
  unfold TaskCommands.handle_approval, error_handler, TaskCommands.handle_approval_body.
  rewrite run_try_except, run_bind, run_chat, Hdefer. cbn [fst snd].
  rewrite run_bind, run_sync. cbn [fst snd TaskService.get_pending_task].
  rewrite Hfound, run_bind, run_sync. cbn [fst snd read_dict].
  rewrite run_bind, run_attempt, run_await. cbn [fst snd answer log event_of].
  rewrite Hrequester, run_bind. unfold TaskCommands.reject.
  rewrite run_bind, run_chat, Hsent, run_chat, Hsent. cbn [fst snd].
  rewrite run_bind, run_sync. cbn [fst snd].
  assert (Hgone : pending_tasks (snd (TaskService.remove_pending_task task_id w))
                    !! task_id = None) by apply get_after_remove.
  rewrite run_try_except.
  destruct (has_message i).
  - rewrite run_chat. cbn [fst snd].
    destruct (chat_result e DisableButtons) as [[] | y]; cbn [run];
      rewrite !remote_calls_chat, remote_calls_fetch_user, !remote_calls_chat;
      (repeat split; auto); eexists;
      split; eauto using notified_app_l, notified_last.
  - cbn [run]. rewrite !remote_calls_chat, remote_calls_fetch_user, !remote_calls_chat.
    (repeat split; auto); eexists; split; eauto using notified_app_l, notified_last.
Qed.

(** ** Two decisions on one submission *)

(** One after the other: the first approval creates the task and removes
    the entry, the second is answered with "not found" and creates
    nothing. *)
Lemma approvals_in_sequence :
  let '(_, st1) :=
    run (Sample.answers 2000 (Ok [Sample.site]) (Ok Sample.created))
        (TaskCommands.handle_approval Sample.bob "t1" true None)
        (Sample.one_pending, []) in
  let '(_, (w', tr')) :=
    run (Sample.answers 2001 (Ok [Sample.site]) (Ok Sample.created))
        (TaskCommands.handle_approval Sample.bob_again "t1" true None) st1 in
  posts tr' = 1%nat /\ not_found_reports tr' = 1%nat
  /\ pending_tasks w' !! "t1" = None.
Proof. vm_compute. repeat split. Qed.

(** C1 on the code: two approvals of the same submission, resumed in turn
    by the event loop, both find the entry, since neither has reached the
    removal when the other looks it up; both run to their end, two create
    requests are sent and no decision is answered with "not found". *)
Theorem racing_approvals_both_create :
  let '(ts', (w', tr')) :=
    schedule (Sample.round_robin 13) Sample.two_approvals (Sample.one_pending, []) in
  all_finished ts' = true
  /\ posts tr' = 2%nat
  /\ not_found_reports tr' = 0%nat
  /\ pending_tasks w' !! "t1" = None.
Proof. vm_compute. repeat split. Qed.

(** ** Binary64 arithmetic *)

Section Binary64.
Import PyFloat.

(** *** Number of binary digits *)

Lemma dg_pos p : 0 < dg p.
Proof. unfold dg. lia. Qed.

Lemma dg_bounds p : 2 ^ (dg p - 1) <= Zpos p < 2 ^ dg p.
Proof.
  unfold dg. induction p as [p IH | p IH |]; cbn [digits2_pos].
  - rewrite Pos2Z.inj_succ. replace (Z.succ (Zpos (digits2_pos p)) - 1)
      with (Z.succ (Zpos (digits2_pos p) - 1)) by lia.
    rewrite !Z.pow_succ_r by lia. lia.
  - rewrite Pos2Z.inj_succ. replace (Z.succ (Zpos (digits2_pos p)) - 1)
      with (Z.succ (Zpos (digits2_pos p) - 1)) by lia.
    rewrite !Z.pow_succ_r by lia. lia.
  - cbn. lia.
Qed.

Lemma dg_unique p d : 2 ^ (d - 1) <= Zpos p < 2 ^ d -> dg p = d.
Proof.
  intros [Hlo Hhi]. pose proof (dg_bounds p) as [Hlo' Hhi']. pose proof (dg_pos p).
  assert (0 < d).
  { destruct (Z.lt_ge_cases 0 d); [assumption |].
    destruct (Z.eq_dec d 0) as [-> | Hd]; [cbn in Hhi; lia |].
    rewrite Z.pow_neg_r in Hhi by lia. lia. }
  destruct (Z.lt_trichotomy (dg p) d) as [Hlt | [Heq | Hgt]]; [| assumption |].
  - assert (2 ^ dg p <= 2 ^ (d - 1)) by (apply Z.pow_le_mono_r; lia). lia.
  - assert (2 ^ d <= 2 ^ (dg p - 1)) by (apply Z.pow_le_mono_r; lia). lia.
Qed.

Lemma dg_le p n : 0 <= n -> Zpos p < 2 ^ n -> dg p <= n.
Proof.
  intros Hn Hlt. pose proof (dg_bounds p) as [Hlo _]. pose proof (dg_pos p).
  destruct (Z.le_gt_cases (dg p) n); [assumption |].
  assert (2 ^ n <= 2 ^ (dg p - 1)) by (apply Z.pow_le_mono_r; lia). lia.
Qed.

Lemma dg_lt_pow p n : dg p <= n -> Zpos p < 2 ^ n.
Proof.
  intros Hle. pose proof (dg_bounds p) as [_ Hhi].
  assert (2 ^ dg p <= 2 ^ n) by (apply Z.pow_le_mono_r; lia). lia.
Qed.

Lemma Zdigits2_pos p : Zdigits2 (Zpos p) = dg p.
Proof. reflexivity. Qed.

(** *** Shifting to the right *)

Lemma iter_pos_nat {A} (f : A -> A) (p : positive) (x : A) :
  SpecFloat.iter_pos f p x = Nat.iter (Pos.to_nat p) f x.
Proof.
  revert x. induction p as [p IH | p IH |]; intros x; cbn [SpecFloat.iter_pos].
  - rewrite !IH, Pos2Nat.inj_xI, <- Nat.iter_succ_r, <- Nat.iter_add. f_equal. lia.
  - rewrite !IH, Pos2Nat.inj_xO, <- Nat.iter_add. f_equal. lia.
  - reflexivity.
Qed.

Lemma shr_1_m r : 0 <= shr_m r -> shr_m (shr_1 r) = shr_m r / 2.
Proof.
  destruct r as [m b s]. cbn [shr_m]. intros Hm.
  destruct m as [| [p | p |] | p]; cbn [shr_1 shr_m]; try lia.
  - reflexivity.
  - apply Z.div_unique with (r := 1); lia.
  - apply Z.div_unique with (r := 0); lia.
  - reflexivity.
Qed.

Lemma shr_iter_m (n : nat) r :
  0 <= shr_m r -> shr_m (Nat.iter n shr_1 r) = shr_m r / 2 ^ Z.of_nat n.
Proof.
  intros Hm. induction n as [| n IH].
  - cbn. now rewrite Z.div_1_r.
  - rewrite Nat.iter_succ, shr_1_m.
    + rewrite IH, Nat2Z.inj_succ, Z.pow_succ_r by lia.
      rewrite Z.div_div by lia. f_equal. lia.
    + rewrite IH. apply Z.div_pos; lia.
Qed.

(** The round bit after a shift is the last bit shifted out. *)
Lemma shr_1_r r : 0 <= shr_m r -> shr_r (shr_1 r) = Z.odd (shr_m r).
Proof.
  destruct r as [m b s]. cbn [shr_m]. intros Hm.
  destruct m as [| [p | p |] | p]; cbn [shr_1 shr_r]; try lia; reflexivity.
Qed.

Lemma shr_iter_r (n : nat) r :
  0 <= shr_m r ->
  shr_r (Nat.iter (S n) shr_1 r) = Z.odd (shr_m r / 2 ^ Z.of_nat n).
Proof.
  intros Hm. rewrite Nat.iter_succ, shr_1_r.
  - now rewrite shr_iter_m.
  - rewrite shr_iter_m by exact Hm. apply Z.div_pos; lia.
Qed.

(** A shift that drops only zeros is exact. *)
Lemma shr_iter_exact (n : nat) (q : Z) :
  0 <= q ->
  Nat.iter n shr_1 (Build_shr_record (q * 2 ^ Z.of_nat n) false false)
  = Build_shr_record q false false.
Proof.
  intros Hq. revert q Hq. induction n as [| n IH]; intros q Hq.
  - cbn. f_equal. lia.
  - rewrite Nat.iter_succ_r.
    assert (Hstep : shr_1 (Build_shr_record (q * 2 ^ Z.of_nat (S n)) false false)
                    = Build_shr_record (q * 2 ^ Z.of_nat n) false false).
    { rewrite Nat2Z.inj_succ, Z.pow_succ_r by lia.
      replace (q * (2 * 2 ^ Z.of_nat n)) with (2 * (q * 2 ^ Z.of_nat n)) by lia.
      assert (0 <= q * 2 ^ Z.of_nat n) by (apply Z.mul_nonneg_nonneg; lia).
      destruct (q * 2 ^ Z.of_nat n) as [| p | p]; [reflexivity | reflexivity | lia]. }
    rewrite Hstep. now apply IH.
Qed.

Lemma shr_m_of_loc m l : shr_m (shr_record_of_loc m l) = m.
Proof. now destruct l as [| []]. Qed.

Lemma fexp_64 e : fexp prec emax e = fexp64 e.
Proof. reflexivity. Qed.

(** [shr_fexp] on a non-negative mantissa: the mantissa and the exponent
    that come out. *)
Lemma shr_fexp_spec (m e : Z) (l : location) :
  0 <= m ->
  let n := fexp64 (Zdigits2 m + e) - e in
  let '(r, e') := shr_fexp prec emax m e l in
  if 0 <? n then shr_m r = m / 2 ^ n /\ e' = e + n
  else r = shr_record_of_loc m l /\ e' = e.
Proof.
  intros Hm n. unfold shr_fexp. rewrite fexp_64. fold n.
  unfold shr. destruct n as [| p | p] eqn:Hn; cbn [Z.ltb Z.compare].
  - split; reflexivity.
  - rewrite iter_pos_nat, shr_iter_m, positive_nat_Z, shr_m_of_loc.
    + split; reflexivity.
    + now rewrite shr_m_of_loc.
  - split; reflexivity.
Qed.

Lemma shr_fexp_exact (q e n : Z) :
  0 <= q -> 0 < n ->
  fexp64 (Zdigits2 (q * 2 ^ n) + e) - e = n ->
  shr_fexp prec emax (q * 2 ^ n) e loc_Exact = (Build_shr_record q false false, e + n).
Proof.
  intros Hq Hn Hshift. unfold shr_fexp. rewrite fexp_64, Hshift.
  destruct n as [| p | p]; try lia. unfold shr.
  rewrite iter_pos_nat. cbn [shr_record_of_loc].
  rewrite <- (positive_nat_Z p) at 1. now rewrite shr_iter_exact.
Qed.

Lemma round_nearest_even_range m l :
  m <= round_nearest_even m l <= m + 1.
Proof.
  destruct l as [| []]; cbn [round_nearest_even]; try lia.
  destruct (Z.even m); lia.
Qed.

(** Rounding to nearest goes up only when the round bit is set. *)
Lemma round_nearest_even_up (r : shr_record) :
  round_nearest_even (shr_m r) (loc_of_shr_record r) = shr_m r \/ shr_r r = true.
Proof. destruct r as [m [] []]; cbn; auto. Qed.

(** The round bit that [shr_fexp] leaves, on an exact number that is
    shifted by [n] places: the bit of weight [2^(n-1)]. *)
Lemma shr_fexp_round (m e : Z) :
  0 <= m ->
  let n := fexp64 (Zdigits2 m + e) - e in
  0 < n ->
  shr_r (fst (shr_fexp prec emax m e loc_Exact)) = Z.odd (m / 2 ^ (n - 1)).
Proof.
  intros Hm n Hn. unfold shr_fexp. rewrite fexp_64. fold n.
  unfold shr. destruct n as [| p | p] eqn:En; try lia. cbn [fst].
  rewrite iter_pos_nat. cbn [shr_record_of_loc].
  destruct (Pos.to_nat p) as [| k] eqn:Ek; [lia |].
  rewrite shr_iter_r by (cbn [shr_m]; exact Hm). cbn [shr_m].
  do 3 f_equal. lia.
Qed.

(** A number whose bit of weight [2^(n-1)] is set is at least half a
    unit of weight [2^n] above its multiple of [2^n]. *)
Lemma odd_half_above (p n : Z) :
  0 <= p -> 0 < n -> Z.odd (p / 2 ^ (n - 1)) = true ->
  2 * (p / 2 ^ n + 1) * 2 ^ n <= 2 * p + 2 ^ n.
Proof.
  intros Hp Hn Hodd.
  assert (Hh : 0 < 2 ^ (n - 1)) by (apply Z.pow_pos_nonneg; lia).
  assert (H2 : 2 ^ n = 2 * 2 ^ (n - 1)).
  { replace n with (Z.succ (n - 1)) at 1 by lia. now rewrite Z.pow_succ_r by lia. }
  set (t := p / 2 ^ (n - 1)) in *.
  assert (Hq : p / 2 ^ n = t / 2).
  { rewrite H2, Z.mul_comm, <- Z.div_div by lia. reflexivity. }
  assert (Ht : t = 2 * (t / 2) + 1).
  { rewrite (Z.div_mod t 2) at 1 by lia. rewrite Zmod_odd, Hodd. reflexivity. }
  assert (Hle : t * 2 ^ (n - 1) <= p).
  { unfold t. rewrite Z.mul_comm. apply Z.mul_div_le. lia. }
  rewrite Hq, H2. nia.
Qed.

Lemma shr_fexp_noshift (m e : Z) (l : location) :
  fexp64 (Zdigits2 m + e) - e <= 0 ->
  shr_fexp prec emax m e l = (shr_record_of_loc m l, e).
Proof.
  intros Hn. unfold shr_fexp, shr. rewrite fexp_64.
  destruct (fexp64 (Zdigits2 m + e) - e); [reflexivity | lia | reflexivity].
Qed.

(** *** Rounding *)

(** A mantissa that needs no shift is kept as it is. *)
Lemma binary_round_aux_noshift (s : bool) (p : positive) (e : Z) :
  fexp64 (dg p + e) - e <= 0 -> e <= 971 ->
  binary_round_aux prec emax s (Zpos p) e loc_Exact = S754_finite s p e.
Proof.
  intros Hn He. unfold binary_round_aux.
  rewrite shr_fexp_noshift by exact Hn. cbn [shr_record_of_loc shr_m loc_of_shr_record
    round_nearest_even].
  rewrite shr_fexp_noshift by exact Hn. cbn [shr_record_of_loc shr_m].
  unfold emax, prec. destruct (Z.leb_spec e (1024 - 53)); [reflexivity | lia].
Qed.

Lemma div_pow2_digits (p : positive) (n : Z) (q : positive) :
  0 <= n -> Zpos p / 2 ^ n = Zpos q -> dg q = dg p - n.
Proof.
  intros Hn Hq. pose proof (dg_bounds p) as [Hlo Hhi]. pose proof (dg_pos p).
  assert (H2 : 0 < 2 ^ n) by (apply Z.pow_pos_nonneg; lia).
  assert (Hle : n < dg p).
  { destruct (Z.lt_ge_cases n (dg p)); [assumption |].
    assert (2 ^ dg p <= 2 ^ n) by (apply Z.pow_le_mono_r; lia).
    rewrite Z.div_small in Hq by lia. lia. }
  apply dg_unique. rewrite <- Hq. split.
  - apply Z.div_le_lower_bound; [lia |].
    rewrite <- Z.pow_add_r by lia. replace (n + (dg p - n - 1)) with (dg p - 1) by lia. lia.
  - apply Z.div_lt_upper_bound; [lia |].
    rewrite <- Z.pow_add_r by lia. replace (n + (dg p - n)) with (dg p) by lia. lia.
Qed.

Lemma binary_round_aux_bounded (s : bool) (m e : Z) (l : location) :
  0 <= m -> -1074 <= e ->
  bounded64 (binary_round_aux prec emax s m e l)
  /\ has_sign s (binary_round_aux prec emax s m e l).
Proof.
  intros Hm He. unfold binary_round_aux.
  pose proof (shr_fexp_spec m e l Hm) as H1. cbv zeta in H1.
  destruct (shr_fexp prec emax m e l) as [r1 e1].
  assert (Hr1 : 0 <= shr_m r1 /\ -1074 <= e1).
  { destruct (0 <? _) eqn:Hn in H1.
    - apply Z.ltb_lt in Hn. destruct H1 as [-> ->]. split; [| lia].
      apply Z.div_pos; [lia | apply Z.pow_pos_nonneg; lia].
    - destruct H1 as [-> ->]. now rewrite shr_m_of_loc. }
  destruct Hr1 as [Hr1 He1].
  pose proof (round_nearest_even_range (shr_m r1) (loc_of_shr_record r1)) as Hround.
  set (m' := round_nearest_even (shr_m r1) (loc_of_shr_record r1)) in *.
  assert (Hm' : 0 <= m') by lia.
  pose proof (shr_fexp_spec m' e1 loc_Exact Hm') as H2. cbv zeta in H2.
  destruct (shr_fexp prec emax m' e1 loc_Exact) as [r2 e2].
  destruct (0 <? _) eqn:Hn in H2.
  - apply Z.ltb_lt in Hn. destruct H2 as [Hr2 ->]. rewrite Hr2.
    destruct (m' / 2 ^ _) as [| q | q] eqn:Hq; cbn [bounded64 has_sign]; [auto | |].
    + destruct (_ <=? _) eqn:Hle; cbn [bounded64 has_sign]; [| auto].
      apply Z.leb_le in Hle. unfold emax, prec in Hle.
      destruct m' as [| p' | p']; [now rewrite Z.div_0_l in Hq by lia | | lia].
      rewrite Zdigits2_pos in *.
      rewrite (div_pow2_digits p' _ q (Z.lt_le_incl _ _ Hn) Hq).
      unfold fexp64 in *. split; [lia | reflexivity].
    + assert (0 <= m' / 2 ^ (fexp64 (Zdigits2 m' + e1) - e1))
        by (apply Z.div_pos; [lia | apply Z.pow_pos_nonneg; lia]). lia.
  - apply Z.ltb_ge in Hn. destruct H2 as [-> ->]. cbn [shr_record_of_loc shr_m].
    destruct m' as [| p' | p']; cbn [bounded64 has_sign]; [auto | | lia].
    destruct (_ <=? _) eqn:Hle; cbn [bounded64 has_sign]; [| auto].
    apply Z.leb_le in Hle. unfold emax, prec in Hle.
    rewrite Zdigits2_pos in Hn. unfold fexp64 in Hn. split; [lia | reflexivity].
Qed.

Lemma shiftl_nonpos (a e : Z) : e <= 0 -> Z.shiftl a e = a / 2 ^ (- e).
Proof.
  intros He. rewrite <- Z.shiftr_div_pow2 by lia. unfold Z.shiftr.
  now rewrite Z.opp_involutive.
Qed.

Lemma div_succ_le (q b : Z) : 0 < b -> (q + 1) / b <= q / b + 1.
Proof.
  intros Hb. replace (q / b + 1) with ((q + 1 * b) / b) by (rewrite Z.div_add; lia).
  apply Z.div_le_mono; lia.
Qed.

(** Rounding a small positive number, truncated: the whole part of the
    number, or one more when the rounding went up to the next integer;
    the result is above the number by half a unit in the last place at
    most. *)
Lemma binary_round_aux_trunc (p : positive) (e : Z) :
  dg p + e <= 52 ->
  exists M,
    to_int (binary_round_aux prec emax false (Zpos p) e loc_Exact) = Ok M
    /\ Z.shiftl (Zpos p) e <= M <= Z.shiftl (Zpos p) e + 1
    /\ (e <= 0 -> 2 * M * 2 ^ (- e) <= 2 * Zpos p + 2 ^ (fexp64 (dg p + e) - e)).
Proof.
  intros Hsmall. pose proof (dg_pos p) as Hd. pose proof (dg_bounds p) as [_ Hhi].
  destruct (Z.le_gt_cases (fexp64 (dg p + e) - e) 0) as [Hn1 | Hn1].
  { rewrite binary_round_aux_noshift by lia. cbn [to_int cond_Zopp]. eexists.
    split; [reflexivity |]. split; [lia |]. intros He.
    rewrite shiftl_nonpos by exact He.
    assert (0 < 2 ^ (- e)) by (apply Z.pow_pos_nonneg; lia).
    pose proof (Z.mul_div_le (Zpos p) (2 ^ (- e)) ltac:(lia)).
    pose proof (Z.pow_nonneg 2 (fexp64 (dg p + e) - e) ltac:(lia)). nia. }
  unfold binary_round_aux.
  pose proof (shr_fexp_spec (Zpos p) e loc_Exact ltac:(lia)) as H1. cbv zeta in H1.
  pose proof (shr_fexp_round (Zpos p) e ltac:(lia)) as Hbit. cbv zeta in Hbit.
  rewrite Zdigits2_pos in H1, Hbit. specialize (Hbit ltac:(lia)).
  destruct (shr_fexp prec emax (Zpos p) e loc_Exact) as [r1 e1]. cbn [fst] in Hbit.
  destruct (Z.ltb_spec 0 (fexp64 (dg p + e) - e)) as [_ | ?]; [| lia].
  destruct H1 as [Hq He1].
  set (n1 := fexp64 (dg p + e) - e) in *.
  assert (Hk : e1 <= -1 /\ -1074 <= e1) by (unfold fexp64 in *; lia).
  assert (H2n : 0 < 2 ^ n1) by (apply Z.pow_pos_nonneg; lia).
  assert (H2k : 0 < 2 ^ (- e1)) by (apply Z.pow_pos_nonneg; lia).
  set (q := shr_m r1) in *.
  assert (Hq0 : 0 <= q) by (rewrite Hq; apply Z.div_pos; lia).
  assert (Hfloor : Z.shiftl (Zpos p) e = q / 2 ^ (- e1)).
  { rewrite shiftl_nonpos by lia. rewrite Hq, Z.div_div by lia.
    rewrite <- Z.pow_add_r by lia. f_equal. f_equal. lia. }
  assert (Hqlt : q + 1 < 2 ^ (53 - e1)).
  { assert (q < 2 ^ (52 - e1)).
    { rewrite Hq. apply Z.div_lt_upper_bound; [lia |].
      rewrite <- Z.pow_add_r by lia.
      assert (2 ^ dg p <= 2 ^ (n1 + (52 - e1))) by (apply Z.pow_le_mono_r; lia). lia. }
    replace (53 - e1) with (Z.succ (52 - e1)) by lia. rewrite Z.pow_succ_r by lia.
    assert (0 < 2 ^ (52 - e1)) by (apply Z.pow_pos_nonneg; lia). lia. }
  pose proof (round_nearest_even_range q (loc_of_shr_record r1)) as Hround.
  assert (Hup : 2 * round_nearest_even q (loc_of_shr_record r1) * 2 ^ n1
                <= 2 * Zpos p + 2 ^ n1).
  { destruct (round_nearest_even_up r1) as [Hsame | Hset].
    - fold q in Hsame. rewrite Hsame, Hq.
      pose proof (Z.mul_div_le (Zpos p) (2 ^ n1) ltac:(lia)). lia.
    - rewrite Hset in Hbit.
      pose proof (odd_half_above (Zpos p) n1 ltac:(lia) ltac:(lia) (eq_sym Hbit)) as Hhalf.
      rewrite <- Hq in Hhalf. nia. }
  set (m' := round_nearest_even q (loc_of_shr_record r1)) in *.
  assert (Hgoal : forall M, M = m' / 2 ^ (- e1) ->
            Z.shiftl (Zpos p) e <= M <= Z.shiftl (Zpos p) e + 1
            /\ (e <= 0 -> 2 * M * 2 ^ (- e) <= 2 * Zpos p + 2 ^ n1)).
  { intros M ->. rewrite Hfloor. split; [split |].
    - apply Z.div_le_mono; lia.
    - etransitivity; [apply (Z.div_le_mono m' (q + 1)); lia | now apply div_succ_le].
    - intros _.
      assert (He : 2 ^ (- e) = 2 ^ (- e1) * 2 ^ n1).
      { rewrite <- Z.pow_add_r by lia. f_equal. lia. }
      pose proof (Z.mul_div_le m' (2 ^ (- e1)) ltac:(lia)). rewrite He. nia. }
  pose proof (shr_fexp_spec m' e1 loc_Exact ltac:(lia)) as H2. cbv zeta in H2.
  destruct (shr_fexp prec emax m' e1 loc_Exact) as [r2 e2].
  destruct (Z.ltb_spec 0 (fexp64 (Zdigits2 m' + e1) - e1)) as [Hn2 | Hn2].
  - destruct H2 as [Hr2 He2]. set (n2 := fexp64 (Zdigits2 m' + e1) - e1) in *.
    assert (Hm'pos : 0 < m').
    { destruct (Z.eq_dec m' 0) as [H0 | H0]; [| lia].
      exfalso. unfold n2 in Hn2. rewrite H0 in Hn2. cbn [Zdigits2] in Hn2.
      unfold fexp64 in Hn2. lia. }
    assert (He2' : e2 <= 0).
    { destruct m' as [| p' | p'] eqn:Em; try lia. unfold n2 in *.
      rewrite Zdigits2_pos in *.
      assert (dg p' <= 53 - e1) by (apply dg_le; lia).
      unfold fexp64 in *. lia. }
    assert (Hval : Z.shiftl (shr_m r2) e2 = m' / 2 ^ (- e1)).
    { rewrite shiftl_nonpos by lia. rewrite Hr2, Z.div_div
        by (try apply Z.pow_pos_nonneg; lia).
      rewrite <- Z.pow_add_r by lia. f_equal. f_equal. lia. }
    assert (0 <= shr_m r2) by (rewrite Hr2; apply Z.div_pos; [lia | apply Z.pow_pos_nonneg; lia]).
    destruct (shr_m r2) as [| m2 | m2] eqn:Em2; [| | lia].
    + exists 0. split; [reflexivity |]. apply Hgoal. rewrite <- Hval.
      now rewrite Z.shiftl_0_l.
    + destruct (Z.leb_spec e2 (emax - prec)) as [_ | Hbig]; [| unfold emax, prec in Hbig; lia].
      cbn [to_int cond_Zopp]. eexists. split; [reflexivity |]. now apply Hgoal.
  - destruct H2 as [-> ->]. cbn [shr_record_of_loc shr_m].
    destruct m' as [| p' | p'] eqn:Em; [| | lia].
    + exists 0. split; [reflexivity |]. apply Hgoal. now rewrite Z.div_0_l by lia.
    + destruct (Z.leb_spec e1 (emax - prec)) as [_ | Hbig]; [| unfold emax, prec in Hbig; lia].
      cbn [to_int cond_Zopp]. eexists. split; [reflexivity |]. apply Hgoal.
      apply shiftl_nonpos. lia.
Qed.

(** *** Exact results *)

Lemma iter_xO (d : positive) (m : positive) :
  Zpos (Pos.iter xO m d) = Zpos m * 2 ^ Zpos d.
Proof.
  induction d as [| d IH] using Pos.peano_ind.
  - cbn [Pos.iter]. rewrite Pos2Z.inj_xO. lia.
  - rewrite Pos.iter_succ, Pos2Z.inj_xO, IH, Pos2Z.inj_succ, Z.pow_succ_r by lia. lia.
Qed.

Lemma shl_align_spec (mx : positive) (ex ex' : Z) :
  ex' <= ex ->
  Zpos (fst (shl_align mx ex ex')) = Zpos mx * 2 ^ (ex - ex')
  /\ snd (shl_align mx ex ex') = ex'.
Proof.
  intros Hle. unfold shl_align.
  destruct (ex' - ex) as [| d | d] eqn:Hd; cbn [fst snd].
  - replace (ex - ex') with 0 by lia. split; lia.
  - lia.
  - rewrite iter_xO. replace (ex - ex') with (Zpos d) by lia. split; [reflexivity | lia].
Qed.

Lemma shl_align_above (mx : positive) (ex ex' : Z) :
  ex <= ex' -> shl_align mx ex ex' = (mx, ex).
Proof.
  intros Hle. unfold shl_align. destruct (ex' - ex) eqn:Hd; [reflexivity | reflexivity | lia].
Qed.

Lemma dg_shift (m m' : positive) (n : Z) :
  0 <= n -> Zpos m' = Zpos m * 2 ^ n -> dg m' = dg m + n.
Proof.
  intros Hn Hm'. pose proof (dg_bounds m) as [Hlo Hhi]. pose proof (dg_pos m).
  assert (0 < 2 ^ n) by (apply Z.pow_pos_nonneg; lia).
  apply dg_unique. rewrite Hm'. split.
  - replace (dg m + n - 1) with (dg m - 1 + n) by lia. rewrite Z.pow_add_r by lia.
    apply Z.mul_le_mono_nonneg_r; lia.
  - rewrite Z.pow_add_r by lia. apply Z.mul_lt_mono_pos_r; lia.
Qed.

(** A mantissa of at most 53 digits, not too small and not too large, is
    only put in canonical form. *)
Lemma binary_round_exact (s : bool) (m : positive) (e : Z) :
  dg m <= 53 -> -1074 <= e -> dg m + e <= 1024 ->
  exists m' e',
    binary_round prec emax s m e = S754_finite s m' e'
    /\ e' <= e /\ Zpos m' = Zpos m * 2 ^ (e - e')
    /\ dg m' <= 53 /\ -1074 <= e' <= 971
    /\ e' = fexp64 (dg m + e).
Proof.
  intros Hd He Hbig. unfold binary_round. rewrite fexp_64. fold (dg m).
  set (t := fexp64 (dg m + e)).
  assert (Ht : t <= e /\ -1074 <= t <= 971 /\ dg m + e - 53 <= t)
    by (unfold t, fexp64; lia).
  pose proof (shl_align_spec m e t ltac:(lia)) as [Hmz Hez].
  destruct (shl_align m e t) as [mz ez]. cbn [fst snd] in *. subst ez.
  pose proof (dg_shift m mz (e - t) ltac:(lia) Hmz) as Hdz.
  rewrite binary_round_aux_noshift.
  - exists mz, t. repeat split; first [lia | exact Hmz | reflexivity].
  - rewrite Hdz. replace (dg m + (e - t) + t) with (dg m + e) by lia. fold t. lia.
  - lia.
Qed.

(** An integer with at most 53 digits before its trailing zeros is
    converted exactly. *)
Lemma binary_round_shifted (m : positive) (j : Z) (h : positive) :
  dg m <= 53 -> 0 <= j -> 53 < dg m + j <= 1024 -> Zpos h = Zpos m * 2 ^ j ->
  exists q t,
    binary_round prec emax false h 0 = S754_finite false q t
    /\ 0 < t <= 971 /\ Zpos h = Zpos q * 2 ^ t /\ dg q = 53.
Proof.
  intros Hd Hj Hbig Hh. unfold binary_round. rewrite fexp_64. fold (dg h).
  pose proof (dg_shift m h j Hj Hh) as Hdh.
  set (t := dg h + 0) in *. assert (Ht : fexp64 t = dg m + j - 53) by (unfold fexp64, t; lia).
  rewrite shl_align_above by lia.
  assert (H2 : 0 < 2 ^ (j - fexp64 t)) by (apply Z.pow_pos_nonneg; lia).
  assert (Hdiv : Zpos h = (Zpos m * 2 ^ (j - fexp64 t)) * 2 ^ fexp64 t).
  { rewrite Hh, <- Z.mul_assoc, <- Z.pow_add_r by lia. f_equal. f_equal. lia. }
  destruct (Zpos m * 2 ^ (j - fexp64 t)) as [| q | q] eqn:Hq; try lia.
  assert (Hdq : dg q = 53).
  { rewrite (dg_shift m q (j - fexp64 t)) by (lia || (symmetry; exact Hq)). lia. }
  unfold binary_round_aux. rewrite Hdiv.
  rewrite shr_fexp_exact; [| lia | lia |].
  - cbn [shr_m loc_of_shr_record round_nearest_even].
    rewrite shr_fexp_noshift.
    + cbn [shr_record_of_loc shr_m]. rewrite Z.add_0_l.
      destruct (Z.leb_spec (fexp64 t) (emax - prec)) as [_ | Hover];
        [| unfold emax, prec in Hover; lia].
      exists q, (fexp64 t). repeat split; lia.
    + rewrite Zdigits2_pos, Hdq. unfold fexp64 in *. lia.
  - rewrite <- Hdiv, Zdigits2_pos. fold t. lia.
Qed.

(** *** The steps of [format_duration] on a float *)

(** The whole part of a float converts back exactly. *)
Lemma of_int_whole_part (mx : positive) (ex : Z) (h : positive) :
  dg mx <= 53 -> -1074 <= ex <= 971 ->
  Z.shiftl (Zpos mx) ex = Zpos h ->
  exists y, of_int (Zpos h) = Ok y /\ represents y (Zpos h)
            /\ (ex < 0 -> exists m e, y = S754_finite false m e /\ -52 <= e <= 0).
Proof.
  intros Hd He Hh. pose proof (dg_pos mx). pose proof (dg_pos h).
  assert (Hsmall : dg h <= 53 -> exists y, of_int (Zpos h) = Ok y /\ represents y (Zpos h)
            /\ exists m e, y = S754_finite false m e /\ -52 <= e <= 0).
  { intros Hdh.
    destruct (binary_round_exact false h 0 Hdh ltac:(lia) ltac:(lia))
      as (m' & e' & Hr & He' & Hm' & Hdm' & Hrange & Hexp).
    exists (S754_finite false m' e'). split; [| split].
    - unfold of_int. cbn [binary_normalize]. now rewrite Hr.
    - exists m', e'. repeat split; try lia. left. split; [lia |].
      rewrite Hm'. f_equal.
    - exists m', e'. split; [reflexivity |]. unfold fexp64 in Hexp. lia. }
  destruct (Z.lt_ge_cases ex 0) as [Hneg | Hpos].
  - rewrite shiftl_nonpos in Hh by lia.
    assert (Hdh : dg h <= 53).
    { apply dg_le; [lia |]. rewrite <- Hh.
      assert (Zpos mx < 2 ^ 53) by (apply dg_lt_pow; lia).
      assert (0 < 2 ^ (- ex)) by (apply Z.pow_pos_nonneg; lia).
      assert (Zpos mx / 2 ^ (- ex) <= Zpos mx)
        by (apply Z.div_le_upper_bound; [lia | nia]).
      lia. }
    destruct (Hsmall Hdh) as (y & Hy & Hrep & Hexp). exists y. auto.
  - rewrite Z.shiftl_mul_pow2 in Hh by lia. symmetry in Hh.
    pose proof (dg_shift mx h ex Hpos Hh) as Hdh.
    destruct (Z.le_gt_cases (dg h) 53) as [Hle | Hgt].
    + destruct (Hsmall Hle) as (y & Hy & Hrep & _). exists y.
      split; [exact Hy | split; [exact Hrep | intros; lia]].
    + destruct (binary_round_shifted mx ex h Hd Hpos ltac:(lia) Hh)
        as (q & t & Hr & Ht & Hq & Hdq).
      exists (S754_finite false q t). split; [| split; [| intros; lia]].
      * unfold of_int. cbn [binary_normalize]. now rewrite Hr.
      * exists q, t. repeat split; first [lia | right; split; [lia | exact Hq]].
Qed.

Lemma sub_finite (mx my : positive) (ex ey : Z) :
  sub (S754_finite false mx ex) (S754_finite false my ey)
  = binary_normalize prec emax
      (Zpos mx * 2 ^ (ex - Z.min ex ey) - Zpos my * 2 ^ (ey - Z.min ex ey))
      (Z.min ex ey) false.
Proof.
  unfold sub. cbn [SFsub cond_Zopp].
  destruct (shl_align_spec mx ex (Z.min ex ey) ltac:(lia)) as [-> _].
  destruct (shl_align_spec my ey (Z.min ex ey) ltac:(lia)) as [-> _].
  reflexivity.
Qed.

(** A float that is a whole number, minus its whole part, is zero. *)
Lemma sub_whole_number (mx : positive) (ex : Z) (y : float) :
  0 <= ex -> represents y (Zpos mx * 2 ^ ex) ->
  sub (S754_finite false mx ex) y = S754_zero false.
Proof.
  intros Hex (m & e & -> & _ & _ & Hval). rewrite sub_finite.
  assert (H0 : Zpos mx * 2 ^ (ex - Z.min ex e) - Zpos m * 2 ^ (e - Z.min ex e) = 0);
    [| now rewrite H0].
  destruct Hval as [[He Hm] | [He Hm]].
  - rewrite Z.min_r by lia. rewrite Hm, Z.sub_diag, Z.pow_0_r.
    replace (ex - e) with (ex + - e) by lia. rewrite Z.pow_add_r by lia. lia.
  - destruct (Z.le_ge_cases ex e) as [Hle | Hge].
    + rewrite Z.min_l by lia. rewrite Z.sub_diag, Z.pow_0_r.
      assert (0 < 2 ^ ex) by (apply Z.pow_pos_nonneg; lia).
      replace e with (e - ex + ex) in Hm at 1 by lia.
      rewrite Z.pow_add_r in Hm by lia. nia.
    + rewrite Z.min_r by lia. rewrite Z.sub_diag, Z.pow_0_r.
      assert (0 < 2 ^ e) by (apply Z.pow_pos_nonneg; lia).
      replace ex with (ex - e + e) in Hm at 1 by lia.
      rewrite Z.pow_add_r in Hm by lia. nia.
Qed.

(** A float below 2^53 with a fraction, minus its whole part, is its
    fraction, exactly: the mantissa [mx mod 2^(-ex)] at the exponent
    [ex], in canonical form. *)
Lemma sub_whole_part (mx : positive) (ex : Z) (H : Z) (mH : positive) (eH : Z) :
  dg mx <= 53 -> -1074 <= ex < 0 ->
  H = Zpos mx / 2 ^ (- ex) ->
  -52 <= eH <= 0 -> Zpos mH = H * 2 ^ (- eH) ->
  let F := Zpos mx mod 2 ^ (- ex) in
  (F = 0 /\ sub (S754_finite false mx ex) (S754_finite false mH eH) = S754_zero false)
  \/ (exists mR eR,
        sub (S754_finite false mx ex) (S754_finite false mH eH) = S754_finite false mR eR
        /\ eR <= ex /\ Zpos mR = F * 2 ^ (ex - eR)).
Proof.
  intros Hd Hex HH HeH HmH F.
  assert (Hk : 0 < 2 ^ (- ex)) by (apply Z.pow_pos_nonneg; lia).
  assert (HF : 0 <= F < 2 ^ (- ex)) by (apply Z.mod_pos_bound; lia).
  assert (Hmx : Zpos mx = H * 2 ^ (- ex) + F)
    by (unfold F; rewrite HH; rewrite Z.mul_comm; apply Z.div_mod; lia).
  rewrite sub_finite. set (ez := Z.min ex eH).
  assert (Hez : ez <= ex /\ ez <= eH /\ -1074 <= ez) by (unfold ez; lia).
  assert (HD : Zpos mx * 2 ^ (ex - ez) - Zpos mH * 2 ^ (eH - ez) = F * 2 ^ (ex - ez)).
  { rewrite HmH, Hmx.
    assert (2 ^ (- eH) * 2 ^ (eH - ez) = 2 ^ (- ex) * 2 ^ (ex - ez)).
    { rewrite <- !Z.pow_add_r by lia. f_equal. lia. }
    nia. }
  rewrite HD.
  assert (Hs : 0 < 2 ^ (ex - ez)) by (apply Z.pow_pos_nonneg; lia).
  destruct (Z.eq_dec F 0) as [HF0 | HF0].
  { left. split; [exact HF0 |]. now rewrite HF0. }
  right. destruct (F * 2 ^ (ex - ez)) as [| D | D] eqn:ED; [nia | | nia].
  cbn [binary_normalize].
  assert (HdD : dg D <= 53).
  { apply dg_le; [lia |]. rewrite <- ED.
    destruct (Z.le_ge_cases ex eH) as [Hle | Hge].
    - unfold ez in *. rewrite Z.min_l in * by lia. rewrite Z.sub_diag, Z.pow_0_r.
      assert (Zpos mx < 2 ^ 53) by (apply dg_lt_pow; lia).
      assert (0 <= H * 2 ^ (- ex)).
      { apply Z.mul_nonneg_nonneg; [| lia]. rewrite HH. apply Z.div_pos; lia. }
      lia.
    - unfold ez in *. rewrite Z.min_r in * by lia.
      assert (F * 2 ^ (ex - eH) < 2 ^ (- ex) * 2 ^ (ex - eH)) by nia.
      rewrite <- Z.pow_add_r in * by lia.
      assert (2 ^ (- ex + (ex - eH)) <= 2 ^ 53) by (apply Z.pow_le_mono_r; lia). lia. }
  assert (HdD' : dg D + ez <= 0).
  { assert (dg D <= - ez); [| lia]. apply dg_le; [lia |]. rewrite <- ED.
    assert (F * 2 ^ (ex - ez) < 2 ^ (- ex) * 2 ^ (ex - ez)) by nia.
    rewrite <- Z.pow_add_r in * by lia.
    replace (- ex + (ex - ez)) with (- ez) in * by lia. lia. }
  destruct (binary_round_exact false D ez HdD ltac:(lia) ltac:(lia))
    as (mR & eR & -> & HeR & HmR & _).
  exists mR, eR. split; [reflexivity |]. split; [lia |].
  rewrite HmR, <- ED.
  replace (ex - eR) with (ex - ez + (ez - eR)) by lia. rewrite Z.pow_add_r by lia. lia.
Qed.

Lemma of_int_sixty : of_int 60 = Ok sixty.
Proof. reflexivity. Qed.

Lemma mul_sixty (mR : positive) (eR F ex : Z) :
  eR <= ex -> ex < 0 -> Zpos mR = F * 2 ^ (ex - eR) -> 0 <= F < 2 ^ (- ex) ->
  exists M,
    to_int (mul (S754_finite false mR eR) sixty) = Ok M
    /\ 60 * F / 2 ^ (- ex) <= M <= 60 * F / 2 ^ (- ex) + 1
    /\ M * 2 ^ 48 * 2 ^ (- ex) <= 60 * F * 2 ^ 48 + 2 ^ (- ex).
Proof.
  intros HeR Hex HmR HF. unfold mul, sixty. cbn [SFmul xorb].
  assert (Hs : 0 < 2 ^ (ex - eR)) by (apply Z.pow_pos_nonneg; lia).
  assert (Hk : 0 < 2 ^ (- ex)) by (apply Z.pow_pos_nonneg; lia).
  assert (H47 : 0 < 2 ^ 47) by lia.
  assert (Hprod : Zpos (mR * 8444249301319680) = 60 * F * (2 ^ (ex - eR) * 2 ^ 47)).
  { rewrite Pos2Z.inj_mul, HmR. change (Zpos 8444249301319680) with (60 * 2 ^ 47). lia. }
  assert (Hdg : dg (mR * 8444249301319680) <= 53 - eR).
  { apply dg_le; [lia |]. rewrite Hprod.
    assert (60 * F * (2 ^ (ex - eR) * 2 ^ 47) < 2 ^ 6 * 2 ^ (- ex) * (2 ^ (ex - eR) * 2 ^ 47)).
    { apply Z.mul_lt_mono_pos_r; [lia |]. change (2 ^ 6) with 64. lia. }
    rewrite <- !Z.pow_add_r in H by lia.
    replace (6 + - ex + (ex - eR + 47)) with (53 - eR) in H by lia.
    rewrite <- Z.pow_add_r by lia. exact H. }
  destruct (binary_round_aux_trunc (mR * 8444249301319680) (eR + -47))
    as (M & HM & Hrange & Hnear); [lia |].
  exists M. split; [exact HM |]. split.
  - assert (Hfloor : Z.shiftl (Zpos (mR * 8444249301319680)) (eR + -47)
                     = 60 * F / 2 ^ (- ex)).
    { rewrite shiftl_nonpos by lia. rewrite Hprod.
      replace (- (eR + -47)) with (- ex + (ex - eR + 47)) by lia.
      rewrite (Z.pow_add_r 2 (- ex)) by lia. rewrite <- Z.pow_add_r by lia.
      apply Z.div_mul_cancel_r; [lia |].
      assert (0 < 2 ^ (ex - eR + 47)) by (apply Z.pow_pos_nonneg; lia). lia. }
    now rewrite <- Hfloor.
  - specialize (Hnear ltac:(lia)).
    assert (Hulp : 2 ^ (fexp64 (dg (mR * 8444249301319680) + (eR + -47)) - (eR + -47))
                   <= 2 ^ (ex - eR) * 2 ^ (- ex)).
    { rewrite <- Z.pow_add_r by lia. apply Z.pow_le_mono_r; [lia |].
      unfold fexp64. lia. }
    rewrite Hprod in Hnear.
    replace (- (eR + -47)) with (ex - eR + (- ex + 47)) in Hnear by lia.
    rewrite !Z.pow_add_r in Hnear by lia.
    change (2 ^ 48) with (2 * 2 ^ 47).
    set (S := 2 ^ (ex - eR)) in *. set (K := 2 ^ (- ex)) in *. set (c := 2 ^ 47) in *.
    apply (Z.mul_le_mono_pos_l _ _ S Hs). nia.
Qed.

Lemma duration_of_float_steps (x : float) :
  DateUtils.duration_of_number (DateUtils.NFloat x)
  = (H ← to_int x; y ← of_int H; M ← to_int (mul (sub x y) sixty);
     Ok (Some (DateUtils.duration_text H M))).
Proof.
  unfold DateUtils.duration_of_number. cbn [DateUtils.num_int].
  destruct (to_int x) as [H | err]; [| reflexivity]. cbn [mbind py_bind DateUtils.num_sub_int].
  destruct (of_int H) as [y | err]; [| reflexivity].
  cbn [mbind py_bind DateUtils.num_mul_int]. rewrite of_int_sixty. reflexivity.
Qed.

(** [format_duration] on a finite, non-negative float: the whole hours
    are the whole part of the number, the minutes the whole minutes of
    its fraction, or one more; and the minutes are above sixty times the
    fraction by [2^-48] at most. *)
Lemma duration_of_finite_float (mx : positive) (ex : Z) :
  dg mx <= 53 -> -1074 <= ex <= 971 ->
  exists M,
    DateUtils.duration_of_number (DateUtils.NFloat (S754_finite false mx ex))
    = Ok (Some (DateUtils.duration_text (Z.shiftl (Zpos mx) ex) M))
    /\ fraction_minutes mx ex <= M <= fraction_minutes mx ex + 1
    /\ (if ex <? 0
        then M * 2 ^ 48 * 2 ^ (- ex) <= 60 * (Zpos mx mod 2 ^ (- ex)) * 2 ^ 48 + 2 ^ (- ex)
        else M = 0).
Proof.
  intros Hd Hex. rewrite duration_of_float_steps.
  cbn [to_int cond_Zopp mbind py_bind]. unfold fraction_minutes.
  assert (Hzero : forall s, to_int (mul (S754_zero s) sixty) = Ok 0) by reflexivity.
  destruct (Z.ltb_spec ex 0) as [Hneg | Hpos].
  - assert (Hk : 0 < 2 ^ (- ex)) by (apply Z.pow_pos_nonneg; lia).
    pose proof (Z.mod_pos_bound (Zpos mx) (2 ^ (- ex)) Hk) as HF.
    destruct (Z.shiftl (Zpos mx) ex) as [| h | h] eqn:Hh.
    + change (of_int 0) with (@Ok float (S754_zero false)).
      cbn [mbind py_bind sub SFsub].
      rewrite shiftl_nonpos in Hh by lia.
      destruct (mul_sixty mx ex (Zpos mx mod 2 ^ (- ex)) ex) as (M & -> & HM);
        [lia | lia | | lia |].
      * rewrite Z.sub_diag, Z.pow_0_r, Z.mul_1_r.
        rewrite Z.mod_small; [reflexivity |].
        apply Z.div_small_iff in Hh; lia.
      * exists M. split; [reflexivity | exact HM].
    + destruct (of_int_whole_part mx ex h Hd Hex Hh) as (y & -> & Hrep & Hform).
      destruct (Hform Hneg) as (m & e & -> & He).
      destruct Hrep as (m0 & e0 & Heq & _ & _ & Hval). injection Heq as <- <-.
      destruct Hval as [[_ Hm] | [? _]]; [| lia].
      cbn [mbind py_bind].
      rewrite shiftl_nonpos in Hh by lia.
      destruct (sub_whole_part mx ex (Zpos h) m e Hd ltac:(lia) (eq_sym Hh) He Hm)
        as [[HF0 ->] | (mR & eR & -> & HeR & HmR)].
      * rewrite Hzero. cbn [mbind py_bind]. exists 0. split; [reflexivity |].
        rewrite HF0, Z.mul_0_r, Z.div_0_l by lia. lia.
      * destruct (mul_sixty mR eR (Zpos mx mod 2 ^ (- ex)) ex HeR Hneg HmR HF)
          as (M & -> & HM).
        exists M. split; [reflexivity | exact HM].
    + pose proof (Z.shiftl_nonneg (Zpos mx) ex). lia.
  - destruct (Z.shiftl (Zpos mx) ex) as [| h | h] eqn:Hh.
    + rewrite Z.shiftl_mul_pow2 in Hh by lia.
      assert (0 < 2 ^ ex) by (apply Z.pow_pos_nonneg; lia). nia.
    + destruct (of_int_whole_part mx ex h Hd Hex Hh) as (y & -> & Hrep & _).
      cbn [mbind py_bind].
      rewrite Z.shiftl_mul_pow2 in Hh by lia. rewrite <- Hh in Hrep.
      rewrite (sub_whole_number mx ex y Hpos Hrep), Hzero. cbn [mbind py_bind].
      exists 0. split; [reflexivity |]. split; [lia | reflexivity].
    + pose proof (Z.shiftl_nonneg (Zpos mx) ex). lia.
Qed.

(** *** Decimal literals *)

Lemma of_decimal_bounded (n : Z) (k : nat) :
  bounded64 (of_decimal n k) /\ has_sign false (of_decimal n k).
Proof.
  unfold of_decimal. destruct n as [| p | p]; [now split | | now split].
  unfold SFdiv, SFdiv_core_binary.
  set (d := Z.to_pos (10 ^ Z.of_nat k)).
  set (e' := Z.min _ _).
  set (m' := match 0 - 0 - e' with Z0 => _ | Zpos _ => _ | Zneg _ => _ end).
  assert (He' : -1074 <= e' <= 0) by (unfold e'; rewrite fexp_64; unfold fexp64; lia).
  assert (Hm' : 0 <= m').
  { unfold m'. destruct (0 - 0 - e'); [lia | | lia].
    apply Z.shiftl_nonneg. lia. }
  pose proof (Z_div_mod m' (Zpos d) ltac:(lia)) as Hdiv.
  destruct (Z.div_eucl m' (Zpos d)) as [q r]. destruct Hdiv as [Hq Hr].
  apply binary_round_aux_bounded; [nia | lia].
Qed.

Lemma is_decimal_not_point (c : ascii) :
  PyStr.is_decimal c = true -> Ascii.eqb c "." = false.
Proof.
  intros Hc. destruct (Ascii.eqb_spec c ".") as [-> | _]; [discriminate | reflexivity].
Qed.

Lemma is_decimal_isdigit (c : ascii) :
  PyStr.is_decimal c = true -> PyStr.char_isdigit c = true.
Proof. intros Hc. unfold PyStr.char_isdigit. now rewrite Hc. Qed.

(** Once the point is passed, a literal holds nothing but digits. *)
Lemma scan_decimal_after_point (s : string) (acc : Z) (k : nat) (seen : bool)
    (r : Z * nat) :
  scan_decimal acc (Some k) seen s = Some r ->
  PyStr.all_chars PyStr.char_isdigit s = true
  /\ (seen = true \/ PyStr.truthy s = true).
Proof.
  revert acc k seen. induction s as [| c s IH]; intros acc k seen; cbn [scan_decimal].
  - destruct seen; [auto | discriminate].
  - destruct (PyStr.is_decimal c) eqn:Hc.
    + intros Hscan. apply IH in Hscan as [Hall _]. cbn [PyStr.all_chars PyStr.truthy].
      rewrite (is_decimal_isdigit c Hc), Hall. auto.
    + destruct (Ascii.eqb c "."); discriminate.
Qed.

(** A decimal literal passes the guard of [format_duration]. *)
Lemma scan_decimal_guard (s : string) (acc : Z) (seen : bool) (r : Z * nat) :
  scan_decimal acc None seen s = Some r ->
  PyStr.all_chars PyStr.char_isdigit (PyStr.remove_first "." s) = true
  /\ (seen = true \/ PyStr.truthy (PyStr.remove_first "." s) = true).
Proof.
  revert acc seen. induction s as [| c s IH]; intros acc seen;
    cbn [scan_decimal PyStr.remove_first].
  - destruct seen; [auto | discriminate].
  - destruct (PyStr.is_decimal c) eqn:Hc.
    + rewrite (is_decimal_not_point c Hc). intros Hscan.
      apply IH in Hscan as [Hall _]. cbn [PyStr.all_chars PyStr.truthy].
      rewrite (is_decimal_isdigit c Hc), Hall. auto.
    + destruct (Ascii.eqb c "."); [| discriminate]. cbn [fmap option_fmap option_map].
      intros Hscan. now apply scan_decimal_after_point in Hscan.
Qed.

Lemma format_duration_literal (s : string) (n : Z) (k : nat) :
  scan_decimal 0 None false s = Some (n, k) ->
  DateUtils.format_duration (PyStr s)
  = except_value_type (DateUtils.duration_of_number (DateUtils.NFloat (of_decimal n k)))
                      (Ok None).
Proof.
  intros Hscan. unfold DateUtils.format_duration, of_str.
  destruct (scan_decimal_guard s 0 false (n, k) Hscan) as [Hall [? | Htruthy]];
    [discriminate |].
  assert (Hs : PyStr.truthy s = true) by (destruct s; [discriminate | reflexivity]).
  unfold PyStr.isdigit. rewrite Hs, Htruthy, Hall, Hscan. reflexivity.
Qed.

(** *** The exact number *)

Lemma Qfloor_value (m : positive) (e : Z) :
  Qfloor (value (S754_finite false m e)) = Z.shiftl (Zpos m) e.
Proof.
  destruct e as [| p | p]; cbn [value cond_Zopp].
  - rewrite Qfloor_Z, Z.shiftl_mul_pow2; lia.
  - rewrite Qfloor_Z, Z.shiftl_mul_pow2; lia.
  - rewrite shiftl_nonpos by lia. cbn [Qfloor Z.opp]. now rewrite Pos2Z.inj_pow.
Qed.

Lemma Qfloor_fraction (m : positive) (e : Z) :
  Qfloor ((value (S754_finite false m e)
           - inject_Z (Qfloor (value (S754_finite false m e)))) * 60)
  = fraction_minutes m e.
Proof.
  rewrite Qfloor_value. unfold fraction_minutes.
  destruct e as [| p | p]; cbn [value cond_Zopp Z.ltb Z.compare].
  - rewrite Z.shiftl_mul_pow2 by lia.
    assert (H0 : ((inject_Z (Zpos m * 2 ^ 0) - inject_Z (Zpos m * 2 ^ 0)) * 60 == 0)%Q) by ring.
    now rewrite H0.
  - rewrite Z.shiftl_mul_pow2 by lia.
    assert (H0 : ((inject_Z (Zpos m * 2 ^ Zpos p) - inject_Z (Zpos m * 2 ^ Zpos p)) * 60
                  == 0)%Q) by ring.
    now rewrite H0.
  - rewrite shiftl_nonpos by lia. cbn [Z.opp].
    assert (Hk : 0 < 2 ^ Zpos p) by (apply Z.pow_pos_nonneg; lia).
    assert (HQ : ((Qmake (Zpos m) (2 ^ p) - inject_Z (Zpos m / 2 ^ Zpos p)) * 60
                  == Qmake (60 * (Zpos m mod 2 ^ Zpos p)) (2 ^ p))%Q).
    { unfold Qeq, Qminus, Qplus, Qmult, Qopp, inject_Z. cbn [Qnum Qden].
      rewrite !Pos2Z.inj_mul, !Pos2Z.inj_pow.
      pose proof (Z.div_mod (Zpos m) (2 ^ Zpos p) ltac:(lia)) as Hdm. nia. }
    rewrite HQ. cbn [Qfloor]. now rewrite Pos2Z.inj_pow.
Qed.

(** The bound on the minutes, on the exact number: they exceed sixty
    times the fraction by [2^-48] at most. *)
Lemma minutes_near (m : positive) (e M : Z) :
  (if e <? 0
   then M * 2 ^ 48 * 2 ^ (- e) <= 60 * (Zpos m mod 2 ^ (- e)) * 2 ^ 48 + 2 ^ (- e)
   else M = 0) ->
  (inject_Z M
   <= (value (S754_finite false m e)
       - inject_Z (Qfloor (value (S754_finite false m e)))) * 60
      + (1 # 2 ^ 48))%Q.
Proof.
  rewrite Qfloor_value.
  destruct e as [| p | p]; cbn [value cond_Zopp Z.ltb Z.compare].
  - intros ->. rewrite Z.shiftl_mul_pow2 by lia.
    unfold Qle, Qminus, Qplus, Qmult, Qopp, inject_Z. cbn [Qnum Qden]. lia.
  - intros ->. rewrite Z.shiftl_mul_pow2 by lia.
    unfold Qle, Qminus, Qplus, Qmult, Qopp, inject_Z. cbn [Qnum Qden]. lia.
  - rewrite shiftl_nonpos by lia. intros Hnear.
    change (- Z.neg p) with (Zpos p) in *.
    assert (Hk : 0 < 2 ^ Zpos p) by (apply Z.pow_pos_nonneg; lia).
    pose proof (Z.div_mod (Zpos m) (2 ^ Zpos p) ltac:(lia)) as Hdm.
    unfold Qle, Qminus, Qplus, Qmult, Qopp, inject_Z. cbn [Qnum Qden].
    rewrite !Pos2Z.inj_mul, !Pos2Z.inj_pow.
    change (Zpos (2 ^ 48)) with (2 ^ 48) in *.
    set (K := 2 ^ Zpos p) in *. set (c := 2 ^ 48) in *.
    assert (Hc : 0 < c) by (unfold c; lia).
    nia.
Qed.

End Binary64.

(** ** Durations *)

Section FormatDuration.
Import DateUtils.

Example format_duration_two_and_a_half :
  format_duration (PyStr "2.5") = Ok (Some "PT2H30M")
  /\ format_duration (PyFloat (PyFloat.of_decimal 25 1)) = Ok (Some "PT2H30M").
Proof. split; vm_compute; reflexivity. Qed.

Example format_duration_three :
  format_duration (PyInt 3) = Ok (Some "PT3H")
  /\ format_duration (PyStr "3") = Ok (Some "PT3H")
  /\ format_duration (PyFloat (PyFloat.of_decimal 3 0)) = Ok (Some "PT3H").
Proof. repeat split; vm_compute; reflexivity. Qed.

Example format_duration_abc : format_duration (PyStr "abc") = Ok None.
Proof. reflexivity. Qed.

(** A string that is not a decimal literal, whatever it holds, yields
    [None]: either the guard refuses it, or [float] raises. *)
Lemma format_duration_not_a_literal (s : string) :
  PyFloat.scan_decimal 0 None false s = None ->
  format_duration (PyStr s) = Ok None.
Proof.
  intros Hscan. unfold format_duration, PyFloat.of_str. rewrite Hscan.
  destruct (PyStr.truthy s); cbn; [| reflexivity].
  destruct (PyStr.isdigit _); reflexivity.
Qed.

(** So does every string with a minus sign in front. *)
Lemma format_duration_negative_string (s : string) :
  format_duration (PyStr (String "-" s)) = Ok None.
Proof. apply format_duration_not_a_literal. reflexivity. Qed.

(** An infinity, which is what too long a literal is read as, is not
    caught: [int] raises [OverflowError], which the [except] clause does
    not name. *)
Example format_duration_infinity :
  format_duration (PyFloat (S754_infinity false)) = Err OverflowError.
Proof. reflexivity. Qed.

(** And what is not a number at all. *)
Lemma format_duration_nan_none :
  format_duration (PyFloat S754_nan) = Ok None /\ format_duration PyNone = Ok None.
Proof. split; reflexivity. Qed.
End FormatDuration.

(** C8 on the code: the float [-2.5] is a negative number, and
    [format_duration] does not return [None] for it but the text
    ["PT-2H"]; the integer [-3] gives ["PT-3H"], and on minus infinity
    the [OverflowError] of [int] goes through. *)
Theorem format_duration_negative_number :
  valid_binary PyFloat.prec PyFloat.emax Sample.minus_two_and_a_half = true
  /\ (PyFloat.value Sample.minus_two_and_a_half == - (5 # 2))%Q
  /\ DateUtils.format_duration (PyFloat Sample.minus_two_and_a_half)
     = Ok (Some "PT-2H")
  /\ DateUtils.format_duration (PyInt (-3)) = Ok (Some "PT-3H")
  /\ DateUtils.format_duration (PyFloat (S754_infinity true)) = Err OverflowError.
Proof. repeat split; vm_compute; reflexivity. Qed.

(** C9, as the specification states it, fails: the string ["2.3"] denotes
    2.3 hours, whose remainder is 18 minutes, and [format_duration] gives
    17, the binary64 number next to 2.3 being below it. *)
Lemma format_duration_two_point_three :
  (exists h, decimal_value "2.3" = Some h /\ (h == 23 # 10)%Q)
  /\ spec_duration (23 # 10) = "PT2H18M"
  /\ DateUtils.format_duration (PyStr "2.3") = Ok (Some "PT2H17M")
  /\ DateUtils.format_duration (PyStr "2.3") <> Ok (Some (spec_duration (23 # 10))).
Proof.
  split; [eexists; split; [reflexivity | reflexivity] |].
  repeat split; vm_compute; congruence.
Qed.

(** ** The duration of a non-negative number *)

Section DurationOfNumber.
Import PyFloat DateUtils.

(** A literal is finite unless it is so large that it rounds to
    infinity. *)
Lemma of_decimal_finite (n : Z) (k : nat) :
  is_finite (of_decimal n k) = true \/ of_decimal n k = S754_infinity false.
Proof.
  destruct (of_decimal_bounded n k) as [Hb Hs].
  destruct (of_decimal n k) as [s | s | | s m e]; cbn in *.
  - now left.
  - right. now subst.
  - contradiction.
  - left. destruct Hb as [Hd He].
    apply andb_true_intro. split; [apply andb_true_intro; split |]; apply Z.leb_le; lia.
Qed.


(** A binary64 number in canonical form is a finite number of the
    format. *)
Lemma valid_binary_is_finite (s : bool) (m : positive) (e : Z) :
  valid_binary prec emax (S754_finite s m e) = true ->
  is_finite (S754_finite s m e) = true.
Proof.
  cbn [valid_binary is_finite]. unfold bounded, canonical_mantissa.
  rewrite fexp_64. fold (dg m). unfold fexp64, emax, prec.
  intros H. apply andb_prop in H as [Hc He].
  apply Z.eqb_eq in Hc. apply Z.leb_le in He.
  apply andb_true_intro. split; [apply andb_true_intro; split |]; apply Z.leb_le; lia.
Qed.

(** The minutes can be one more than the whole minutes of the number:
    the binary64 number next to 0.6 is below 0.6, its fraction has 35
    whole minutes, and the product by 60 rounds to 36. *)
Example format_duration_rounds_up :
  format_duration (PyStr "0.6") = Ok (Some "PT0H36M")
  /\ (exists v, numeric_value (PyStr "0.6") = Some v
                /\ Qfloor ((v - inject_Z (Qfloor v)) * 60) = 35).
Proof. split; [| eexists; split]; vm_compute; reflexivity. Qed.

(** C9, as the code has it: for every non-negative finite number, given
    as an integer, a float or a decimal literal, [format_duration]
    returns the text of [H] whole hours and [M] minutes, the minutes left
    out when [M] is zero, where [H] is the whole part of the binary64
    value [v] of the input and [M] is the product of the remainder by 60,
    computed in binary64 and truncated: [M] is the whole minutes of the
    remainder of [v], except that it is the next whole minute when the
    exact product is less than [2^-48] below it and the binary64
    product reaches it; and it returns ["PT2H30M"] for 2.5, ["PT3H"] for
    3, ["PT2H17M"] for ["2.3"] and ["PT0H36M"] for ["0.6"]. *)
Theorem format_duration_non_negative (h : pyvalue) (v : Q)
    (Hv : numeric_value h = Some v) (Hpos : (0 <= v)%Q) :
  (exists M,
    DateUtils.format_duration h
    = Ok (Some (DateUtils.duration_text (Qfloor v) M))
    /\ Qfloor ((v - inject_Z (Qfloor v)) * 60) <= M
       <= Qfloor ((v - inject_Z (Qfloor v)) * 60) + 1
    /\ (inject_Z M <= (v - inject_Z (Qfloor v)) * 60 + (1 # 2 ^ 48))%Q)
  /\ format_duration (PyFloat Sample.two_and_a_half) = Ok (Some "PT2H30M")
  /\ format_duration (PyStr "2.5") = Ok (Some "PT2H30M")
  /\ format_duration (PyFloat Sample.three) = Ok (Some "PT3H")
  /\ format_duration (PyInt 3) = Ok (Some "PT3H")
  /\ format_duration (PyStr "2.3") = Ok (Some "PT2H17M")
  /\ format_duration (PyStr "0.6") = Ok (Some "PT0H36M").
Proof.
  split; [| repeat split; vm_compute; reflexivity].
  assert (Hfloat : forall x, is_finite x = true -> (0 <= value x)%Q ->
    exists M,
      DateUtils.duration_of_number (DateUtils.NFloat x)
      = Ok (Some (DateUtils.duration_text (Qfloor (value x)) M))
      /\ Qfloor ((value x - inject_Z (Qfloor (value x))) * 60) <= M
         <= Qfloor ((value x - inject_Z (Qfloor (value x))) * 60) + 1
      /\ (inject_Z M <= (value x - inject_Z (Qfloor (value x))) * 60 + (1 # 2 ^ 48))%Q).
  { intros [s | s | | s m e] Hfin Hnn; try discriminate.
    - exists 0. split; [now destruct s |]. split; [change (0 <= 0 <= 0 + 1); lia |].
      vm_compute. discriminate.
    - cbn [is_finite] in Hfin. apply andb_prop in Hfin as [Hfin He2].
      apply andb_prop in Hfin as [Hd He1].
      apply Z.leb_le in Hd, He1, He2.
      destruct s.
      + exfalso. apply (Qle_not_lt _ _ Hnn).
        destruct e; cbn [value cond_Zopp]; unfold Qlt; cbn [Qnum Qden inject_Z]; try lia.
      + destruct (duration_of_finite_float m e Hd ltac:(lia))
          as (M & HM & Hrange & Hnear).
        exists M. rewrite Qfloor_fraction, Qfloor_value.
        split; [exact HM |]. split; [exact Hrange |].
        rewrite <- Qfloor_value. now apply minutes_near. }
  destruct h as [x | n | s |]; cbn [numeric_value] in Hv; [| | | discriminate].
  - destruct (is_finite x) eqn:Hfin; [| discriminate]. injection Hv as <-.
    destruct (Hfloat x Hfin Hpos) as (M & HM & Hrange).
    exists M. split; [| exact Hrange].
    unfold DateUtils.format_duration. now rewrite HM.
  - injection Hv as <-. rewrite Qfloor_Z. exists 0. split.
    + unfold DateUtils.format_duration, DateUtils.duration_of_number.
      cbn [DateUtils.num_int DateUtils.num_sub_int DateUtils.num_mul_int mbind py_bind
           except_value_type].
      now rewrite Z.sub_diag.
    + assert (H0 : ((inject_Z n - inject_Z n) * 60 == 0)%Q) by ring.
      rewrite H0. split; [change (0 <= 0 <= 0 + 1); lia |]. vm_compute. discriminate.
  - destruct (scan_decimal 0 None false s) as [[n k] |] eqn:Hscan; [| discriminate].
    destruct (is_finite (of_decimal n k)) eqn:Hfin; [| discriminate]. injection Hv as <-.
    destruct (Hfloat _ Hfin Hpos) as (M & HM & Hrange).
    exists M. split; [| exact Hrange].
    rewrite (format_duration_literal s n k Hscan). now rewrite HM.
Qed.

End DurationOfNumber.

Lemma format_duration_non_negative_witness :
  exists M,
    DateUtils.format_duration (PyStr "2.3") = Ok (Some (DateUtils.duration_text 2 M))
    /\ M = 17.
Proof.
  destruct (format_duration_non_negative (PyStr "2.3")
              (PyFloat.value (PyFloat.of_decimal 23 1)))
    as [(M & HM & [Hlow _] & Hnear) _].
  - vm_compute. reflexivity.
  - vm_compute. discriminate.
  - exists M. split; [exact HM |].
    set (low := Qfloor _) in Hlow. vm_compute in low. subst low.
    set (x := (_ + (1 # 2 ^ 48))%Q) in Hnear. vm_compute in x. subst x.
    unfold Qle in Hnear. cbn [Qnum Qden inject_Z] in Hnear. lia.
Defined.

(** ** Dates *)

Section DateParsing.
Import PyStr DateUtils.

Lemma is_decimal_plain (c : ascii) :
  is_decimal c = true ->
  is_space c = false /\ Ascii.eqb c "/" = false /\ Ascii.eqb c "-" = false
  /\ Ascii.eqb c "+" = false /\ Ascii.eqb c "_" = false
  /\ 0 <= digit_value c <= 9.
Proof.
  destruct c as [[] [] [] [] [] [] [] []]; vm_compute; intros H;
    try discriminate H; repeat split; congruence.
Qed.

Lemma lstrip_digits (s : string) : all_chars is_decimal s = true -> lstrip s = s.
Proof.
  destruct s as [| c r]; [reflexivity |]. cbn. intros H.
  apply andb_true_iff in H as [Hc _].
  destruct (is_decimal_plain c Hc) as (-> & _). reflexivity.
Qed.

Lemma rstrip_digits (s : string) : all_chars is_decimal s = true -> rstrip s = s.
Proof.
  induction s as [| c r IH]; [reflexivity |]. cbn. intros H.
  apply andb_true_iff in H as [Hc Hr]. rewrite (IH Hr).
  destruct (is_decimal_plain c Hc) as (-> & _). now destruct r.
Qed.

Lemma rstrip_digits_lf (s : string) :
  all_chars is_decimal s = true -> rstrip (s +:+ LF) = s.
Proof.
  induction s as [| c r IH]; [reflexivity |]. intros H.
  cbn in H. apply andb_true_iff in H as [Hc Hr].
  change (rstrip (String c (r +:+ LF)) = String c r). cbn [rstrip].
  rewrite (IH Hr). destruct (is_decimal_plain c Hc) as (-> & _). now destruct r.
Qed.

Lemma int_digits_digits (s : string) (acc : Z) (prev : bool) :
  all_chars is_decimal s = true ->
  prev = true \/ s <> "" ->
  int_digits acc prev s
  = Some (fold_left (fun a c => 10 * a + digit_value c) (list_ascii_of_string s) acc).
Proof.
  revert acc prev. induction s as [| c r IH]; intros acc prev H Hne.
  - destruct Hne as [-> | Hne]; [reflexivity | congruence].
  - cbn in H. apply andb_true_iff in H as [Hc Hr].
    cbn [int_digits list_ascii_of_string fold_left]. rewrite Hc. apply IH; auto.
Qed.

(** [int] on a run of decimal digits, and on one followed by a line feed. *)
Lemma int_of_str_digits (s rest : string) :
  all_chars is_decimal s = true -> s <> "" -> rest = "" \/ rest = LF ->
  int_of_str (s +:+ rest) = Ok (number_of_digits (list_ascii_of_string s)).
Proof.
  intros H Hne Hrest. unfold int_of_str, strip.
  assert (Hstrip : rstrip (lstrip (s +:+ rest)) = s).
  { destruct Hrest as [-> | ->].
    - rewrite append_empty_r, lstrip_digits, rstrip_digits; auto.
    - destruct s as [| c r]; [congruence |].
      change (rstrip (lstrip (String c (r +:+ LF))) = String c r).
      cbn in H. apply andb_true_iff in H as [Hc Hr]. cbn [lstrip].
      destruct (is_decimal_plain c Hc) as (-> & _).
      change (rstrip (String c r +:+ LF) = String c r).
      apply rstrip_digits_lf. cbn. now rewrite Hc. }
  rewrite Hstrip. destruct s as [| c r]; [congruence |].
  pose proof H as H'. cbn in H'. apply andb_true_iff in H' as [Hc Hr].
  assert (Hbody : int_digits 0 false (String c r)
                  = Some (number_of_digits (list_ascii_of_string (String c r))))
    by (apply int_digits_digits; auto).
  destruct (is_decimal_plain c Hc) as (_ & _ & Hminus & Hplus & _).
  destruct c as [[] [] [] [] [] [] [] []]; try discriminate Hminus;
    try discriminate Hplus; rewrite Hbody; reflexivity.
Qed.

Lemma split_cons_other (sep c : ascii) (r : string) :
  Ascii.eqb c sep = false ->
  split sep (String c r)
  = match split sep r with
    | f :: fs => String c f :: fs
    | [] => [String c EmptyString]
    end.
Proof. intros H. cbn [split]. now rewrite H. Qed.

Lemma split_cons_sep (sep : ascii) (r : string) :
  split sep (String sep r) = EmptyString :: split sep r.
Proof. cbn [split]. now rewrite Ascii.eqb_refl. Qed.

Lemma split_date_text d1 d2 m1 m2 y1 y2 y3 y4 rest :
  forallb is_decimal [d1; d2; m1; m2; y1; y2; y3; y4] = true ->
  rest = "" \/ rest = LF ->
  split "/" (date_text d1 d2 m1 m2 y1 y2 y3 y4 rest)
  = [String d1 (String d2 ""); String m1 (String m2 "");
     String y1 (String y2 (String y3 (String y4 rest)))].
Proof.
  intros H Hrest. cbn in H. rewrite !andb_true_iff in H.
  destruct H as (H1 & H2 & H3 & H4 & H5 & H6 & H7 & H8 & _).
  assert (Hr : split "/" rest = [rest]) by (destruct Hrest as [-> | ->]; reflexivity).
  unfold date_text.
  repeat first
    [ rewrite split_cons_sep
    | rewrite split_cons_other by (apply is_decimal_plain; assumption) ].
  rewrite Hr. reflexivity.
Qed.

Lemma number_of_digits_bounds (ds : list ascii) :
  Forall (fun c => is_decimal c = true) ds ->
  0 <= number_of_digits ds < 10 ^ Z.of_nat (length ds).
Proof.
  unfold number_of_digits. intros H.
  enough (G : forall acc, 0 <= acc ->
            0 <= fold_left (fun a c => 10 * a + digit_value c) ds acc
              < (acc + 1) * 10 ^ Z.of_nat (length ds)).
  { specialize (G 0). lia. }
  induction H as [| c ds Hc _ IH]; intros acc Hacc.
  - cbn. lia.
  - cbn [fold_left length]. rewrite Nat2Z.inj_succ, Z.pow_succ_r by lia.
    destruct (is_decimal_plain c Hc) as (_ & _ & _ & _ & _ & Hd).
    specialize (IH (10 * acc + digit_value c) ltac:(lia)). nia.
Qed.

Lemma day_month_year_date_text d1 d2 m1 m2 y1 y2 y3 y4 rest :
  forallb is_decimal [d1; d2; m1; m2; y1; y2; y3; y4] = true ->
  rest = "" \/ rest = LF ->
  day_month_year (date_text d1 d2 m1 m2 y1 y2 y3 y4 rest)
  = Ok (number_of_digits [d1; d2], number_of_digits [m1; m2],
        number_of_digits [y1; y2; y3; y4]).
Proof.
  intros H Hrest. unfold day_month_year. rewrite split_date_text by assumption.
  cbn in H. rewrite !andb_true_iff in H.
  destruct H as (H1 & H2 & H3 & H4 & H5 & H6 & H7 & H8 & _).
  rewrite <- (append_empty_r (String d1 (String d2 ""))).
  rewrite (int_of_str_digits (String d1 (String d2 "")) "");
    [| cbn; now rewrite H1, H2 | discriminate | now left].
  rewrite <- (append_empty_r (String m1 (String m2 ""))).
  rewrite (int_of_str_digits (String m1 (String m2 "")) "");
    [| cbn; now rewrite H3, H4 | discriminate | now left].
  change (String y1 (String y2 (String y3 (String y4 rest))))
    with (String y1 (String y2 (String y3 (String y4 ""))) +:+ rest).
  rewrite int_of_str_digits;
    [| cbn; now rewrite H5, H6, H7, H8 | discriminate | assumption].
  reflexivity.
Qed.

Lemma matches_date_pattern_text (s : string) :
  matches_date_pattern s = true ->
  exists d1 d2 m1 m2 y1 y2 y3 y4 rest,
    s = date_text d1 d2 m1 m2 y1 y2 y3 y4 rest
    /\ forallb is_decimal [d1; d2; m1; m2; y1; y2; y3; y4] = true
    /\ (rest = "" \/ rest = LF).
Proof.
  unfold matches_date_pattern.
  destruct s as [| d1 [| d2 [| s1 [| m1 [| m2 [| s2 [| y1 [| y2 [| y3 [| y4 rest]]]]]]]]]];
    try discriminate.
  rewrite !andb_true_iff. intros [[[Hd Hs1] Hs2] Hrest].
  apply Ascii.eqb_eq in Hs1, Hs2. subst s1 s2.
  exists d1, d2, m1, m2, y1, y2, y3, y4, rest. repeat split; [exact Hd |].
  apply orb_true_iff in Hrest as [Hr | Hr]; apply String.eqb_eq in Hr; auto.
Qed.

Lemma datetime_small (year month day : Z) :
  0 <= year < 10 ^ 4 -> 0 <= month < 10 ^ 2 -> 0 <= day < 10 ^ 2 ->
  datetime year month day
  = if calendar_date year month day then Ok (mk_date year month day) else Err ValueError.
Proof.
  intros Hy Hm Hd. unfold datetime, calendar_date, fits_c_int.
  replace ((- 2 ^ 31 <=? year) && (year <? 2 ^ 31)) with true
    by (symmetry; apply andb_true_iff; split; [apply Z.leb_le | apply Z.ltb_lt]; lia).
  replace ((- 2 ^ 31 <=? month) && (month <? 2 ^ 31)) with true
    by (symmetry; apply andb_true_iff; split; [apply Z.leb_le | apply Z.ltb_lt]; lia).
  replace ((- 2 ^ 31 <=? day) && (day <? 2 ^ 31)) with true
    by (symmetry; apply andb_true_iff; split; [apply Z.leb_le | apply Z.ltb_lt]; lia).
  reflexivity.
Qed.

Lemma validate_date_text d1 d2 m1 m2 y1 y2 y3 y4 rest :
  forallb is_decimal [d1; d2; m1; m2; y1; y2; y3; y4] = true ->
  rest = "" \/ rest = LF ->
  validate_date (date_text d1 d2 m1 m2 y1 y2 y3 y4 rest)
  = Ok (calendar_date (number_of_digits [y1; y2; y3; y4])
          (number_of_digits [m1; m2]) (number_of_digits [d1; d2])).
Proof.
  intros H Hrest. unfold validate_date.
  assert (Hpat : matches_date_pattern (date_text d1 d2 m1 m2 y1 y2 y3 y4 rest) = true).
  { unfold matches_date_pattern, date_text. rewrite H.
    destruct Hrest as [-> | ->]; reflexivity. }
  rewrite Hpat. cbn [truthy date_text negb].
  rewrite (day_month_year_date_text d1 d2 m1 m2 y1 y2 y3 y4 rest H Hrest).
  cbn [mbind py_bind].
  pose proof H as H'. cbn in H'. rewrite !andb_true_iff in H'.
  destruct H' as (H1 & H2 & H3 & H4 & H5 & H6 & H7 & H8 & _).
  rewrite datetime_small.
  - now destruct (calendar_date _ _ _).
  - apply (number_of_digits_bounds [y1; y2; y3; y4]). repeat constructor; assumption.
  - apply (number_of_digits_bounds [m1; m2]). repeat constructor; assumption.
  - apply (number_of_digits_bounds [d1; d2]). repeat constructor; assumption.
Qed.

End DateParsing.

Lemma validate_date_cases (s : string) :
  (DateUtils.validate_date s = Ok true \/ DateUtils.validate_date s = Ok false)
  /\ (DateUtils.validate_date s = Ok true <->
      s = ""
      \/ exists d1 d2 m1 m2 y1 y2 y3 y4 rest,
           s = date_text d1 d2 m1 m2 y1 y2 y3 y4 rest
           /\ forallb PyStr.is_decimal [d1; d2; m1; m2; y1; y2; y3; y4] = true
           /\ (rest = "" \/ rest = PyStr.LF)
           /\ calendar_date (number_of_digits [y1; y2; y3; y4])
                (number_of_digits [m1; m2]) (number_of_digits [d1; d2]) = true).
Proof.
  destruct s as [| c r]; [split; [now left | split; auto] |].
  destruct (DateUtils.matches_date_pattern (String c r)) eqn:Hpat.
  - destruct (matches_date_pattern_text _ Hpat)
      as (d1 & d2 & m1 & m2 & y1 & y2 & y3 & y4 & rest & Hs & Hdec & Hrest).
    rewrite Hs, validate_date_text by assumption.
    split; [destruct (calendar_date _ _ _); auto |].
    split.
    + intros Hcal. right. exists d1, d2, m1, m2, y1, y2, y3, y4, rest.
      repeat split; auto. congruence.
    + intros [Hempty | (d1' & d2' & m1' & m2' & y1' & y2' & y3' & y4' & rest' & Heq
                        & _ & _ & Hcal)].
      * rewrite <- Hs in Hempty. discriminate.
      * unfold date_text in Heq. injection Heq as -> -> -> -> -> -> -> -> ->.
        now rewrite Hcal.
  - assert (Hno : DateUtils.validate_date (String c r) = Ok false).
    { unfold DateUtils.validate_date. now rewrite Hpat. }
    rewrite Hno. split; [now right |].
    split; [discriminate |].
    intros [Hempty | (d1 & d2 & m1 & m2 & y1 & y2 & y3 & y4 & rest & Hs & Hdec & Hrest & _)];
      [discriminate |].
    rewrite Hs in Hpat. unfold DateUtils.matches_date_pattern, date_text in Hpat.
    rewrite Hdec in Hpat. destruct Hrest as [-> | ->]; discriminate.
Qed.

Lemma convert_date_format_text (d1 d2 m1 m2 y1 y2 y3 y4 : ascii) (rest : string) :
  forallb PyStr.is_decimal [d1; d2; m1; m2; y1; y2; y3; y4] = true ->
  rest = "" \/ rest = PyStr.LF ->
  calendar_date (number_of_digits [y1; y2; y3; y4])
    (number_of_digits [m1; m2]) (number_of_digits [d1; d2]) = true ->
  DateUtils.convert_date_format (date_text d1 d2 m1 m2 y1 y2 y3 y4 rest)
  = Ok (String y1 (String y2 (String y3 (String y4 rest)))
        +:+ "-" +:+ String m1 (String m2 "") +:+ "-" +:+ String d1 (String d2 "")).
Proof.
  intros Hdigits Hrest Hday. unfold DateUtils.convert_date_format.
  rewrite validate_date_text, Hday, split_date_text by assumption.
  reflexivity.
Qed.

(** On a text of ASCII characters [validate_date] does not raise, and it
    accepts exactly the empty string and the texts [dd/mm/yyyy], possibly
    followed by one line feed, that name a day of the calendar. *)
Theorem validate_date_accepts (s : string) (Hascii : isascii s = true) :
  (DateUtils.validate_date s = Ok true \/ DateUtils.validate_date s = Ok false)
  /\ (DateUtils.validate_date s = Ok true <->
      s = ""
      \/ exists d1 d2 m1 m2 y1 y2 y3 y4 rest,
           s = date_text d1 d2 m1 m2 y1 y2 y3 y4 rest
           /\ forallb PyStr.is_decimal [d1; d2; m1; m2; y1; y2; y3; y4] = true
           /\ (rest = "" \/ rest = PyStr.LF)
           /\ calendar_date (number_of_digits [y1; y2; y3; y4])
                (number_of_digits [m1; m2]) (number_of_digits [d1; d2]) = true).
Proof. exact (validate_date_cases s). Qed.

Lemma validate_date_accepts_witness :
  DateUtils.validate_date "29/02/2024" = Ok true
  /\ DateUtils.validate_date "29/02/2025" = Ok false.
Proof.
  split.
  - apply (validate_date_accepts "29/02/2024" eq_refl). right.
    exists "2"%char, "9"%char, "0"%char, "2"%char, "2"%char, "0"%char, "2"%char,
           "4"%char, "".
    repeat split; auto.
  - destruct (validate_date_accepts "29/02/2025" eq_refl) as [[Hyes | Hno] Hiff];
      [| exact Hno].
    apply Hiff in Hyes
      as [Hempty | (d1 & d2 & m1 & m2 & y1 & y2 & y3 & y4 & rest & Heq & _ & _ & Hcal)];
      [discriminate |].
    injection Heq as <- <- <- <- <- <- <- <- _. discriminate.
Defined.

(** A date that [validate_date] accepts is handed to the remote API with
    its three fields in the order year, month, day; a line feed after the
    year stays where it was. *)
Theorem convert_date_format_iso (d1 d2 m1 m2 y1 y2 y3 y4 : ascii) (rest : string)
    (Hdigits : forallb PyStr.is_decimal [d1; d2; m1; m2; y1; y2; y3; y4] = true)
    (Hrest : rest = "" \/ rest = PyStr.LF)
    (Hday : calendar_date (number_of_digits [y1; y2; y3; y4])
              (number_of_digits [m1; m2]) (number_of_digits [d1; d2]) = true) :
  DateUtils.convert_date_format (date_text d1 d2 m1 m2 y1 y2 y3 y4 rest)
  = Ok (String y1 (String y2 (String y3 (String y4 rest)))
        +:+ "-" +:+ String m1 (String m2 "") +:+ "-" +:+ String d1 (String d2 "")).
Proof. apply convert_date_format_text; assumption. Qed.

Lemma convert_date_format_iso_witness :
  DateUtils.convert_date_format "29/02/2024" = Ok "2024-02-29".
Proof.
  apply (convert_date_format_iso "2" "9" "0" "2" "2" "0" "2" "4" "");
    [reflexivity | now left | reflexivity].
Defined.

Lemma convert_date_format_empty_cases (s : string) :
  exists t, DateUtils.convert_date_format s = Ok t
            /\ (t = "" <-> s = "" \/ DateUtils.validate_date s = Ok false).
Proof.
  destruct s as [| c r]; [exists ""; split; [reflexivity | split; auto] |].
  destruct (validate_date_cases (String c r)) as [[Hyes | Hno] Hiff].
  - apply Hiff in Hyes as [Hempty | (d1 & d2 & m1 & m2 & y1 & y2 & y3 & y4 & rest & Hs
                                     & Hdec & Hrest & Hcal)];
      [discriminate |].
    rewrite Hs, convert_date_format_text by assumption.
    eexists. split; [reflexivity |]. split; [discriminate |].
    intros [Hempty | Hfalse]; [discriminate |].
    rewrite validate_date_text, Hcal in Hfalse by assumption. discriminate.
  - exists "". split; [| split; auto].
    unfold DateUtils.convert_date_format. rewrite Hno. reflexivity.
Qed.

(** [convert_date_format] never raises, and its result is empty exactly
    when the date is empty or is one that [validate_date] refuses. *)
Theorem convert_date_format_empty (s : string) :
  exists t, DateUtils.convert_date_format s = Ok t
            /\ (t = "" <-> s = "" \/ DateUtils.validate_date s = Ok false).
Proof. exact (convert_date_format_empty_cases s). Qed.

Lemma date_ltb_number (ya ma da yb mb db : Z) :
  1 <= ma <= 12 -> 1 <= da <= 31 -> 1 <= mb <= 12 -> 1 <= db <= 31 ->
  DateUtils.date_ltb (DateUtils.mk_date ya ma da) (DateUtils.mk_date yb mb db)
  = (10000 * ya + 100 * ma + da <? 10000 * yb + 100 * mb + db).
Proof.
  intros Hma Hda Hmb Hdb. unfold DateUtils.date_ltb. cbn.
  destruct (Z.ltb_spec (10000 * ya + 100 * ma + da) (10000 * yb + 100 * mb + db));
    destruct (Z.ltb_spec ya yb); destruct (Z.eqb_spec ya yb);
    destruct (Z.ltb_spec ma mb); destruct (Z.eqb_spec ma mb);
    destruct (Z.ltb_spec da db); cbn; try reflexivity; lia.
Qed.

Lemma calendar_date_bounds (year month day : Z) :
  calendar_date year month day = true ->
  1 <= year <= 9999 /\ 1 <= month <= 12 /\ 1 <= day <= 31.
Proof.
  unfold calendar_date, DateUtils.days_in_month. rewrite !andb_true_iff, !Z.leb_le.
  intros (((((? & ?) & ?) & ?) & ?) & Hd).
  repeat split; try lia.
  destruct (month =? 2); [destruct (DateUtils.is_leap year); lia |].
  destruct ((month =? 4) || (month =? 6) || (month =? 9) || (month =? 11)); lia.
Qed.

Lemma compare_dates_text
    (d1 d2 m1 m2 y1 y2 y3 y4 : ascii) (rest : string)
    (d1' d2' m1' m2' y1' y2' y3' y4' : ascii) (rest' : string) :
  forallb PyStr.is_decimal [d1; d2; m1; m2; y1; y2; y3; y4] = true ->
  rest = "" \/ rest = PyStr.LF ->
  calendar_date (number_of_digits [y1; y2; y3; y4])
    (number_of_digits [m1; m2]) (number_of_digits [d1; d2]) = true ->
  forallb PyStr.is_decimal [d1'; d2'; m1'; m2'; y1'; y2'; y3'; y4'] = true ->
  rest' = "" \/ rest' = PyStr.LF ->
  calendar_date (number_of_digits [y1'; y2'; y3'; y4'])
    (number_of_digits [m1'; m2']) (number_of_digits [d1'; d2']) = true ->
  DateUtils.compare_dates (date_text d1 d2 m1 m2 y1 y2 y3 y4 rest)
    (date_text d1' d2' m1' m2' y1' y2' y3' y4' rest')
  = if number_of_digits [y1'; y2'; y3'; y4'; m1'; m2'; d1'; d2']
       <? number_of_digits [y1; y2; y3; y4; m1; m2; d1; d2]
    then Ok (false, DateUtils.msg_end_before_start)
    else Ok (true, "").
Proof.
  intros Hdec Hrest Hcal Hdec' Hrest' Hcal'.
  unfold DateUtils.compare_dates. cbn [PyStr.truthy date_text negb orb].
  rewrite (day_month_year_date_text d1 d2 m1 m2 y1 y2 y3 y4 rest Hdec Hrest).
  rewrite (day_month_year_date_text d1' d2' m1' m2' y1' y2' y3' y4' rest' Hdec' Hrest').
  cbn [mbind py_bind].
  pose proof (calendar_date_bounds _ _ _ Hcal) as (Hy & Hm & Hd).
  pose proof (calendar_date_bounds _ _ _ Hcal') as (Hy' & Hm' & Hd').
  rewrite !datetime_small by lia. rewrite Hcal, Hcal'.
  cbn [mbind py_bind]. rewrite date_ltb_number by assumption.
  replace (number_of_digits [y1'; y2'; y3'; y4'; m1'; m2'; d1'; d2'])
    with (10000 * number_of_digits [y1'; y2'; y3'; y4']
          + 100 * number_of_digits [m1'; m2'] + number_of_digits [d1'; d2'])
    by (unfold number_of_digits; cbn [fold_left]; lia).
  replace (number_of_digits [y1; y2; y3; y4; m1; m2; d1; d2])
    with (10000 * number_of_digits [y1; y2; y3; y4]
          + 100 * number_of_digits [m1; m2] + number_of_digits [d1; d2])
    by (unfold number_of_digits; cbn [fold_left]; lia).
  now destruct (_ <? _).
Qed.

(** On two dates that [validate_date] accepts, [compare_dates] orders by
    year, then month, then day, as the eight-digit numbers [yyyymmdd]
    compare: it refuses exactly when the end is an earlier day than the
    start, and accepts the same day. *)
Theorem compare_dates_order
    (d1 d2 m1 m2 y1 y2 y3 y4 : ascii) (rest : string)
    (d1' d2' m1' m2' y1' y2' y3' y4' : ascii) (rest' : string)
    (Hstart : forallb PyStr.is_decimal [d1; d2; m1; m2; y1; y2; y3; y4] = true)
    (Hrest : rest = "" \/ rest = PyStr.LF)
    (Hstart_day : calendar_date (number_of_digits [y1; y2; y3; y4])
                    (number_of_digits [m1; m2]) (number_of_digits [d1; d2]) = true)
    (Hend : forallb PyStr.is_decimal [d1'; d2'; m1'; m2'; y1'; y2'; y3'; y4'] = true)
    (Hrest' : rest' = "" \/ rest' = PyStr.LF)
    (Hend_day : calendar_date (number_of_digits [y1'; y2'; y3'; y4'])
                  (number_of_digits [m1'; m2']) (number_of_digits [d1'; d2']) = true) :
  DateUtils.compare_dates (date_text d1 d2 m1 m2 y1 y2 y3 y4 rest)
    (date_text d1' d2' m1' m2' y1' y2' y3' y4' rest')
  = if number_of_digits [y1'; y2'; y3'; y4'; m1'; m2'; d1'; d2']
       <? number_of_digits [y1; y2; y3; y4; m1; m2; d1; d2]
    then Ok (false, DateUtils.msg_end_before_start)
    else Ok (true, "").
Proof. apply compare_dates_text; assumption. Qed.

Lemma compare_dates_order_witness :
  DateUtils.compare_dates "01/03/2025" "28/02/2025"
  = Ok (false, DateUtils.msg_end_before_start).
Proof.
  apply (compare_dates_order "0" "1" "0" "3" "2" "0" "2" "5" ""
                             "2" "8" "0" "2" "2" "0" "2" "5" "");
    first [reflexivity | now left].
Defined.

(** After the two checks of [validate_date], as in [on_submit],
    [compare_dates] neither raises nor reports a bad format: it accepts,
    or it reports an end before the start. *)
Theorem compare_dates_validated (start_date end_date : string)
    (Hstart : DateUtils.validate_date start_date = Ok true)
    (Hend : DateUtils.validate_date end_date = Ok true) :
  DateUtils.compare_dates start_date end_date = Ok (true, "")
  \/ DateUtils.compare_dates start_date end_date
     = Ok (false, DateUtils.msg_end_before_start).
Proof.
  apply validate_date_cases in Hstart, Hend.
  destruct Hstart as [-> | (d1 & d2 & m1 & m2 & y1 & y2 & y3 & y4 & rest & ->
                            & Hdec & Hrest & Hcal)];
    [now left |].
  destruct Hend as [-> | (d1' & d2' & m1' & m2' & y1' & y2' & y3' & y4' & rest' & ->
                          & Hdec' & Hrest' & Hcal')];
    [now left |].
  rewrite compare_dates_text by assumption. destruct (_ <? _); auto.
Qed.

Lemma compare_dates_validated_witness :
  (DateUtils.compare_dates "10/05/2025" "09/05/2025" = Ok (true, "")
   \/ DateUtils.compare_dates "10/05/2025" "09/05/2025"
      = Ok (false, DateUtils.msg_end_before_start))
  /\ (DateUtils.compare_dates "28/02/2025" "01/03/2025" = Ok (true, "")
      \/ DateUtils.compare_dates "28/02/2025" "01/03/2025"
         = Ok (false, DateUtils.msg_end_before_start)).
Proof.
  split.
  - apply (compare_dates_validated "10/05/2025" "09/05/2025"); reflexivity.
  - apply (compare_dates_validated "28/02/2025" "01/03/2025"); reflexivity.
Defined.

(** ** Durations of strings *)

Section DurationOfString.
Import PyStr PyFloat DateUtils.

Lemma scan_decimal_after_point_decimal (s : string) (acc : Z) (k : nat) (seen : bool)
    (r : Z * nat) :
  scan_decimal acc (Some k) seen s = Some r -> all_chars is_decimal s = true.
Proof.
  revert acc k seen. induction s as [| c s IH]; intros acc k seen; cbn [scan_decimal].
  - reflexivity.
  - destruct (is_decimal c) eqn:Hc.
    + intros Hscan. apply IH in Hscan. cbn [all_chars]. now rewrite Hc.
    + destruct (Ascii.eqb c "."); discriminate.
Qed.

(** What [float] reads as a literal holds, its first point apart, nothing
    but decimal digits. *)
Lemma scan_decimal_decimal (s : string) (acc : Z) (seen : bool) (r : Z * nat) :
  scan_decimal acc None seen s = Some r ->
  all_chars is_decimal (remove_first "." s) = true.
Proof.
  revert acc seen. induction s as [| c s IH]; intros acc seen;
    cbn [scan_decimal remove_first].
  - reflexivity.
  - destruct (is_decimal c) eqn:Hc.
    + rewrite (is_decimal_not_point c Hc). intros Hscan.
      apply IH in Hscan. cbn [all_chars]. now rewrite Hc.
    + destruct (Ascii.eqb c "."); [| discriminate]. cbn [fmap option_fmap option_map].
      intros Hscan. now apply scan_decimal_after_point_decimal in Hscan.
Qed.

Lemma duration_of_literal (n : Z) (k : nat) :
  (of_decimal n k = S754_infinity false
   /\ duration_of_number (NFloat (of_decimal n k)) = Err OverflowError)
  \/ exists H M, 0 <= H /\ 0 <= M
       /\ duration_of_number (NFloat (of_decimal n k)) = Ok (Some (duration_text H M)).
Proof.
  destruct (of_decimal_bounded n k) as [Hb Hs].
  destruct (of_decimal n k) as [s | s | | s m e]; cbn in Hb, Hs.
  - right. exists 0, 0. repeat split; try lia. now destruct s.
  - left. subst s. split; reflexivity.
  - contradiction.
  - right. subst s. destruct Hb as [Hd He].
    destruct (duration_of_finite_float m e Hd He) as (M & HM & Hrange).
    exists (Z.shiftl (Zpos m) e), M. repeat split; [| | exact HM].
    + apply Z.shiftl_nonneg. lia.
    + unfold fraction_minutes in Hrange.
      destruct (Z.ltb_spec e 0); [| lia].
      assert (0 <= 60 * (Zpos m mod 2 ^ (- e)) / 2 ^ (- e)); [| lia].
      apply Z.div_pos; [| apply Z.pow_pos_nonneg; lia].
      pose proof (Z.mod_pos_bound (Zpos m) (2 ^ (- e)) ltac:(apply Z.pow_pos_nonneg; lia)).
      lia.
Qed.

Lemma format_duration_string_cases (s : string) :
  match scan_decimal 0 None false s with
  | None => format_duration (PyStr s) = Ok None
  | Some (n, k) =>
      (of_decimal n k = S754_infinity false
       /\ format_duration (PyStr s) = Err OverflowError)
      \/ exists H M, 0 <= H /\ 0 <= M
           /\ format_duration (PyStr s) = Ok (Some (duration_text H M))
  end.
Proof.
  destruct (scan_decimal 0 None false s) as [[n k] |] eqn:Hscan.
  - rewrite (format_duration_literal s n k Hscan).
    destruct (duration_of_literal n k) as [[Hinf ->] | (H & M & HH & HM & ->)].
    + left. now split.
    + right. exists H, M. now repeat split.
  - now apply format_duration_not_a_literal.
Qed.

End DurationOfString.

(** [format_duration] on a string of ASCII characters: what is not a
    literal of digits [0-9] with at most one point yields [None]; a
    literal yields a duration of non-negative hours and minutes, unless
    it is so large that it rounds to infinity, on which the
    [OverflowError] of [int] is raised to the caller. *)
Theorem format_duration_of_string (s : string) (Hascii : isascii s = true) :
  match PyFloat.scan_decimal 0 None false s with
  | None => DateUtils.format_duration (PyStr s) = Ok None
  | Some (n, k) =>
      (PyFloat.of_decimal n k = S754_infinity false
       /\ DateUtils.format_duration (PyStr s) = Err OverflowError)
      \/ exists H M, 0 <= H /\ 0 <= M
           /\ DateUtils.format_duration (PyStr s)
              = Ok (Some (DateUtils.duration_text H M))
  end.
Proof. exact (format_duration_string_cases s). Qed.

Lemma format_duration_of_string_witness :
  DateUtils.format_duration (PyStr "1.2.3") = Ok None
  /\ ((PyFloat.of_decimal 25 1 = S754_infinity false
       /\ DateUtils.format_duration (PyStr "2.5") = Err OverflowError)
      \/ exists H M, 0 <= H /\ 0 <= M
           /\ DateUtils.format_duration (PyStr "2.5")
              = Ok (Some (DateUtils.duration_text H M))).
Proof.
  split.
  - exact (format_duration_of_string "1.2.3" eq_refl).
  - exact (format_duration_of_string "2.5" eq_refl).
Defined.

Section Superscripts.
Import PyStr.

Lemma all_chars_in (p : ascii -> bool) (s : string) (c : ascii) :
  all_chars p s = true -> In c (list_ascii_of_string s) -> p c = true.
Proof.
  induction s as [| c' s IH]; cbn; [tauto |].
  intros H [-> | Hin]; apply andb_prop in H as [Hc Hs]; auto.
Qed.

Lemma in_remove_first (old c : ascii) (s : string) :
  In c (list_ascii_of_string s) -> c <> old ->
  In c (list_ascii_of_string (remove_first old s)).
Proof.
  intros Hin Hne. induction s as [| c' s IH]; cbn in *; [tauto |].
  destruct (Ascii.eqb_spec c' old) as [-> | Hc'].
  - destruct Hin as [-> | Hin]; [congruence | exact Hin].
  - cbn. destruct Hin as [-> | Hin]; auto.
Qed.

(** A superscript digit is no point and no decimal digit. *)
Lemma superscript_not_decimal (c : ascii) :
  is_superscript c = true -> c <> "."%char /\ is_decimal c = false.
Proof.
  unfold is_superscript, is_decimal. intros H. split.
  - intros ->. discriminate.
  - destruct (Z.leb_spec 48 (code c)), (Z.leb_spec (code c) 57); cbn; try reflexivity.
    repeat (apply orb_prop in H as [H | H]); apply Z.eqb_eq in H; lia.
Qed.

End Superscripts.

(** An estimate made, one point aside, of characters that [str.isdigit]
    accepts, one of them a superscript digit, passes the check of
    [on_submit], but [float] does not read it: the task is created
    without an estimated time. *)
Theorem estimate_with_superscript_digit (s : string) (c : ascii)
    (Hguard : PyStr.isdigit (PyStr.remove_first "." s) = true)
    (Hin : In c (list_ascii_of_string s))
    (Hsuper : is_superscript c = true) :
  (forall m, task_estimate m = s -> TaskDetailsModal.estimate_is_malformed m = false)
  /\ (forall d, estimativa d = s -> OpenProjectRepository.estimated_time d = Ok None).
Proof.
  destruct (superscript_not_decimal c Hsuper) as [Hpoint Hdecimal].
  assert (Hnot : PyStr.all_chars PyStr.is_decimal (PyStr.remove_first "." s) = false).
  { apply not_true_iff_false. intros Hall.
    pose proof (all_chars_in _ _ c Hall (in_remove_first "." c s Hin Hpoint)). congruence. }
  split.
  - intros m <-. unfold TaskDetailsModal.estimate_is_malformed.
    rewrite Hguard. now destruct (PyStr.truthy _).
  - intros d <-. unfold OpenProjectRepository.estimated_time.
    destruct (PyStr.truthy (estimativa d)); [| reflexivity].
    rewrite format_duration_not_a_literal; [reflexivity |].
    destruct (PyFloat.scan_decimal 0 None false (estimativa d)) as [r |] eqn:Hscan;
      [| reflexivity].
    apply scan_decimal_decimal in Hscan. congruence.
Qed.

Lemma estimate_with_superscript_digit_witness :
  (forall m, task_estimate m = String "2" (String (PyStr.chr 178) "") ->
     TaskDetailsModal.estimate_is_malformed m = false)
  /\ (forall d, estimativa d = String "2" (String (PyStr.chr 178) "") ->
        OpenProjectRepository.estimated_time d = Ok None).
Proof.
  apply (estimate_with_superscript_digit (String "2" (String (PyStr.chr 178) ""))
           (PyStr.chr 178)).
  - reflexivity.
  - right. left. reflexivity.
  - reflexivity.
Defined.

(** ** Truncated labels *)

Section Truncation.
Import PySlice StringUtils.

Lemma substring_length (n : nat) (s : string) :
  (n <= String.length s)%nat -> String.length (String.substring 0 n s) = n.
Proof.
  revert n. induction s as [| c s IH]; intros [| n] H; cbn in *; try lia.
  rewrite IH; lia.
Qed.

Lemma append_length (a b : string) :
  String.length (a +:+ b) = (String.length a + String.length b)%nat.
Proof.
  induction a as [| c a IH]; [reflexivity |].
  change (S (String.length (a +:+ b)) = S (String.length a + String.length b)).
  now rewrite IH.
Qed.

Lemma str_to_length (s : string) (stop : Z) :
  Z.of_nat (String.length (str_to s stop)) = bound (Z.of_nat (String.length s)) stop.
Proof.
  unfold str_to. rewrite substring_length.
  - unfold bound. destruct (Z.ltb_spec stop 0); lia.
  - unfold bound. destruct (Z.ltb_spec stop 0); lia.
Qed.

Lemma truncate_string_cases (s : string) (max_length : Z) (suffix : string) :
  Z.of_nat (String.length suffix) <= max_length ->
  (Z.of_nat (String.length s) <= max_length /\ truncate_string s max_length suffix = s)
  \/ (max_length < Z.of_nat (String.length s)
      /\ truncate_string s max_length suffix
         = String.substring 0 (Z.to_nat max_length - String.length suffix) s +:+ suffix
      /\ Z.of_nat (String.length (truncate_string s max_length suffix)) = max_length).
Proof.
  intros Hsuffix. unfold truncate_string.
  destruct s as [| c r]; [left; cbn; split; [lia | reflexivity] |].
  cbn [PyStr.truthy negb].
  destruct (Z.leb_spec (Z.of_nat (String.length (String c r))) max_length) as [Hle | Hgt];
    [now left |].
  right. split; [exact Hgt |].
  assert (Hb : bound (Z.of_nat (String.length (String c r)))
                 (max_length - Z.of_nat (String.length suffix))
               = max_length - Z.of_nat (String.length suffix)).
  { unfold bound. destruct (Z.ltb_spec (max_length - Z.of_nat (String.length suffix)) 0); lia. }
  split.
  - unfold str_to. rewrite Hb. f_equal. f_equal. lia.
  - rewrite append_length, Nat2Z.inj_add, str_to_length, Hb. lia.
Qed.

End Truncation.

(** [truncate_string] with a suffix that fits in [max_length]: a string
    that fits is returned as it is, and a longer one is cut so that, with
    the suffix after it, the result has [max_length] characters exactly. *)
Theorem truncate_string_fits (s : string) (max_length : Z) (suffix : string)
    (Hsuffix : Z.of_nat (String.length suffix) <= max_length) :
  Z.of_nat (String.length (StringUtils.truncate_string s max_length suffix)) <= max_length
  /\ (Z.of_nat (String.length s) <= max_length ->
      StringUtils.truncate_string s max_length suffix = s)
  /\ (max_length < Z.of_nat (String.length s) ->
      StringUtils.truncate_string s max_length suffix
      = String.substring 0 (Z.to_nat max_length - String.length suffix) s +:+ suffix
      /\ Z.of_nat (String.length (StringUtils.truncate_string s max_length suffix))
         = max_length).
Proof.
  destruct (truncate_string_cases s max_length suffix Hsuffix)
    as [[Hle Heq] | (Hgt & Heq & Hlen)].
  - rewrite Heq. split; [exact Hle |]. split; [reflexivity | lia].
  - split; [lia |]. split; [lia |]. intros _. now split.
Qed.

Lemma truncate_string_fits_witness :
  StringUtils.truncate_string "Plataforma de pagamentos" 10 StringUtils.dots
  = "Platafo...".
Proof.
  destruct (truncate_string_fits "Plataforma de pagamentos" 10 StringUtils.dots)
    as (_ & _ & Hcut); [vm_compute; discriminate |].
  destruct Hcut as [Heq _]; [vm_compute; reflexivity |].
  rewrite Heq. reflexivity.
Defined.

(** With a suffix longer than [max_length] the cut counts from the end of
    the string, and the result is longer than [max_length]. *)
Theorem truncate_string_short_limit (s : string) (max_length : Z) (suffix : string)
    (Hlimit : max_length < Z.of_nat (String.length suffix))
    (Hlong : max_length < Z.of_nat (String.length s)) :
  max_length
  < Z.of_nat (String.length (StringUtils.truncate_string s max_length suffix)).
Proof.
  unfold StringUtils.truncate_string.
  destruct s as [| c r]; [cbn in Hlong; cbn; lia |].
  cbn [PyStr.truthy negb].
  destruct (Z.leb_spec (Z.of_nat (String.length (String c r))) max_length); [lia |].
  rewrite append_length, Nat2Z.inj_add. lia.
Qed.

Lemma truncate_string_short_limit_witness :
  2 < Z.of_nat (String.length (StringUtils.truncate_string "abcdefgh" 2 StringUtils.dots)).
Proof. apply truncate_string_short_limit; vm_compute; reflexivity. Defined.

(** ** Pages *)

Section Pages.
Import PySlice.

Lemma slice_page {A} (l : list A) (k : Z) :
  0 <= k ->
  slice l (k * ITEMS_PER_PAGE)
    (Z.min (k * ITEMS_PER_PAGE + ITEMS_PER_PAGE) (Z.of_nat (length l)))
  = take 10 (drop (Z.to_nat (10 * k)) l).
Proof.
  intros Hk. unfold slice, bound, ITEMS_PER_PAGE.
  destruct (Z.ltb_spec (k * 10) 0); [lia |].
  destruct (Z.ltb_spec (Z.min (k * 10 + 10) (Z.of_nat (length l))) 0); [lia |].
  destruct (Z.le_gt_cases (Z.of_nat (length l)) (k * 10)) as [Hout | Hin].
  - rewrite !drop_ge by lia. now rewrite !take_nil.
  - replace (Z.to_nat (Z.min (k * 10) (Z.of_nat (length l)))) with (Z.to_nat (10 * k)) by lia.
    destruct (Z.le_gt_cases (k * 10 + 10) (Z.of_nat (length l))) as [Hfull | Hpart].
    + f_equal. lia.
    + rewrite !take_ge; [reflexivity | |]; rewrite length_drop; lia.
Qed.

Lemma total_pages_step (l : list project) :
  l <> [] ->
  ProjectSelect.total_pages l = 1 + ProjectSelect.total_pages (drop 10 l).
Proof.
  intros Hne. unfold ProjectSelect.total_pages, ITEMS_PER_PAGE. rewrite length_drop.
  set (n := length l). assert (1 <= n)%nat by (destruct l; [congruence | cbn; lia]).
  destruct (Nat.le_gt_cases n 10) as [Hs | Hb].
  - replace (n - 10)%nat with 0%nat by lia.
    rewrite Z.div_small by lia. reflexivity.
  - replace (Z.of_nat (n - 10) - 1) with (Z.of_nat n - 1 + (-1) * 10) by lia.
    rewrite Z.div_add by lia. lia.
Qed.

Lemma total_pages_nonneg (l : list project) : 0 <= ProjectSelect.total_pages l.
Proof.
  unfold ProjectSelect.total_pages, ITEMS_PER_PAGE.
  assert (-1 <= (Z.of_nat (length l) - 1) / 10); [| lia].
  apply Z.div_le_lower_bound; lia.
Qed.

Lemma pages_concat (n : nat) (l : list project) :
  (length l <= n)%nat ->
  concat (map (fun k => take 10 (drop (Z.to_nat (10 * k)) l))
              (seqZ 0 (ProjectSelect.total_pages l))) = l.
Proof.
  revert l. induction n as [| n IH]; intros l Hn.
  - destruct l; [reflexivity | cbn in Hn; lia].
  - destruct (decide (l = [])) as [-> | Hne]; [reflexivity |].
    rewrite (total_pages_step l Hne).
    pose proof (total_pages_nonneg (drop 10 l)) as Hpos.
    rewrite seqZ_cons by lia.
    replace (Z.pred (1 + ProjectSelect.total_pages (drop 10 l)))
      with (ProjectSelect.total_pages (drop 10 l)) by lia.
    replace (Z.succ 0) with (1 + 0) by lia. rewrite <- fmap_add_seqZ.
    rewrite map_cons, concat_cons.
    change (Z.to_nat (10 * 0)) with 0%nat. rewrite drop_0.
    rewrite <- list_fmap_compose.
    rewrite <- (take_drop 10 l) at 3. f_equal.
    assert (Hlen : (length (drop 10 l) <= n)%nat).
    { rewrite length_drop. destruct l; [congruence | cbn in Hn |- *; lia]. }
    rewrite <- (IH (drop 10 l) Hlen) at 2.
    f_equal. apply list_fmap_ext. intros i k Hk. unfold compose.
    apply lookup_seqZ in Hk as [-> Hi].
    rewrite drop_drop. do 2 f_equal. lia.
Qed.

Lemma all_pages_concat (projects : list project) :
  concat (all_pages projects) = projects.
Proof.
  unfold all_pages. rewrite <- (pages_concat (length projects) projects) at 3 by lia.
  f_equal. apply list_fmap_ext. intros i k Hk.
  apply lookup_seqZ in Hk as [-> Hi].
  unfold ProjectSelect.current_page_projects. apply slice_page. lia.
Qed.

Lemma page_size (projects : list project) (page : Z) :
  (length (ProjectSelect.current_page_projects projects page) <= 10)%nat.
Proof.
  unfold ProjectSelect.current_page_projects, slice, bound, ITEMS_PER_PAGE.
  rewrite length_take.
  destruct (Z.ltb_spec (page * 10) 0);
    destruct (Z.ltb_spec (Z.min (page * 10 + 10) (Z.of_nat (length projects))) 0); lia.
Qed.

Lemma page_not_empty (projects : list project) (page : Z) :
  0 <= page < ProjectSelect.total_pages projects ->
  ProjectSelect.current_page_projects projects page <> [].
Proof.
  intros [Hlo Hhi]. unfold ProjectSelect.current_page_projects.
  rewrite slice_page by lia.
  unfold ProjectSelect.total_pages, ITEMS_PER_PAGE in Hhi.
  assert (Hlt : 10 * page < Z.of_nat (length projects)).
  { pose proof (Z.div_mod (Z.of_nat (length projects) - 1) 10 ltac:(lia)).
    pose proof (Z.mod_pos_bound (Z.of_nat (length projects) - 1) 10 ltac:(lia)). lia. }
  intros Hnil. apply (f_equal length) in Hnil.
  rewrite length_take, length_drop in Hnil. change (length (@nil project)) with 0%nat in Hnil. lia.
Qed.

End Pages.

(** The pages of [ProjectSelect] split the list of projects: put one after
    the other, first to last, they give the list back, so every project
    is offered on one page; no page has more than [ITEMS_PER_PAGE]
    projects and none is empty. *)
Theorem pages_split_the_list (projects : list project) :
  concat (all_pages projects) = projects
  /\ Forall (fun page => (1 <= length page <= Z.to_nat ITEMS_PER_PAGE)%nat)
            (all_pages projects).
Proof.
  split; [apply all_pages_concat |].
  unfold all_pages. apply Forall_fmap, Forall_forall. intros k Hk.
  apply elem_of_seqZ in Hk. unfold compose.
  pose proof (page_size projects k) as Hsize.
  pose proof (page_not_empty projects k ltac:(lia)) as Hne.
  change (Z.to_nat ITEMS_PER_PAGE) with 10%nat.
  destruct (ProjectSelect.current_page_projects projects k); [congruence |].
  cbn [length] in *. lia.
Qed.

Section Options.
Import PySlice.

Lemma str_to_bound (s : string) (stop : Z) :
  0 <= stop -> Z.of_nat (String.length (str_to s stop)) <= stop.
Proof.
  intros H. rewrite str_to_length. unfold bound.
  destruct (Z.ltb_spec stop 0); lia.
Qed.

Lemma to_option_limits (p : project) :
  (String.length (o_label (ProjectSelect.to_option p)) <= 90)%nat
  /\ (String.length (o_description (ProjectSelect.to_option p)) <= 100)%nat
  /\ o_value (ProjectSelect.to_option p) = PyStr.str_of_int (p_id p).
Proof.
  cbn [ProjectSelect.to_option o_label o_description o_value].
  repeat split.
  - destruct (truncate_string_cases (p_name p) 90 StringUtils.dots ltac:(cbn; lia))
      as [[Hle ->] | (_ & _ & Hlen)]; lia.
  - pose proof (str_to_bound ("ID: " +:+ PyStr.str_of_int (p_id p)) 100 ltac:(lia)). lia.
Qed.

End Options.

(** Every dropdown that [ProjectSelect] builds, whatever the page, has at
    most [ITEMS_PER_PAGE] options; each has the rendered id of its project
    as value, a label of at most 90 characters and a description of at
    most 100. *)
Theorem project_select_options (projects : list project) (page : Z) :
  let s := ProjectSelect.init projects page in
  (length (s_options s) <= Z.to_nat ITEMS_PER_PAGE)%nat
  /\ s_options s
     = map ProjectSelect.to_option (ProjectSelect.current_page_projects projects page)
  /\ Forall (fun o => (String.length (o_label o) <= 90)%nat
                      /\ (String.length (o_description o) <= 100)%nat)
            (s_options s)
  /\ Forall2 (fun o p => o_value o = PyStr.str_of_int (p_id p))
             (s_options s) (ProjectSelect.current_page_projects projects page).
Proof.
  cbn [ProjectSelect.init s_options]. repeat split.
  - rewrite length_map. apply page_size.
  - apply Forall_fmap, Forall_forall. intros p _. unfold compose.
    destruct (to_option_limits p) as (? & ? & _). now split.
  - apply Forall2_fmap_l, Forall_Forall2_diag, Forall_forall. intros p _.
    apply to_option_limits.
Qed.

(** ** Paging *)

Section Paging.

Lemma init_in_order (projects : list project) :
  view_in_order (ProjectSelectView.init projects).
Proof.
  unfold view_in_order, ProjectSelectView.init. cbn.
  repeat split; auto; lia.
Qed.

Lemma press_in_order (v : view) (b : button) :
  view_in_order v -> view_in_order (press v b) /\ v_projects (press v b) = v_projects v.
Proof.
  intros (Htp & Hlo & Hhi & Hprev & Hnext).
  destruct b; cbn [press]; unfold ProjectSelectView.prev_page, ProjectSelectView.next_page.
  - destruct (Z.gtb_spec (v_current_page v) 0) as [Hgt | Hle]; cbn [fst];
      [| now repeat split].
    unfold view_in_order. cbn. repeat split; auto; lia.
  - destruct (Z.ltb_spec (v_current_page v) (v_total_pages v - 1)) as [Hlt | Hge]; cbn [fst];
      [| now repeat split].
    unfold view_in_order. cbn. repeat split; auto; lia.
Qed.

Lemma presses_in_order (projects : list project) (presses : list button) :
  view_in_order (foldl press (ProjectSelectView.init projects) presses)
  /\ v_projects (foldl press (ProjectSelectView.init projects) presses) = projects.
Proof.
  induction presses as [| b presses IH] using rev_ind.
  - split; [apply init_in_order | reflexivity].
  - rewrite foldl_app. cbn [foldl]. destruct IH as [IH1 IH2].
    destruct (press_in_order _ b IH1) as [H1 H2]. split; [exact H1 | congruence].
Qed.

End Paging.

(** Whatever paging buttons are pressed, in whatever order, starting from
    the view as it is first shown: the view keeps its list, its page stays
    within the pages of the list, the "previous" button is disabled on the
    first page only and the "next" button on the last only, and, unless
    the list is empty, the page shown has a project on it. *)
Theorem paging_keeps_the_view_in_order (projects : list project)
    (presses : list button) :
  let v := foldl press (ProjectSelectView.init projects) presses in
  v_projects v = projects
  /\ view_in_order v
  /\ (projects <> [] ->
      ProjectSelect.current_page_projects projects (v_current_page v) <> []).
Proof.
  destruct (presses_in_order projects presses) as [Horder Hlist].
  cbn zeta. split; [exact Hlist |]. split; [exact Horder |].
  intros Hne. destruct Horder as (Htp & Hlo & Hhi & _).
  rewrite Hlist in Htp. apply page_not_empty.
  change (ProjectSelectView.total_pages projects)
    with (ProjectSelect.total_pages projects) in Htp.
  pose proof (total_pages_step projects Hne).
  pose proof (total_pages_nonneg (drop 10 projects)). lia.
Qed.

(** From any view so reached, going to the next page and back, or to the
    previous page and forth, when the button is enabled, gives the view
    back as it was. *)
Theorem paging_there_and_back (projects : list project) (presses : list button) :
  let v := foldl press (ProjectSelectView.init projects) presses in
  (v_next_disabled v = false -> press (press v NextButton) PrevButton = v)
  /\ (v_prev_disabled v = false -> press (press v PrevButton) NextButton = v).
Proof.
  destruct (presses_in_order projects presses) as [(Htp & Hlo & Hhi & Hprev & Hnext) _].
  cbn zeta. set (v := foldl press _ _) in *.
  split; intros Henabled; cbn [press];
    unfold ProjectSelectView.prev_page, ProjectSelectView.next_page.
  - rewrite Henabled in Hnext. symmetry in Hnext. apply Z.leb_gt in Hnext.
    destruct (Z.ltb_spec (v_current_page v) (v_total_pages v - 1)); [| lia].
    cbn [fst v_current_page v_total_pages].
    destruct (Z.gtb_spec (v_current_page v + 1) 0); [| lia].
    cbn [fst v_projects v_total_pages v_current_page].
    replace (v_current_page v + 1 - 1) with (v_current_page v) by lia.
    destruct v as [ps tp cp pd nd]. cbn in *. f_equal; congruence.
  - rewrite Henabled in Hprev. symmetry in Hprev. apply Z.eqb_neq in Hprev.
    destruct (Z.gtb_spec (v_current_page v) 0); [| lia]. cbn [fst v_current_page v_total_pages].
    destruct (Z.ltb_spec (v_current_page v - 1) (v_total_pages v - 1)); [| lia].
    cbn [fst v_projects v_total_pages v_current_page].
    replace (v_current_page v - 1 + 1) with (v_current_page v) by lia.
    destruct v as [ps tp cp pd nd]. cbn in *. f_equal; [congruence |].
    rewrite Hnext. lia.
Qed.

Lemma paging_there_and_back_witness :
  let v := foldl press
             (ProjectSelectView.init
                (replicate 25 (OpenProjectRepository.to_project Sample.site)))
             [NextButton] in
  press (press v NextButton) PrevButton = v
  /\ press (press v PrevButton) NextButton = v.
Proof.
  destruct (paging_there_and_back
              (replicate 25 (OpenProjectRepository.to_project Sample.site)) [NextButton])
    as [Hnext Hprev].
  split; [apply Hnext | apply Hprev]; reflexivity.
Defined.

(** ** What a coroutine may change *)

Section Effects.
Variable task_id : string.
Variable written : option nat.

Lemma changed_refl (np ng : nat) (st : state) : changed_at_most task_id written np ng st st.
Proof. unfold changed_at_most. repeat split; auto; lia. Qed.

Lemma changed_trans (a b c d : nat) (st st' st'' : state) :
  changed_at_most task_id written a b st st' ->
  changed_at_most task_id written c d st' st'' ->
  changed_at_most task_id written (a + c) (b + d) st st''.
Proof.
  intros (Hr & He & Hd & Hp & Hg) (Hr' & He' & Hd' & Hp' & Hg').
  unfold changed_at_most. repeat split; try lia.
  - intros other Hne. now rewrite Hr', Hr.
  - destruct He' as [-> | ->]; auto.
  - intros l Hl. now rewrite Hd', Hd.
Qed.

Lemma changed_weaken (a b a' b' : nat) (st st' : state) :
  (a <= a')%nat -> (b <= b')%nat ->
  changed_at_most task_id written a b st st' -> changed_at_most task_id written a' b' st st'.
Proof.
  intros Ha Hb (Hr & He & Hd & Hp & Hg). unfold changed_at_most.
  repeat split; auto; lia.
Qed.

Lemma keeps_weaken {A} (a b a' b' : nat) (p : proc A) :
  keeps task_id written a b p -> (a <= a')%nat -> (b <= b')%nat -> keeps task_id written a' b' p.
Proof. intros H Ha Hb e st. eapply changed_weaken; eauto. Qed.

Lemma keeps_return {A} (a : A) (np ng : nat) : keeps task_id written np ng (Return a).
Proof. intros e st. apply changed_refl. Qed.

Lemma keeps_raise {A} (x : exn) (np ng : nat) : keeps task_id written np ng (@Raise A x).
Proof. intros e st. apply changed_refl. Qed.

Lemma keeps_lift {A} (r : py A) (np ng : nat) : keeps task_id written np ng (lift r).
Proof. intros e st. rewrite run_lift. apply changed_refl. Qed.

Lemma keeps_bind {A B} (p : proc A) (k : A -> proc B) (a b c d : nat) :
  keeps task_id written a b p -> (forall x, keeps task_id written c d (k x)) ->
  keeps task_id written (a + c) (b + d) (p ≫= k).
Proof.
  intros Hp Hk e st. rewrite run_bind. specialize (Hp e st).
  destruct (run e p st) as [[x | err] st'] eqn:E; cbn [snd] in *.
  - eapply changed_trans; [exact Hp | apply Hk].
  - eapply changed_weaken; [| | exact Hp]; lia.
Qed.

Lemma keeps_try_except {A} (p : proc A) (h : exn -> proc A) (a b c d : nat) :
  keeps task_id written a b p -> (forall x, keeps task_id written c d (h x)) ->
  keeps task_id written (a + c) (b + d) (try_except p h).
Proof.
  intros Hp Hh e st. rewrite run_try_except. specialize (Hp e st).
  destruct (run e p st) as [[x | err] st'] eqn:E; cbn [snd] in *.
  - eapply changed_weaken; [| | exact Hp]; lia.
  - eapply changed_trans; [exact Hp | apply Hh].
Qed.

Lemma keeps_if {A} (c : bool) (p q : proc A) (a b a' b' : nat) :
  keeps task_id written a b p -> keeps task_id written a' b' q ->
  keeps task_id written (Nat.max a a') (Nat.max b b') (if c then p else q).
Proof.
  intros Hp Hq. destruct c; [apply (keeps_weaken a b) | apply (keeps_weaken a' b')];
    auto; lia.
Qed.

Lemma keeps_attempt {A} (p : proc A) (a b : nat) :
  keeps task_id written a b p -> keeps task_id written a b (attempt p).
Proof. intros Hp e st. rewrite run_attempt. apply Hp. Qed.

Lemma count_events_last (f : event -> bool) (tr : list event) (ev : event) :
  count_events f (tr ++ [ev]) = (count_events f tr + (if f ev then 1 else 0))%nat.
Proof. rewrite count_events_app. cbn. now destruct (f ev). Qed.

(** One call: a create request counts as one, a listing as one. *)
Lemma keeps_await {X A} (c : call X) (k : X -> proc A) (np ng : nat) :
  (forall x, keeps task_id written np ng (k x)) ->
  keeps task_id written
    (match event_of c with Some ev => if is_post ev then 1 else 0 | None => 0 end + np)%nat
    (match event_of c with Some ev => if is_get ev then 1 else 0 | None => 0 end + ng)%nat
    (Await c k).
Proof.
  intros Hk e [w tr]. cbn [run fst snd].
  eapply changed_trans; [| apply Hk].
  unfold changed_at_most, log, posts, gets. cbn [fst snd].
  destruct (event_of c) as [ev |]; rewrite ?count_events_last;
    [destruct (is_post ev), (is_get ev) |]; repeat split; auto; lia.
Qed.

Lemma keeps_chat (c : chat_call) : keeps task_id written 0 0 (chat c).
Proof.
  unfold chat, await.
  apply (keeps_await (Chat c) lift 0 0). intros x. apply keeps_lift.
Qed.

Lemma keeps_fetch_user (uid : Z) : keeps task_id written 0 0 (await (FetchUser uid)).
Proof. apply (keeps_await (FetchUser uid) lift 0 0). intros x. apply keeps_lift. Qed.

Lemma keeps_sleep (n : Z) : keeps task_id written 0 0 (Await (Sleep n) Return).
Proof. apply (keeps_await (Sleep n) Return 0 0). intros x. apply keeps_return. Qed.

(** A synchronous step that leaves the registry alone and writes to no
    dict object but the one at [written]. *)
Lemma keeps_sync {X} (f : world -> X * world) :
  (forall w, pending_tasks (snd (f w)) = pending_tasks w
             /\ forall l, written <> Some l -> dicts (snd (f w)) !! l = dicts w !! l) ->
  keeps task_id written 0 0 (sync f).
Proof.
  intros Hf e [w tr]. rewrite run_sync. cbn [fst snd].
  destruct (Hf w) as [Hreg Hdicts].
  unfold changed_at_most. cbn [fst snd]. rewrite Hreg. repeat split; auto; lia.
Qed.

Lemma keeps_now : keeps task_id written 0 0 (Await Now Return).
Proof. apply (keeps_await Now Return 0 0). intros x. apply keeps_return. Qed.

Lemma keeps_read_repo : keeps task_id written 0 0 (sync read_repo).
Proof. apply keeps_sync. intros w. now split. Qed.

Lemma keeps_read_dict (l : nat) : keeps task_id written 0 0 (sync (read_dict l)).
Proof. apply keeps_sync. intros w. now split. Qed.

Lemma keeps_update_cache (projects : list project) (t : Q) :
  keeps task_id written 0 0 (sync (OpenProjectRepository.update_cache projects t)).
Proof. apply keeps_sync. intros w. now split. Qed.

Lemma keeps_get_pending_task (other : string) :
  keeps task_id written 0 0 (sync (TaskService.get_pending_task other)).
Proof. apply keeps_sync. intros w. now split. Qed.

Lemma keeps_update_dict (l : nat) (g : task_details -> task_details) :
  written = Some l -> keeps task_id written 0 0 (sync (update_dict l g)).
Proof.
  intros Hl. apply keeps_sync. intros w. split; [reflexivity |].
  intros l' Hne. cbn. apply lookup_alter_ne. congruence.
Qed.

Lemma keeps_remove_pending_task :
  keeps task_id written 0 0 (sync (TaskService.remove_pending_task task_id)).
Proof.
  intros e [w tr]. rewrite run_sync. cbn [fst snd].
  unfold changed_at_most, TaskService.remove_pending_task. cbn [fst snd].
  destruct (pending_tasks w !! task_id) eqn:E; cbn [snd pending_tasks dicts].
  - repeat split; auto; try lia.
    + intros other Hne. now apply lookup_delete_ne.
    + right. apply lookup_delete_eq.
  - repeat split; auto; lia.
Qed.

End Effects.

Ltac keeps_leaf :=
  first [ apply (keeps_return _ _ _ 0%nat 0%nat) | apply (keeps_raise _ _ _ 0%nat 0%nat)
        | apply (keeps_lift _ _ _ 0%nat 0%nat)
        | apply keeps_return | apply keeps_raise | apply keeps_lift | apply keeps_chat
        | apply keeps_fetch_user | apply keeps_sleep | apply keeps_now
        | apply keeps_read_repo | apply keeps_read_dict | apply keeps_update_cache
        | apply keeps_get_pending_task | apply keeps_remove_pending_task
        | (apply keeps_update_dict; assumption || reflexivity) ].

Ltac keeps_go :=
  repeat first
    [ keeps_leaf
    | eapply keeps_bind; [| intros ?]
    | eapply keeps_try_except; [| intros ?]
    | eapply keeps_attempt
    | eapply keeps_if ].

Section EffectsOfTheService.
Variable task_id : string.
Variable written : option nat.

Lemma keeps_make_request {A} (c : call (py A)) :
  keeps task_id written
    (match event_of c with Some ev => if is_post ev then 1 else 0 | None => 0 end)
    (match event_of c with Some ev => if is_get ev then 1 else 0 | None => 0 end)
    (OpenProjectRepository._make_request c).
Proof.
  unfold OpenProjectRepository._make_request.
  eapply keeps_weaken.
  - eapply keeps_bind; [apply keeps_read_repo | intros r].
    destruct (negb _ || negb _); revgoals.
    + eapply keeps_try_except; [| intros x; keeps_leaf].
      apply (keeps_await _ _ c lift 0 0). intros x. keeps_leaf.
    + keeps_leaf.
  - lia.
  - lia.
Qed.

Lemma keeps_make_request_get (url : string) :
  keeps task_id written 0 1 (OpenProjectRepository._make_request (HttpGetProjects url)).
Proof. exact (keeps_make_request (HttpGetProjects url)). Qed.

Lemma keeps_make_request_post (url : string) (body : payload) :
  keeps task_id written 1 0
    (OpenProjectRepository._make_request (HttpPostWorkPackage url body)).
Proof. exact (keeps_make_request (HttpPostWorkPackage url body)). Qed.

Lemma keeps_get_projects :
  keeps task_id written 0 1 OpenProjectRepository.get_projects.
Proof.
  unfold OpenProjectRepository.get_projects.
  eapply keeps_weaken.
  - eapply keeps_bind; [apply keeps_now | intros t].
    eapply keeps_bind; [apply keeps_read_repo | intros r].
    destruct (OpenProjectRepository.cache_is_valid r t); revgoals.
    + eapply keeps_try_except; [| intros x; keeps_leaf].
      eapply keeps_bind; [apply keeps_make_request_get | intros data].
      keeps_go.
    + keeps_leaf.
  - cbn. lia.
  - cbn. lia.
Qed.

Lemma keeps_repository_create_task (l : nat) :
  keeps task_id written 1 1 (OpenProjectRepository.create_task l).
Proof.
  unfold OpenProjectRepository.create_task.
  eapply keeps_weaken.
  - eapply keeps_bind; [apply keeps_read_dict | intros d].
    destruct (negb (PyStr.truthy (project_id d))); revgoals.
    + destruct (negb (PyStr.truthy (nome_da_tarefa d))); revgoals.
      * eapply keeps_bind; [keeps_leaf | intros est].
        eapply keeps_bind; [apply keeps_read_repo | intros r].
        eapply keeps_try_except; [| intros x; keeps_leaf].
        eapply keeps_bind; [apply keeps_make_request_post | intros created].
        eapply keeps_bind; [apply keeps_get_projects | intros projects].
        eapply keeps_bind; [apply keeps_read_dict | intros d'].
        eapply keeps_bind; [apply keeps_read_repo | intros r'].
        destruct (OpenProjectRepository.ui_link _ _ _ _); keeps_leaf.
      * keeps_leaf.
    + keeps_leaf.
  - cbn. lia.
  - cbn. lia.
Qed.

Lemma keeps_format_step (b : bool) (r : py string) (l : nat)
    (g : string -> task_details -> task_details) :
  written = Some l ->
  keeps task_id written 0 0
    (if b then f ← lift r; sync (update_dict l (g f)) else Return tt).
Proof.
  intros Hl. destruct b; [| keeps_leaf].
  eapply keeps_weaken; [keeps_go | lia | lia].
Qed.

Lemma keeps_service_create_task (l : nat) :
  written = Some l -> keeps task_id written 1 1 (TaskService.create_task l).
Proof.
  intros Hl. unfold TaskService.create_task.
  eapply keeps_weaken.
  - eapply keeps_bind; [apply keeps_read_dict | intros d].
    eapply keeps_bind; [now apply keeps_format_step | intros _].
    eapply keeps_bind; [now apply keeps_format_step | intros _].
    apply keeps_repository_create_task.
  - cbn. lia.
  - cbn. lia.
Qed.

End EffectsOfTheService.

Section EffectsOfADecision.
Variable task_id : string.

Lemma keeps_notify_channel (written : option nat) (i : interaction)
    (link : option string) :
  keeps task_id written 0 0 (TaskCommands.notify_channel i link).
Proof.
  unfold TaskCommands.notify_channel.
  eapply keeps_weaken; [keeps_go | cbn; lia | cbn; lia].
Qed.

Lemma keeps_approve (i : interaction) (l : nat) :
  keeps task_id (Some l) 1 1 (TaskCommands.approve i l).
Proof.
  unfold TaskCommands.approve.
  eapply keeps_weaken.
  - eapply keeps_bind; [keeps_leaf | intros _].
    eapply keeps_try_except; [| intros x; keeps_go].
    eapply keeps_bind; [keeps_leaf | intros _].
    eapply keeps_bind; [now apply keeps_service_create_task | intros result].
    eapply keeps_bind; [keeps_leaf | intros _].
    eapply keeps_bind; [keeps_leaf | intros _].
    eapply keeps_bind; [| intros _].
    { eapply keeps_if; [eapply keeps_if |]; [| keeps_leaf | keeps_leaf].
      eapply keeps_bind; [keeps_leaf | intros _]. apply keeps_notify_channel. }
    keeps_go.
  - cbn. lia.
  - cbn. lia.
Qed.

Lemma keeps_reject (written : option nat) (reason : option string) :
  keeps task_id written 0 0 (TaskCommands.reject reason).
Proof.
  unfold TaskCommands.reject.
  eapply keeps_weaken; [keeps_go | cbn; lia | cbn; lia].
Qed.

End EffectsOfADecision.

Lemma remote_calls_split (tr : list event) :
  remote_calls tr = (posts tr + gets tr)%nat.
Proof.
  unfold remote_calls, posts, gets.
  induction tr as [| ev tr IH]; [reflexivity |].
  cbn [count_events]. unfold is_remote at 1.
  destruct ev; cbn; lia.
Qed.

Lemma error_handler_run (e : env) (p : proc unit) (st : state) :
  run e (error_handler p) st
  = match run e p st with
    | (Ok _, st') => (Ok tt, st')
    | (Err _, st') =>
        (Ok tt, (fst st', (snd st' ++ [EvChat (Send ToApprover GenericError)])%list))
    end.
Proof.
  unfold error_handler. rewrite run_try_except.
  destruct (run e p st) as [[[] | x] st']; [reflexivity |].
  rewrite run_try_except, run_chat.
  now destruct (chat_result e (Send ToApprover GenericError)) as [[] | y].
Qed.

Section EffectsOfHandleApproval.
Variables (i : interaction) (task_id : string) (reason : option string).

(** What follows the lookup of the submission, when it was found. *)
Lemma keeps_decided (l : nat) (approved : bool) :
  keeps task_id (Some l) (if approved then 1 else 0) (if approved then 1 else 0)
    (d ← sync (read_dict l);
     solicitante ← attempt (await (FetchUser (solicitante_id d)));
     match solicitante with
     | Err _ => chat (Send ToApprover RequesterLookupFailed)
     | Ok _ =>
         (if approved then TaskCommands.approve i l else TaskCommands.reject reason);;
         sync (TaskService.remove_pending_task task_id);;
         try_except
           (if has_message i then chat DisableButtons else Return tt)
           (fun _ => Return tt)
     end).
Proof.
  destruct approved.
  - eapply keeps_weaken.
    + eapply keeps_bind; [keeps_leaf | intros d].
      eapply keeps_bind; [apply keeps_attempt; keeps_leaf | intros [u | x]].
      * eapply keeps_bind; [apply keeps_approve | intros _]. keeps_go.
      * eapply keeps_weaken; [apply keeps_chat | cbn; lia | cbn; lia].
    + cbn. lia.
    + cbn. lia.
  - eapply keeps_weaken.
    + eapply keeps_bind; [keeps_leaf | intros d].
      eapply keeps_bind; [apply keeps_attempt; keeps_leaf | intros [u | x]].
      * eapply keeps_bind; [apply keeps_reject | intros _]. keeps_go.
      * eapply keeps_weaken; [apply keeps_chat | cbn; lia | cbn; lia].
    + cbn. lia.
    + cbn. lia.
Qed.

Lemma handle_approval_body_changes (approved : bool) (e : env) (w : world)
    (tr : list event) :
  changed_at_most task_id (pending_tasks w !! task_id)
    (if approved then 1 else 0) (if approved then 1 else 0) (w, tr)
    (snd (run e (TaskCommands.handle_approval_body i task_id approved reason) (w, tr))).
Proof.
  unfold TaskCommands.handle_approval_body.
  rewrite run_bind, run_chat. cbn [fst snd].
  assert (Hdefer : changed_at_most task_id (pending_tasks w !! task_id) 0 0 (w, tr)
                     (w, (tr ++ [EvChat Defer])%list)).
  { pose proof (keeps_chat task_id (pending_tasks w !! task_id) Defer e (w, tr)) as H.
    now rewrite run_chat in H. }
  destruct (chat_result e Defer) as [[] | x]; cbn [snd];
    [| eapply changed_weaken; [| | exact Hdefer]; lia].
  rewrite run_bind, run_sync. cbn [fst snd TaskService.get_pending_task].
  destruct (pending_tasks w !! task_id) as [l |] eqn:Hl.
  - change 0%nat with (0 + 0)%nat in Hdefer at 1.
    eapply changed_weaken; [| | eapply changed_trans; [exact Hdefer |]].
    3: apply (keeps_decided l approved e). all: lia.
  - eapply changed_weaken; [| | eapply changed_trans; [exact Hdefer |]].
    3: apply (keeps_chat task_id None (Send ToApprover TaskNotFound) e). all: lia.
Qed.

End EffectsOfHandleApproval.

(** A decision, whatever it is, whatever the state and whatever the
    outside answers: [handle_approval] returns normally; every other
    submission keeps its entry, and the decided one keeps its own or loses
    it; no dict object is written to but the one of the decided
    submission; at most one create request and one listing are sent, and
    none when the decision is a rejection. *)
Theorem handle_approval_changes_little (i : interaction) (task_id : string)
    (approved : bool) (reason : option string) (e : env) (w : world)
    (tr : list event) :
  let '(r, (w', tr')) :=
    run e (TaskCommands.handle_approval i task_id approved reason) (w, tr) in
  r = Ok tt
  /\ (forall other, other <> task_id ->
        pending_tasks w' !! other = pending_tasks w !! other)
  /\ (pending_tasks w' !! task_id = pending_tasks w !! task_id
      \/ pending_tasks w' !! task_id = None)
  /\ (forall l, pending_tasks w !! task_id <> Some l -> dicts w' !! l = dicts w !! l)
  /\ (posts tr' <= posts tr + 1)%nat
  /\ (gets tr' <= gets tr + 1)%nat
  /\ (approved = false -> remote_calls tr' = remote_calls tr).
Proof.
  unfold TaskCommands.handle_approval. rewrite error_handler_run.
  pose proof (handle_approval_body_changes i task_id reason approved e w tr) as H.
  destruct (run e (TaskCommands.handle_approval_body i task_id approved reason) (w, tr))
    as [[[] | x] [w' tr']];
    destruct H as (Hr & He & Hd & Hp & Hg); cbn [fst snd] in *.
  - split; [reflexivity |]. split; [exact Hr |]. split; [exact He |].
    split; [exact Hd |]. rewrite !remote_calls_split.
    destruct approved; (repeat split; [lia | lia |]); intros Hno;
      [discriminate | lia].
  - assert (Hgets : gets (tr' ++ [EvChat (Send ToApprover GenericError)]) = gets tr')
      by (unfold gets; rewrite count_events_last; cbn; lia).
    split; [reflexivity |]. split; [exact Hr |]. split; [exact He |].
    split; [exact Hd |]. rewrite !remote_calls_split, posts_chat, Hgets.
    destruct approved; (repeat split; [lia | lia |]); intros Hno;
      [discriminate | lia].
Qed.

Lemma registry_unchanged (st st' : state) :
  (forall task_id, changed_at_most task_id None 1 1 st st') ->
  pending_tasks (fst st') = pending_tasks (fst st).
Proof.
  intros H. apply map_eq. intros k.
  destruct (H (String "x" k)) as (Hother & _). apply Hother.
  intros Heq. apply (f_equal String.length) in Heq. cbn in Heq. lia.
Qed.

(** [OpenProjectRepository.create_task], whatever the state and the
    answers: the registry and the dict objects are left as they were, at
    most one create request and one listing are sent, and when the call
    returns a result exactly one create request was sent and the result
    carries exactly one link, to the page of the task when the project is
    in the list, to the API otherwise. *)
Theorem repository_create_task_sends_one_request (l : nat) (e : env) (w : world)
    (tr : list event) :
  let '(r, (w', tr')) := run e (OpenProjectRepository.create_task l) (w, tr) in
  pending_tasks w' = pending_tasks w
  /\ dicts w' = dicts w
  /\ (posts tr' <= posts tr + 1)%nat
  /\ (gets tr' <= gets tr + 1)%nat
  /\ match r with
     | Ok result =>
         posts tr' = (posts tr + 1)%nat
         /\ (r_ui_link result = None <-> r_api_link result <> None)
     | Err x => x = OpenProjectError \/ x = OverflowError
     end.
Proof.
  pose proof (fun task_id =>
    keeps_repository_create_task task_id None l e (w, tr)) as Hkeeps.
  pose proof (registry_unchanged _ _ Hkeeps) as Hreg.
  destruct (Hkeeps "") as (_ & _ & Hdicts0 & Hposts & Hgets).
  assert (Hdicts : dicts (fst (snd (run e (OpenProjectRepository.create_task l) (w, tr))))
                   = dicts w)
    by (apply map_eq; intros k; now apply Hdicts0).
  clear Hdicts0 Hkeeps. revert Hreg Hdicts Hposts Hgets.
  unfold OpenProjectRepository.create_task.
  rewrite run_bind, run_sync. cbn [fst snd read_dict].
  set (d := default inhabitant (dicts w !! l)).
  destruct (PyStr.truthy (project_id d)); cbn [negb run].
  2: { intros. cbn [fst snd] in *. repeat split; auto; lia. }
  destruct (PyStr.truthy (nome_da_tarefa d)); cbn [negb run].
  2: { intros. cbn [fst snd] in *. repeat split; auto; lia. }
  rewrite run_bind, run_lift.
  destruct (OpenProjectRepository.estimated_time d) as [est | x] eqn:Hest.
  2: { intros. cbn [fst snd] in *. repeat split; auto; try lia.
       right. unfold OpenProjectRepository.estimated_time in Hest.
       destruct (PyStr.truthy (estimativa d)); [| discriminate].
       pose proof (format_duration_string_cases (estimativa d)) as Hcases.
       destruct (PyFloat.scan_decimal 0 None false (estimativa d)) as [[n k] |].
       - destruct Hcases as [[_ Hraise] | (H & M & _ & _ & Hok)];
           rewrite ?Hraise, ?Hok in Hest; cbn in Hest; congruence.
       - rewrite Hcases in Hest. discriminate. }
  rewrite run_bind, run_sync. cbn [fst snd read_repo].
  rewrite run_try_except, run_bind.
  destruct (run e (OpenProjectRepository._make_request _) (w, tr))
    as [[created | x] [w1 tr1]] eqn:Hreq.
  2: { cbn [run]. intros. cbn [fst snd] in *. repeat split; auto; lia. }
  assert (Hposted : posts tr1 = (posts tr + 1)%nat /\ w1 = w).
  { revert Hreq. unfold OpenProjectRepository._make_request.
    rewrite run_bind, run_sync. cbn [fst snd read_repo].
    destruct (negb _ || negb _); cbn [run]; [discriminate |].
    rewrite run_try_except, run_await. cbn [answer log event_of fst snd].
    destruct (post_response e); cbn [run]; [| discriminate].
    intros [= _ <- <-]. rewrite posts_post. split; [lia | reflexivity]. }
  destruct Hposted as [Hposted ->].
  rewrite run_bind.
  pose proof (keeps_get_projects "" None e (w, tr1)) as (_ & _ & _ & Hp2 & _).
  destruct (run e OpenProjectRepository.get_projects (w, tr1))
    as [[projects | x] [w2 tr2]]; cbn [fst snd] in Hp2.
  2: { cbn [run]. intros. cbn [fst snd] in *. repeat split; auto; lia. }
  rewrite run_bind, run_sync. cbn [fst snd read_dict].
  rewrite run_bind, run_sync. cbn [fst snd read_repo].
  destruct (OpenProjectRepository.ui_link _ _ _ _) as [link |]; cbn [run];
    intros; cbn [fst snd r_ui_link r_api_link] in *;
    (repeat split; auto; try lia; try congruence).
Qed.

(** ** Submission ids *)

Section SubmissionIds.
Import PyStr.

Lemma str_of_int_inj (n n' : Z) : str_of_int n = str_of_int n' -> n = n'.
Proof.
  unfold str_of_int. intros H. apply DecimalZ.to_int_inj.
  assert (Hnn : forall z, Z.to_int z <> Decimal.Pos Decimal.Nil
                          /\ Z.to_int z <> Decimal.Neg Decimal.Nil).
  { intros [| p | p]; cbn; split; try discriminate;
      intros [= Hp]; now apply DecimalPos.Unsigned.to_uint_nonnil in Hp. }
  apply (f_equal NilZero.int_of_string) in H.
  rewrite !NilZero.isi in H by apply Hnn. congruence.
Qed.

Lemma string_of_uint_plain (d : Decimal.uint) :
  all_chars (fun c => negb (Ascii.eqb c "_")) (NilEmpty.string_of_uint d) = true.
Proof. induction d; cbn; auto. Qed.

Lemma str_of_int_plain (n : Z) : all_chars (fun c => negb (Ascii.eqb c "_")) (str_of_int n) = true.
Proof.
  unfold str_of_int, NilZero.string_of_int, NilZero.string_of_uint.
  destruct (Z.to_int n) as [d | d]; destruct d; cbn; auto using string_of_uint_plain.
Qed.

Lemma append_underscore_inj (a a' b b' : string) :
  all_chars (fun c => negb (Ascii.eqb c "_")) a = true ->
  all_chars (fun c => negb (Ascii.eqb c "_")) a' = true ->
  a +:+ "_" +:+ b = a' +:+ "_" +:+ b' -> a = a' /\ b = b'.
Proof.
  revert a'. induction a as [| c a IH]; intros [| c' a'] Ha Ha' H.
  - now injection H.
  - injection H as <- _. cbn in Ha'. discriminate.
  - injection H as -> _. cbn in Ha. discriminate.
  - change (String c (a +:+ "_" +:+ b) = String c' (a' +:+ "_" +:+ b')) in H.
    injection H as -> H. cbn in Ha, Ha'.
    apply andb_true_iff in Ha as [_ Ha]. apply andb_true_iff in Ha' as [_ Ha'].
    destruct (IH a' Ha Ha' H) as [-> ->]. auto.
Qed.

End SubmissionIds.

(** Two submissions get the same id exactly when they come from the same
    user in the same interaction: the text
    [f"{user.id}_{interaction.id}"] determines both numbers, so
    submissions of different users, or of one user in different
    interactions, never share an id. *)
Theorem submission_id_injective (i i' : interaction) :
  TaskDetailsModal.submission_id i = TaskDetailsModal.submission_id i'
  <-> user_id i = user_id i' /\ interaction_id i = interaction_id i'.
Proof.
  split.
  - intros Hsame. unfold TaskDetailsModal.submission_id in Hsame.
    apply append_underscore_inj in Hsame as [Hu Hi]; auto using str_of_int_plain.
    split; now apply str_of_int_inj.
  - intros [Hu Hi]. unfold TaskDetailsModal.submission_id. now rewrite Hu, Hi.
Qed.

Lemma submission_id_injective_witness :
  TaskDetailsModal.submission_id
    (mk_interaction 1 "ana" 23 false false false PyNone false)
  <> TaskDetailsModal.submission_id
       (mk_interaction 12 "bob" 3 false false false PyNone false)
  /\ TaskDetailsModal.submission_id Sample.ana <> TaskDetailsModal.submission_id Sample.bob
  /\ TaskDetailsModal.submission_id Sample.bob
     <> TaskDetailsModal.submission_id Sample.bob_again.
Proof.
  repeat split; intros Hsame; apply submission_id_injective in Hsame as [Hu Hi];
    discriminate.
Defined.

(** ** Submitting, the checks passed *)

Section Submitted.
Import TaskDetailsModal.
Variables (m : modal) (i : interaction) (e : env) (w : world) (tr : list event).

Lemma on_submit_body_checked (msg : string) :
  estimate_is_malformed m = false ->
  DateUtils.validate_date (start_date m) = Ok true ->
  DateUtils.validate_date (due_date m) = Ok true ->
  DateUtils.compare_dates (start_date m) (due_date m) = Ok (true, msg) ->
  opt_truthy (td_project_id m) = true ->
  chat_result e Defer = Ok tt ->
  run e (on_submit_body m i) (w, tr)
  = run e (chat (Send ToApprover (ApprovalRequest (submission_id i)));;
           chat (Send ToRequester SubmissionSent))
        (submitted m i w, (tr ++ [EvChat Defer])%list).
Proof.
  intros Hest Hstart Hdue Horder Hproject Hdefer.
  unfold on_submit_body.
  rewrite run_bind, run_chat, Hdefer, Hest. cbn [fst snd].
  rewrite run_bind, Hstart, run_lift. cbn [negb].
  rewrite run_bind, Hdue, run_lift. cbn [negb].
  rewrite run_bind, Horder, run_lift. cbn [negb]. rewrite Hproject. cbn [negb].
  rewrite run_bind, run_sync. cbn [fst snd new_dict].
  rewrite run_bind, run_sync. reflexivity.
Qed.

Lemma stored_lookup :
  lookup_submission (submission_id i) (submitted m i w) = Some (consolidate m i).
Proof.
  unfold lookup_submission, submitted. cbn [pending_tasks dicts].
  rewrite lookup_insert_eq. cbn. apply lookup_insert_eq.
Qed.

Lemma stored_others (other : string) :
  other <> submission_id i ->
  pending_tasks (submitted m i w) !! other = pending_tasks w !! other.
Proof. intros Hne. unfold submitted. cbn. now apply lookup_insert_ne. Qed.

Lemma stored_dicts (l : nat) (d : task_details) :
  dicts w !! l = Some d -> dicts (submitted m i w) !! l = Some d.
Proof.
  intros Hl. unfold submitted. cbn [dicts]. rewrite lookup_insert_ne; [exact Hl |].
  intros <-. pose proof (is_fresh (dom (dicts w))) as Hfresh.
  apply Hfresh, elem_of_dom. eauto.
Qed.

End Submitted.

(** A submission that passes the checks of [on_submit] is stored under
    its id before anybody is told: with the approver and the requester
    reached, the run consists of the acknowledgement, the request to the
    approver and the confirmation to the requester; the submission is
    then found under its id as it was filled in, every other entry is as
    before, and nothing was sent to the remote API. *)
Theorem on_submit_registers (m : modal) (i : interaction) (e : env) (w : world)
    (tr : list event) (msg : string)
    (Hestimate : TaskDetailsModal.estimate_is_malformed m = false)
    (Hstart : DateUtils.validate_date (start_date m) = Ok true)
    (Hdue : DateUtils.validate_date (due_date m) = Ok true)
    (Horder : DateUtils.compare_dates (start_date m) (due_date m) = Ok (true, msg))
    (Hproject : opt_truthy (td_project_id m) = true)
    (Hdefer : chat_result e Defer = Ok tt)
    (Happrover : chat_result e
                   (Send ToApprover (ApprovalRequest (TaskDetailsModal.submission_id i)))
                 = Ok tt) :
  let '(r, (w', tr')) := run e (TaskDetailsModal.on_submit m i) (w, tr) in
  r = Ok tt
  /\ lookup_submission (TaskDetailsModal.submission_id i) w'
     = Some (TaskDetailsModal.consolidate m i)
  /\ (forall other, other <> TaskDetailsModal.submission_id i ->
        pending_tasks w' !! other = pending_tasks w !! other)
  /\ tr' = (tr ++ [EvChat Defer;
                   EvChat (Send ToApprover
                             (ApprovalRequest (TaskDetailsModal.submission_id i)));
                   EvChat (Send ToRequester SubmissionSent)])%list.
Proof.
  unfold TaskDetailsModal.on_submit, error_handler_method.
  rewrite run_try_except, (on_submit_body_checked m i e w tr msg) by assumption.
  rewrite run_bind, run_chat, Happrover, run_chat. cbn [fst snd].
  destruct (chat_result e (Send ToRequester SubmissionSent)) as [[] | x]; cbn [run];
    rewrite <- !app_assoc; cbn [app];
    (repeat split; [apply stored_lookup | apply stored_others]).
Qed.

Lemma on_submit_registers_witness :
  let '(r, (w', tr')) :=
    run (Sample.answers 1000 (Ok []) (Ok Sample.created))
        (TaskDetailsModal.on_submit
           (Sample.filled "Fix login" "10/05/2025" "12/05/2025") Sample.ana)
        (Sample.one_pending, []) in
  r = Ok tt
  /\ lookup_submission "11_900" w'
     = Some (TaskDetailsModal.consolidate
               (Sample.filled "Fix login" "10/05/2025" "12/05/2025") Sample.ana)
  /\ (forall other, other <> "11_900" ->
        pending_tasks w' !! other = pending_tasks Sample.one_pending !! other)
  /\ tr' = [EvChat Defer; EvChat (Send ToApprover (ApprovalRequest "11_900"));
            EvChat (Send ToRequester SubmissionSent)].
Proof.
  apply (on_submit_registers (Sample.filled "Fix login" "10/05/2025" "12/05/2025")
           Sample.ana (Sample.answers 1000 (Ok []) (Ok Sample.created))
           Sample.one_pending [] ""); reflexivity.
Defined.

(** When the message to the approver cannot be delivered, the submission
    that passed the checks stays in the registry all the same, where no
    button leads to it; the run ends there, and the requester is sent
    neither the confirmation nor an error. *)
Theorem on_submit_approver_unreachable (m : modal) (i : interaction) (e : env)
    (w : world) (tr : list event) (msg : string) (x : exn)
    (Hestimate : TaskDetailsModal.estimate_is_malformed m = false)
    (Hstart : DateUtils.validate_date (start_date m) = Ok true)
    (Hdue : DateUtils.validate_date (due_date m) = Ok true)
    (Horder : DateUtils.compare_dates (start_date m) (due_date m) = Ok (true, msg))
    (Hproject : opt_truthy (td_project_id m) = true)
    (Hdefer : chat_result e Defer = Ok tt)
    (Happrover : chat_result e
                   (Send ToApprover (ApprovalRequest (TaskDetailsModal.submission_id i)))
                 = Err x) :
  let '(r, (w', tr')) := run e (TaskDetailsModal.on_submit m i) (w, tr) in
  r = Ok tt
  /\ lookup_submission (TaskDetailsModal.submission_id i) w'
     = Some (TaskDetailsModal.consolidate m i)
  /\ tr' = (tr ++ [EvChat Defer;
                   EvChat (Send ToApprover
                             (ApprovalRequest (TaskDetailsModal.submission_id i)))])%list.
Proof.
  unfold TaskDetailsModal.on_submit, error_handler_method.
  rewrite run_try_except, (on_submit_body_checked m i e w tr msg) by assumption.
  rewrite run_bind, run_chat, Happrover. cbn [fst snd run].
  rewrite <- !app_assoc. cbn [app]. repeat split. apply stored_lookup.
Qed.

Lemma on_submit_approver_unreachable_witness :
  let '(r, (w', tr')) :=
    run (mk_env 1000
           (fun c => match c with
                     | Send ToApprover (ApprovalRequest _) => Err ChatError
                     | _ => Ok tt
                     end)
           (Ok tt) (Ok []) (Ok Sample.created))
        (TaskDetailsModal.on_submit
           (Sample.filled "Fix login" "10/05/2025" "12/05/2025") Sample.ana)
        (Sample.one_pending, []) in
  r = Ok tt
  /\ lookup_submission "11_900" w'
     = Some (TaskDetailsModal.consolidate
               (Sample.filled "Fix login" "10/05/2025" "12/05/2025") Sample.ana)
  /\ tr' = [EvChat Defer; EvChat (Send ToApprover (ApprovalRequest "11_900"))].
Proof.
  apply (on_submit_approver_unreachable
           (Sample.filled "Fix login" "10/05/2025" "12/05/2025") Sample.ana
           (mk_env 1000
              (fun c => match c with
                        | Send ToApprover (ApprovalRequest _) => Err ChatError
                        | _ => Ok tt
                        end)
              (Ok tt) (Ok []) (Ok Sample.created))
           Sample.one_pending [] "" ChatError); reflexivity.
Defined.

(** [on_submit], whatever was filled in, whatever the state and whatever
    the outside answers: it returns normally, it sends nothing to the
    remote API, and it leaves the state as it was or with the one
    submission stored, under its own id in a dict object of its own, so
    that no other entry and no other submission is touched. *)
Theorem on_submit_changes_little (m : modal) (i : interaction) (e : env)
    (w : world) (tr : list event) :
  let '(r, (w', tr')) := run e (TaskDetailsModal.on_submit m i) (w, tr) in
  r = Ok tt
  /\ remote_calls tr' = remote_calls tr
  /\ (w' = w \/ w' = submitted m i w)
  /\ (forall other, other <> TaskDetailsModal.submission_id i ->
        pending_tasks w' !! other = pending_tasks w !! other)
  /\ (forall l d, dicts w !! l = Some d -> dicts w' !! l = Some d).
Proof.
  assert (Hsame : forall tr', remote_calls tr' = remote_calls tr ->
            Ok tt = Ok tt /\ remote_calls tr' = remote_calls tr
            /\ (w = w \/ w = submitted m i w)
            /\ (forall other, other <> TaskDetailsModal.submission_id i ->
                  pending_tasks w !! other = pending_tasks w !! other)
            /\ (forall l d, dicts w !! l = Some d -> dicts w !! l = Some d))
    by (intros; repeat split; auto).
  assert (Htold : forall c tr0, remote_calls tr0 = remote_calls tr ->
            let '(r, (w', tr')) :=
              run e (try_except (chat c) (fun _ => Return tt)) (w, tr0) in
            r = Ok tt /\ remote_calls tr' = remote_calls tr
            /\ (w' = w \/ w' = submitted m i w)
            /\ (forall other, other <> TaskDetailsModal.submission_id i ->
                  pending_tasks w' !! other = pending_tasks w !! other)
            /\ (forall l d, dicts w !! l = Some d -> dicts w' !! l = Some d)).
  { intros c tr0 Htr0. rewrite run_try_except, run_chat. cbn [fst snd].
    destruct (chat_result e c) as [[] | x]; cbn [run]; apply Hsame;
      now rewrite remote_calls_chat. }
  unfold TaskDetailsModal.on_submit, error_handler_method.
  destruct (chat_result e Defer) as [[] | x] eqn:Hdefer.
  2: { rewrite run_try_except. unfold TaskDetailsModal.on_submit_body.
       rewrite run_bind, run_chat, Hdefer. cbn [fst snd run].
       apply Hsame. apply remote_calls_chat. }
  destruct (TaskDetailsModal.estimate_is_malformed m) eqn:Hest.
  { rewrite run_try_except. unfold TaskDetailsModal.on_submit_body.
    rewrite run_bind, run_chat, Hdefer, Hest. cbn [fst snd].
    rewrite <- run_try_except. apply Htold, remote_calls_chat. }
  destruct (DateUtils.validate_date (start_date m)) as [[] | x] eqn:Hstart.
  2: { rewrite run_try_except. unfold TaskDetailsModal.on_submit_body.
       rewrite run_bind, run_chat, Hdefer, Hest. cbn [fst snd].
       rewrite run_bind, Hstart, run_lift. cbn [negb].
       rewrite <- run_try_except. apply Htold, remote_calls_chat. }
  2: { rewrite run_try_except. unfold TaskDetailsModal.on_submit_body.
       rewrite run_bind, run_chat, Hdefer, Hest. cbn [fst snd].
       rewrite run_bind, Hstart, run_lift. cbn [run].
       apply Hsame, remote_calls_chat. }
  destruct (DateUtils.validate_date (due_date m)) as [[] | x] eqn:Hdue.
  2: { rewrite run_try_except. unfold TaskDetailsModal.on_submit_body.
       rewrite run_bind, run_chat, Hdefer, Hest. cbn [fst snd].
       rewrite run_bind, Hstart, run_lift. cbn [negb].
       rewrite run_bind, Hdue, run_lift. cbn [negb].
       rewrite <- run_try_except. apply Htold, remote_calls_chat. }
  2: { rewrite run_try_except. unfold TaskDetailsModal.on_submit_body.
       rewrite run_bind, run_chat, Hdefer, Hest. cbn [fst snd].
       rewrite run_bind, Hstart, run_lift. cbn [negb].
       rewrite run_bind, Hdue, run_lift. cbn [run].
       apply Hsame, remote_calls_chat. }
  destruct (DateUtils.compare_dates (start_date m) (due_date m))
    as [[[] msg] | x] eqn:Horder.
  2: { rewrite run_try_except. unfold TaskDetailsModal.on_submit_body.
       rewrite run_bind, run_chat, Hdefer, Hest. cbn [fst snd].
       rewrite run_bind, Hstart, run_lift. cbn [negb].
       rewrite run_bind, Hdue, run_lift. cbn [negb].
       rewrite run_bind, Horder, run_lift. cbn [negb].
       rewrite <- run_try_except. apply Htold, remote_calls_chat. }
  2: { rewrite run_try_except. unfold TaskDetailsModal.on_submit_body.
       rewrite run_bind, run_chat, Hdefer, Hest. cbn [fst snd].
       rewrite run_bind, Hstart, run_lift. cbn [negb].
       rewrite run_bind, Hdue, run_lift. cbn [negb].
       rewrite run_bind, Horder, run_lift. cbn [run].
       apply Hsame, remote_calls_chat. }
  destruct (opt_truthy (td_project_id m)) eqn:Hproject.
  2: { rewrite run_try_except. unfold TaskDetailsModal.on_submit_body.
       rewrite run_bind, run_chat, Hdefer, Hest. cbn [fst snd].
       rewrite run_bind, Hstart, run_lift. cbn [negb].
       rewrite run_bind, Hdue, run_lift. cbn [negb].
       rewrite run_bind, Horder, run_lift. cbn [negb]. rewrite Hproject. cbn [negb].
       rewrite <- run_try_except. apply Htold, remote_calls_chat. }
  rewrite run_try_except, (on_submit_body_checked m i e w tr msg) by assumption.
  rewrite run_bind, run_chat. cbn [fst snd].
  assert (Hstored : forall tr', remote_calls tr' = remote_calls tr ->
            Ok tt = Ok tt /\ remote_calls tr' = remote_calls tr
            /\ (submitted m i w = w \/ submitted m i w = submitted m i w)
            /\ (forall other, other <> TaskDetailsModal.submission_id i ->
                  pending_tasks (submitted m i w) !! other = pending_tasks w !! other)
            /\ (forall l d, dicts w !! l = Some d ->
                  dicts (submitted m i w) !! l = Some d)).
  { intros tr' Htr'. repeat split; auto using stored_others, stored_dicts. }
  destruct (chat_result e (Send ToApprover _)) as [[] | x]; cbn [run].
  - rewrite run_chat. cbn [fst snd].
    destruct (chat_result e (Send ToRequester SubmissionSent)) as [[] | x]; cbn [run];
      apply Hstored; now rewrite !remote_calls_chat.
  - apply Hstored. now rewrite !remote_calls_chat.
Qed.

(** ** Creating the task *)

Section CreatingTheTask.
Import PyStr.
Variable e : env.

Lemma posted_app (tr tr' : list event) : posted (tr ++ tr') = (posted tr ++ posted tr')%list.
Proof.
  induction tr as [| ev tr IH]; [reflexivity |].
  destruct ev; cbn; now rewrite ?IH.
Qed.

Lemma convert_date_format_total (s : string) :
  exists t, DateUtils.convert_date_format s = Ok t.
Proof. destruct (convert_date_format_empty_cases s) as (t & Ht & _). eauto. Qed.

(** The dict of a submission once [TaskService.create_task] has added
    the dates in the format of the API: every other key is as it was. *)
Lemma service_create_task_run (l : nat) (w : world) (tr : list event)
    (d : task_details) :
  dicts w !! l = Some d ->
  exists f1 f2,
    DateUtils.convert_date_format (data_inicio d) = Ok f1
    /\ DateUtils.convert_date_format (data_fim d) = Ok f2
    /\ run e (TaskService.create_task l) (w, tr)
       = run e (OpenProjectRepository.create_task l)
           (mk_world
              (<[l := (if truthy (data_fim d) then set_data_fim_formatada f2 else id)
                        ((if truthy (data_inicio d)
                          then set_data_inicio_formatada f1 else id) d)]> (dicts w))
              (pending_tasks w) (repo w), tr).
Proof.
  intros Hd.
  destruct (convert_date_format_total (data_inicio d)) as [f1 Hf1].
  destruct (convert_date_format_total (data_fim d)) as [f2 Hf2].
  exists f1, f2. split; [exact Hf1 |]. split; [exact Hf2 |].
  unfold TaskService.create_task.
  rewrite run_bind, run_sync. cbn [fst snd read_dict]. rewrite Hd.
  change (default inhabitant (Some d)) with d.
  rewrite run_bind.
  assert (Halter : forall g w0, dicts w0 !! l = Some d ->
            alter g l (dicts w0) = <[l := g d]> (dicts w0)).
  { intros g w0 H0. apply map_eq. intros k. destruct (decide (k = l)) as [-> | Hne].
    - now rewrite lookup_alter_eq, lookup_insert_eq, H0.
    - now rewrite lookup_alter_ne, lookup_insert_ne by congruence. }
  destruct (truthy (data_inicio d)).
  - rewrite run_bind, Hf1, run_lift, run_sync. cbn [fst snd update_dict].
    rewrite (Halter _ w Hd). rewrite run_bind.
    destruct (truthy (data_fim d)).
    + rewrite run_bind, Hf2, run_lift, run_sync. cbn [fst snd update_dict dicts].
      rewrite alter_insert_eq. reflexivity.
    + cbn [run]. reflexivity.
  - cbn [run]. rewrite run_bind.
    destruct (truthy (data_fim d)).
    + rewrite run_bind, Hf2, run_lift, run_sync. cbn [fst snd update_dict].
      now rewrite (Halter _ w Hd).
    + cbn [run]. rewrite insert_id by exact Hd. now destruct w.
Qed.

Lemma get_projects_miss_fails (w : world) (tr : list event) (x : exn) :
  OpenProjectRepository.cache_is_valid (repo w) (clock e) = false ->
  configured (repo w) ->
  get_projects_response e = Err x ->
  run e OpenProjectRepository.get_projects (w, tr)
  = (Err OpenProjectError,
     (w, (tr ++ [EvGetProjects (base_url (repo w) +:+ "/api/v3/projects")])%list)).
Proof.
  intros H [Hu Hk] Hr. cbn. rewrite H. cbn. rewrite Hu, Hk. cbn.
  rewrite Hr. reflexivity.
Qed.

(** The call of the repository, the checks passed and the create request
    answered: what is left is the listing of the projects, for the link. *)
Lemma repository_create_task_posts (l : nat) (w : world) (tr : list event)
    (d : task_details) (est : option string) (created : created_task) :
  dicts w !! l = Some d ->
  truthy (project_id d) = true ->
  truthy (nome_da_tarefa d) = true ->
  OpenProjectRepository.estimated_time d = Ok est ->
  configured (repo w) ->
  post_response e = Ok created ->
  run e (OpenProjectRepository.create_task l) (w, tr)
  = match run e OpenProjectRepository.get_projects
            (w, (tr ++ [EvPost (base_url (repo w) +:+ "/api/v3/work_packages")
                          (OpenProjectRepository.build_payload d est)])%list) with
    | (Ok projects, (w2, tr2)) =>
        (Ok match OpenProjectRepository.ui_link (base_url (repo w2)) projects
                    (project_id (default inhabitant (dicts w2 !! l))) (ct_id created) with
            | Some link => mk_task_result (ct_id created) (Some link) None
            | None => mk_task_result (ct_id created) None
                        (Some (base_url (repo w2) +:+ ct_self_href created))
            end, (w2, tr2))
    | (Err _, st) => (Err OpenProjectError, st)
    end.
Proof.
  intros Hd Hproject Htitle Hest [Hu Hk] Hpost.
  unfold OpenProjectRepository.create_task.
  rewrite run_bind, run_sync. cbn [fst snd read_dict]. rewrite Hd.
  change (default inhabitant (Some d)) with d.
  rewrite Hproject, Htitle. cbn [negb].
  rewrite run_bind, Hest, run_lift.
  rewrite run_bind, run_sync. cbn [fst snd read_repo].
  rewrite run_try_except, run_bind.
  unfold OpenProjectRepository._make_request at 1.
  rewrite run_bind, run_sync. cbn [fst snd read_repo]. rewrite Hu, Hk. cbn [negb orb].
  rewrite run_try_except, run_await. cbn [answer log event_of fst snd].
  rewrite Hpost. rewrite run_bind.
  destruct (run e OpenProjectRepository.get_projects _) as [[projects | x] [w2 tr2]];
    [| reflexivity].
  rewrite run_bind, run_sync. cbn [fst snd read_dict].
  rewrite run_bind, run_sync. cbn [fst snd read_repo].
  now destruct (OpenProjectRepository.ui_link _ _ _ _).
Qed.

End CreatingTheTask.

(** ** Coroutines that only talk *)

Section OnlyTalks.
Variable e : env.
Hypothesis Hchat : forall c, chat_result e c = Ok tt.







End OnlyTalks.


(** ** Deciding *)

Section Deciding.
Variables (e : env) (i : interaction).

(** [approve], the task not created: the [except] branch runs on the
    state that the failed call left. *)
Lemma approve_after_failure (l : nat) (w : world) (tr : list event)
    (x : exn) (w1 : world) (tr1 : list event) :
  chat_result e (Send ToApprover Processing) = Ok tt ->
  run e (TaskService.create_task l)
      (snd (update_dict l (set_aprovador_nome (user_display_name i)) w),
       (tr ++ [EvChat (Send ToApprover Processing)])%list)
  = (Err x, (w1, tr1)) ->
  run e (TaskCommands.approve i l) (w, tr)
  = run e (chat (Send ToRequester NotCreated);; chat (Send ToApprover NotCreated))
        (w1, tr1).
Proof.
  intros Hprocessing Hcreate. unfold TaskCommands.approve.
  rewrite run_bind, run_sync. cbn [fst].
  rewrite run_try_except, run_bind, run_chat, Hprocessing. cbn [fst snd].
  rewrite run_bind, Hcreate. reflexivity.
Qed.

(** A decision on a submission that is found, its requester looked up. *)
Lemma handle_approval_body_found (task_id : string) (approved : bool)
    (reason : option string) (w : world) (tr : list event) (l : nat) (d : task_details) :
  chat_result e Defer = Ok tt ->
  pending_tasks w !! task_id = Some l ->
  dicts w !! l = Some d ->
  fetch_user_result e = Ok tt ->
  run e (TaskCommands.handle_approval_body i task_id approved reason) (w, tr)
  = run e ((if approved then TaskCommands.approve i l else TaskCommands.reject reason);;
           sync (TaskService.remove_pending_task task_id);;
           try_except
             (if has_message i then chat DisableButtons else Return tt)
             (fun _ => Return tt))
        (w, (tr ++ [EvChat Defer; EvFetchUser (solicitante_id d)])%list).
Proof.
  intros Hdefer Hfound Hd Hfetch. unfold TaskCommands.handle_approval_body.
  rewrite run_bind, run_chat, Hdefer. cbn [fst snd].
  rewrite run_bind, run_sync. cbn [fst snd TaskService.get_pending_task].
  rewrite Hfound, run_bind, run_sync. cbn [fst snd read_dict]. rewrite Hd.
  change (default inhabitant (Some d)) with d.
  rewrite run_bind, run_attempt, run_await. cbn [fst snd answer log event_of].
  rewrite Hfetch. rewrite <- app_assoc. reflexivity.
Qed.

End Deciding.

(** ** Approving *)

Section Approving.
Import PyStr.
Variables (e : env) (i : interaction).
Hypothesis Hchat : forall c, chat_result e c = Ok tt.




Lemma or_else_link (result : task_result) (link : string) :
  truthy link = true ->
  (r_ui_link result = Some link /\ r_api_link result = None)
  \/ (r_ui_link result = None /\ r_api_link result = Some link) ->
  TaskCommands.or_else (r_ui_link result) (r_api_link result) = Some link.
Proof.
  unfold TaskCommands.or_else. intros Hlink [[-> ->] | [-> ->]]; cbn; now rewrite ?Hlink.
Qed.



End Approving.

Section Decisions.
Import PyStr.
Variables (e : env) (i : interaction) (task_id : string) (w : world)
          (tr : list event) (l : nat) (d : task_details).
Hypothesis Hchat : forall c, chat_result e c = Ok tt.
Hypothesis Hfound : pending_tasks w !! task_id = Some l.
Hypothesis Hdict : dicts w !! l = Some d.
Hypothesis Hfetch : fetch_user_result e = Ok tt.

(** The state in which [approve] calls the service: the approver's name
    is in the dict, which the registry shares. *)
Lemma approver_named :
  dicts (snd (update_dict l (set_aprovador_nome (user_display_name i)) w)) !! l
  = Some (set_aprovador_nome (user_display_name i) d).
Proof. cbn. now rewrite lookup_alter_eq, Hdict. Qed.

Lemma truthy_append_l (a b : string) : truthy a = true -> truthy (a +:+ b) = true.
Proof. now destruct a. Qed.

Lemma ui_link_truthy (url : string) (projects : list project) (pid : string) (t : Z)
    (link : string) :
  truthy url = true ->
  OpenProjectRepository.ui_link url projects pid t = Some link -> truthy link = true.
Proof.
  intros Hurl. induction projects as [| p ps IH]; cbn; [discriminate |].
  destruct (String.eqb _ _); [| exact IH].
  intros [= <-]. now apply truthy_append_l.
Qed.

(** The service creates the task: the create request is sent, with the
    submission as the approval left it, and the result carries a link. *)
Lemma service_creates (tr0 : list event) (est : option string)
    (created : created_task) (listing : list remote_project) :
  truthy (project_id d) = true ->
  truthy (nome_da_tarefa d) = true ->
  OpenProjectRepository.estimated_time d = Ok est ->
  configured (repo w) ->
  post_response e = Ok created ->
  get_projects_response e = Ok listing ->
  exists result w2 body listed link,
    run e (TaskService.create_task l)
        (snd (update_dict l (set_aprovador_nome (user_display_name i)) w), tr0)
    = (Ok result,
       (w2, (tr0 ++ [EvPost (base_url (repo w) +:+ "/api/v3/work_packages") body]
             ++ listed)%list))
    /\ pending_tasks w2 = pending_tasks w
    /\ posted listed = [] /\ failure_notices listed = 0%nat
    /\ TaskCommands.or_else (r_ui_link result) (r_api_link result) = Some link
    /\ truthy link = true
    /\ subject body = nome_da_tarefa d
    /\ description_raw body
       = OpenProjectRepository.description_text
           (set_aprovador_nome (user_display_name i) d)
    /\ link_project body = "/api/v3/projects/" +:+ project_id d
    /\ link_type body = "/api/v3/types/1"
    /\ link_status body = "/api/v3/statuses/2"
    /\ estimatedTime body = est
    /\ (forall f, truthy (data_inicio d) = true ->
          DateUtils.convert_date_format (data_inicio d) = Ok f ->
          startDate body = OpenProjectRepository.when_truthy (Some f))
    /\ (forall f, truthy (data_fim d) = true ->
          DateUtils.convert_date_format (data_fim d) = Ok f ->
          dueDate body = OpenProjectRepository.when_truthy (Some f)).
Proof.
  intros Hproject Htitle Hest Hconf Hpost Hlisting.
  destruct (service_create_task_run e l _ tr0 _ approver_named)
    as (f1 & f2 & Hf1 & Hf2 & ->).
  cbn [data_inicio data_fim set_aprovador_nome] in Hf1, Hf2 |- *.
  set (d2 := (if truthy (data_fim d) then set_data_fim_formatada f2 else id)
               ((if truthy (data_inicio d) then set_data_inicio_formatada f1 else id)
                  (set_aprovador_nome (user_display_name i) d))).
  assert (Hsame : project_id d2 = project_id d /\ nome_da_tarefa d2 = nome_da_tarefa d
                  /\ estimativa d2 = estimativa d)
    by (unfold d2; destruct (truthy (data_fim d)), (truthy (data_inicio d)); now cbn).
  destruct Hsame as (Hp2 & Hn2 & He2).
  set (w1 := mk_world _ _ _).
  assert (Hd1 : dicts w1 !! l = Some d2) by (unfold w1; cbn; apply lookup_insert_eq).
  rewrite (repository_create_task_posts e l w1 tr0 d2 est created Hd1);
    [| now rewrite Hp2 | now rewrite Hn2
     | unfold OpenProjectRepository.estimated_time in *; now rewrite He2
     | exact Hconf | exact Hpost].
  change (repo w1) with (repo w).
  set (body := OpenProjectRepository.build_payload d2 est).
  assert (Hbody : subject body = nome_da_tarefa d
    /\ description_raw body
       = OpenProjectRepository.description_text (set_aprovador_nome (user_display_name i) d)
    /\ link_project body = "/api/v3/projects/" +:+ project_id d
    /\ link_type body = "/api/v3/types/1"
    /\ link_status body = "/api/v3/statuses/2"
    /\ estimatedTime body = est
    /\ (forall f, truthy (data_inicio d) = true ->
          DateUtils.convert_date_format (data_inicio d) = Ok f ->
          startDate body = OpenProjectRepository.when_truthy (Some f))
    /\ (forall f, truthy (data_fim d) = true ->
          DateUtils.convert_date_format (data_fim d) = Ok f ->
          dueDate body = OpenProjectRepository.when_truthy (Some f))).
  { unfold body, d2. repeat split.
    - destruct (truthy (data_fim d)), (truthy (data_inicio d)); reflexivity.
    - destruct (truthy (data_fim d)), (truthy (data_inicio d)); reflexivity.
    - destruct (truthy (data_fim d)), (truthy (data_inicio d)); reflexivity.
    - intros f Ht Hf. rewrite Ht. rewrite Hf in Hf1. injection Hf1 as <-.
      destruct (truthy (data_fim d)); reflexivity.
    - intros f Ht Hf. rewrite Ht. rewrite Hf in Hf2. injection Hf2 as <-.
      destruct (truthy (data_inicio d)); reflexivity. }
  destruct Hconf as [Hurl Hkey].
  destruct (OpenProjectRepository.cache_is_valid (repo w) (clock e)) eqn:Hcache.
  - rewrite get_projects_hit by exact Hcache.
    rewrite Hd1. change (default inhabitant (Some d2)) with d2.
    destruct (OpenProjectRepository.ui_link _ _ _ _) as [link |] eqn:Hui.
    + eexists _, w1, body, [], link. rewrite app_nil_r.
      split; [reflexivity |]. split; [reflexivity |]. split; [reflexivity |].
      split; [reflexivity |].
      split; [apply or_else_link; [exact (ui_link_truthy _ _ _ _ _ Hurl Hui) | now left] |].
      split; [exact (ui_link_truthy _ _ _ _ _ Hurl Hui) | exact Hbody].
    + eexists _, w1, body, [], (base_url (repo w) +:+ ct_self_href created).
      rewrite app_nil_r.
      split; [reflexivity |]. split; [reflexivity |]. split; [reflexivity |].
      split; [reflexivity |].
      split; [apply or_else_link; [now apply truthy_append_l | now right] |].
      split; [now apply truthy_append_l | exact Hbody].
  - rewrite (get_projects_miss e w1 _ listing Hcache (conj Hurl Hkey) Hlisting).
    cbn [snd OpenProjectRepository.update_cache dicts repo base_url].
    change (dicts w1) with (dicts w1). rewrite Hd1.
    change (default inhabitant (Some d2)) with d2.
    change (base_url (repo w1)) with (base_url (repo w)).
    destruct (OpenProjectRepository.ui_link _ _ _ _) as [link |] eqn:Hui.
    + eexists _, _, body, [EvGetProjects _], link. rewrite <- app_assoc.
      split; [reflexivity |]. split; [reflexivity |]. split; [reflexivity |].
      split; [reflexivity |].
      split; [apply or_else_link; [exact (ui_link_truthy _ _ _ _ _ Hurl Hui) | now left] |].
      split; [exact (ui_link_truthy _ _ _ _ _ Hurl Hui) | exact Hbody].
    + eexists _, _, body, [EvGetProjects _], (base_url (repo w) +:+ ct_self_href created).
      rewrite <- app_assoc.
      split; [reflexivity |]. split; [reflexivity |]. split; [reflexivity |].
      split; [reflexivity |].
      split; [apply or_else_link; [now apply truthy_append_l | now right] |].
      split; [now apply truthy_append_l | exact Hbody].
Qed.

Lemma notified_in (to : party) (what : notice) (a b c : list event) :
  notified to what (a ++ b ++ EvChat (Send to what) :: c).
Proof. unfold notified. rewrite !in_app_iff. right. right. now left. Qed.


End Decisions.



(** ** Decisions that go wrong *)

Section NotCreated.
Import PyStr.
Variables (e : env) (i : interaction).

Lemma repository_create_task_not_created (l : nat) (w : world) (tr : list event)
    (x : exn) :
  post_response e = Err x ->
  exists y suffix,
    run e (OpenProjectRepository.create_task l) (w, tr) = (Err y, (w, (tr ++ suffix)%list))
    /\ failure_notices suffix = 0%nat /\ (length (posted suffix) <= 1)%nat.
Proof.
  intros Hpost.
  assert (Hnone : forall y, exists y' suffix,
            (Err y, (w, tr)) = (@Err task_result y', (w, (tr ++ suffix)%list))
            /\ failure_notices suffix = 0%nat /\ (length (posted suffix) <= 1)%nat).
  { intros y. exists y, []. rewrite app_nil_r. repeat split. cbn. lia. }
  unfold OpenProjectRepository.create_task.
  rewrite run_bind, run_sync. cbn [fst snd read_dict].
  destruct (truthy (project_id _)); cbn [negb run]; [| apply Hnone].
  destruct (truthy (nome_da_tarefa _)); cbn [negb run]; [| apply Hnone].
  rewrite run_bind, run_lift.
  destruct (OpenProjectRepository.estimated_time _) as [est | y]; [| apply Hnone].
  rewrite run_bind, run_sync. cbn [fst snd read_repo].
  rewrite run_try_except, run_bind.
  unfold OpenProjectRepository._make_request.
  rewrite run_bind, run_sync. cbn [fst snd read_repo].
  destruct (negb _ || negb _); cbn [run]; [apply Hnone |].
  rewrite run_try_except, run_await. cbn [answer fst snd log event_of].
  rewrite Hpost. cbn [run fst snd].
  eexists _, [_]. split; [reflexivity |]. split; [reflexivity | cbn; lia].
Qed.

End NotCreated.

(** When the create request fails and the message that tells the
    requester so cannot be delivered either, the exception leaves
    [handle_approval] before the removal: the generic error goes to the
    approver, who is not told that the task was approved but not created,
    and the submission stays in the registry, with the approver's name
    already written into it. *)
Theorem handle_approval_failure_notice_lost
    (i : interaction) (task_id : string) (e : env) (w : world) (tr : list event)
    (l : nat) (d : task_details) (x y : exn)
    (Hfound : pending_tasks w !! task_id = Some l)
    (Hdict : dicts w !! l = Some d)
    (Hdefer : chat_result e Defer = Ok tt)
    (Hrequester : fetch_user_result e = Ok tt)
    (Hprocessing : chat_result e (Send ToApprover Processing) = Ok tt)
    (Hpost : post_response e = Err x)
    (Hnotice : chat_result e (Send ToRequester NotCreated) = Err y) :
  let '(r, (w', tr')) :=
    run e (TaskCommands.handle_approval i task_id true None) (w, tr) in
  r = Ok tt
  /\ pending_tasks w' !! task_id = Some l
  /\ (exists d', dicts w' !! l = Some d'
                 /\ aprovador_nome d' = Some (user_display_name i)
                 /\ nome_da_tarefa d' = nome_da_tarefa d)
  /\ exists before,
       tr' = (tr ++ before
              ++ [EvChat (Send ToRequester NotCreated);
                  EvChat (Send ToApprover GenericError)])%list
       /\ failure_notices before = 0%nat
       /\ (length (posted before) <= 1)%nat.
Proof.
  unfold TaskCommands.handle_approval. rewrite error_handler_run.
  rewrite (handle_approval_body_found e i task_id true None w tr l d Hdefer Hfound
             Hdict Hrequester).
  rewrite run_bind.
  assert (Hnamed : dicts (snd (update_dict l (set_aprovador_nome (user_display_name i)) w))
                     !! l = Some (set_aprovador_nome (user_display_name i) d))
    by (cbn; now rewrite lookup_alter_eq, Hdict).
  destruct (service_create_task_run e l _
              ((tr ++ [EvChat Defer; EvFetchUser (solicitante_id d)])
               ++ [EvChat (Send ToApprover Processing)])%list _ Hnamed)
    as (f1 & f2 & _ & _ & Hrun).
  match type of Hrun with
  | _ = run e _ (?w1, ?tr1) =>
      destruct (repository_create_task_not_created e l w1 tr1 x Hpost)
        as (y' & suffix & Hfail & Hquiet & Hone)
  end.
  rewrite Hfail in Hrun.
  rewrite (approve_after_failure e i l w _ y' _ _ Hprocessing Hrun).
  rewrite run_bind, run_chat, Hnotice. cbn [fst snd].
  split; [reflexivity |]. split; [exact Hfound |].
  split.
  - eexists. split; [apply lookup_insert_eq |].
    cbn [data_fim data_inicio set_aprovador_nome].
    destruct (PyStr.truthy (data_fim d)), (PyStr.truthy (data_inicio d)); now cbn.
  - exists ([EvChat Defer; EvFetchUser (solicitante_id d);
             EvChat (Send ToApprover Processing)] ++ suffix)%list.
    split; [rewrite <- !app_assoc; reflexivity |].
    split.
    + unfold failure_notices in *. rewrite count_events_app, Hquiet. reflexivity.
    + rewrite posted_app. cbn. exact Hone.
Qed.

Lemma handle_approval_failure_notice_lost_witness :
  let '(r, (w', tr')) :=
    run (mk_env 2000
           (fun c => match c with
                     | Send ToRequester NotCreated => Err ChatError
                     | _ => Ok tt
                     end)
           (Ok tt) (Ok [Sample.site]) (Err OpenProjectError))
        (TaskCommands.handle_approval Sample.bob "t1" true None)
        (Sample.one_pending, []) in
  r = Ok tt
  /\ pending_tasks w' !! "t1" = Some 0%nat
  /\ (exists d', dicts w' !! 0%nat = Some d'
                 /\ aprovador_nome d' = Some "bob"
                 /\ nome_da_tarefa d' = "Fix login")
  /\ exists before,
       tr' = ([] ++ before
              ++ [EvChat (Send ToRequester NotCreated);
                  EvChat (Send ToApprover GenericError)])%list
       /\ failure_notices before = 0%nat
       /\ (length (posted before) <= 1)%nat.
Proof.
  apply (handle_approval_failure_notice_lost Sample.bob "t1"
           (mk_env 2000
              (fun c => match c with
                        | Send ToRequester NotCreated => Err ChatError
                        | _ => Ok tt
                        end)
              (Ok tt) (Ok [Sample.site]) (Err OpenProjectError))
           Sample.one_pending [] 0%nat (Sample.details "Fix login" "Broken")
           OpenProjectError ChatError); reflexivity.
Defined.

Section CreatedAndReportedFailed.
Import PyStr.
Variables (e : env) (i : interaction) (task_id : string) (w : world)
          (tr : list event) (l : nat) (d : task_details).
Hypothesis Hchat : forall c, chat_result e c = Ok tt.
Hypothesis Hfound : pending_tasks w !! task_id = Some l.
Hypothesis Hdict : dicts w !! l = Some d.
Hypothesis Hfetch : fetch_user_result e = Ok tt.

Lemma not_created_told (w1 : world) (tr1 : list event) :
  run e (chat (Send ToRequester NotCreated);; chat (Send ToApprover NotCreated)) (w1, tr1)
  = (Ok tt, (w1, (tr1 ++ [EvChat (Send ToRequester NotCreated);
                          EvChat (Send ToApprover NotCreated)])%list)).
Proof.
  rewrite run_bind, run_chat, Hchat, run_chat, Hchat. cbn [fst snd].
  now rewrite <- app_assoc.
Qed.

(** The create request is answered, and then the listing of the projects
    fails: the service raises although the task exists. *)
Lemma service_creates_then_fails (tr0 : list event) (est : option string)
    (created : created_task) (x : exn) :
  truthy (project_id d) = true ->
  truthy (nome_da_tarefa d) = true ->
  OpenProjectRepository.estimated_time d = Ok est ->
  configured (repo w) ->
  post_response e = Ok created ->
  OpenProjectRepository.cache_is_valid (repo w) (clock e) = false ->
  get_projects_response e = Err x ->
  exists w2 body,
    run e (TaskService.create_task l)
        (snd (update_dict l (set_aprovador_nome (user_display_name i)) w), tr0)
    = (Err OpenProjectError,
       (w2, (tr0 ++ [EvPost (base_url (repo w) +:+ "/api/v3/work_packages") body;
                     EvGetProjects (base_url (repo w) +:+ "/api/v3/projects")])%list))
    /\ pending_tasks w2 = pending_tasks w
    /\ subject body = nome_da_tarefa d.
Proof.
  intros Hproject Htitle Hest Hconf Hpost Hcache Hlisting.
  destruct (service_create_task_run e l _ tr0 _ (approver_named i w l d Hdict))
    as (f1 & f2 & Hf1 & Hf2 & ->).
  cbn [data_inicio data_fim set_aprovador_nome] in Hf1, Hf2 |- *.
  set (d2 := (if truthy (data_fim d) then set_data_fim_formatada f2 else id)
               ((if truthy (data_inicio d) then set_data_inicio_formatada f1 else id)
                  (set_aprovador_nome (user_display_name i) d))).
  assert (Hsame : project_id d2 = project_id d /\ nome_da_tarefa d2 = nome_da_tarefa d
                  /\ estimativa d2 = estimativa d)
    by (unfold d2; destruct (truthy (data_fim d)), (truthy (data_inicio d)); now cbn).
  destruct Hsame as (Hp2 & Hn2 & He2).
  set (w1 := mk_world _ _ _).
  assert (Hd1 : dicts w1 !! l = Some d2) by (unfold w1; cbn; apply lookup_insert_eq).
  rewrite (repository_create_task_posts e l w1 tr0 d2 est created Hd1);
    [| now rewrite Hp2 | now rewrite Hn2
     | unfold OpenProjectRepository.estimated_time in *; now rewrite He2
     | exact Hconf | exact Hpost].
  change (repo w1) with (repo w).
  rewrite (get_projects_miss_fails e w1 _ x Hcache Hconf Hlisting).
  exists w1, (OpenProjectRepository.build_payload d2 est).
  rewrite <- app_assoc. split; [reflexivity |]. split; [reflexivity |].
  exact Hn2.
Qed.

End CreatedAndReportedFailed.

(** The create request is answered and the task exists, but the listing
    of the projects that follows, for the link, fails: the requester and
    the approver are told that the task was approved but could not be
    created, nobody is told that it was, and the entry is removed. *)
Theorem handle_approval_created_but_reported_failed
    (i : interaction) (task_id : string) (e : env) (w : world) (tr : list event)
    (l : nat) (d : task_details) (est : option string) (created : created_task)
    (x : exn)
    (Hchat : forall c, chat_result e c = Ok tt)
    (Hfound : pending_tasks w !! task_id = Some l)
    (Hdict : dicts w !! l = Some d)
    (Hrequester : fetch_user_result e = Ok tt)
    (Hproject : PyStr.truthy (project_id d) = true)
    (Htitle : PyStr.truthy (nome_da_tarefa d) = true)
    (Hestimate : OpenProjectRepository.estimated_time d = Ok est)
    (Hconfigured : configured (repo w))
    (Hpost : post_response e = Ok created)
    (Hcache : OpenProjectRepository.cache_is_valid (repo w) (clock e) = false)
    (Hlisting : get_projects_response e = Err x) :
  let '(r, (w', tr')) :=
    run e (TaskCommands.handle_approval i task_id true None) (w, tr) in
  r = Ok tt
  /\ pending_tasks w' !! task_id = None
  /\ exists body,
       subject body = nome_da_tarefa d
       /\ tr' = (tr ++ [EvChat Defer; EvFetchUser (solicitante_id d);
                        EvChat (Send ToApprover Processing);
                        EvPost (base_url (repo w) +:+ "/api/v3/work_packages") body;
                        EvGetProjects (base_url (repo w) +:+ "/api/v3/projects");
                        EvChat (Send ToRequester NotCreated);
                        EvChat (Send ToApprover NotCreated)]
                 ++ (if has_message i then [EvChat DisableButtons] else []))%list.
Proof.
  unfold TaskCommands.handle_approval. rewrite error_handler_run.
  rewrite (handle_approval_body_found e i task_id true None w tr l d (Hchat Defer)
             Hfound Hdict Hrequester).
  rewrite run_bind.
  destruct (service_creates_then_fails e i w l d Hdict
              ((tr ++ [EvChat Defer; EvFetchUser (solicitante_id d)])
               ++ [EvChat (Send ToApprover Processing)])%list
              est created x Hproject Htitle Hestimate Hconfigured Hpost Hcache Hlisting)
    as (w2 & body & Hrun & Hreg & Hsubject).
  rewrite (approve_after_failure e i l w _ _ _ _ (Hchat _) Hrun).
  rewrite (not_created_told e Hchat).
  rewrite run_bind, run_sync. cbn [fst snd]. rewrite run_try_except.
  destruct (has_message i); [rewrite run_chat, Hchat |]; cbn [fst snd run];
    (split; [reflexivity |]); (split; [apply get_after_remove |]);
    exists body; (split; [exact Hsubject |]);
    rewrite <- !app_assoc; reflexivity.
Qed.

Lemma handle_approval_created_but_reported_failed_witness :
  let '(r, (w', tr')) :=
    run (Sample.answers 2000 (Err OpenProjectError) (Ok Sample.created))
        (TaskCommands.handle_approval Sample.bob "t1" true None)
        (Sample.one_pending, []) in
  r = Ok tt
  /\ pending_tasks w' !! "t1" = None
  /\ exists body,
       subject body = "Fix login"
       /\ tr' = ([] ++ [EvChat Defer; EvFetchUser 11;
                        EvChat (Send ToApprover Processing);
                        EvPost "https://op.example/api/v3/work_packages" body;
                        EvGetProjects "https://op.example/api/v3/projects";
                        EvChat (Send ToRequester NotCreated);
                        EvChat (Send ToApprover NotCreated)]
                 ++ [])%list.
Proof.
  apply (handle_approval_created_but_reported_failed Sample.bob "t1"
           (Sample.answers 2000 (Err OpenProjectError) (Ok Sample.created))
           Sample.one_pending [] 0%nat (Sample.details "Fix login" "Broken")
           (Some "PT2H30M") Sample.created OpenProjectError);
    try reflexivity.
  split; reflexivity.
Defined.

Section BadChannel.
Import PyStr.
Variables (e : env) (i : interaction).
Hypothesis Hchat : forall c, chat_result e c = Ok tt.

(** [approve], the task created and both parties told, when the stored
    channel setting is not a number: [int] raises inside the [try], and
    the [except] branch tells both parties that the task was not
    created. *)
Lemma approve_channel_raises (l : nat) (w : world) (tr : list event)
    (result : task_result) (w1 : world) (tr1 : list event) (x : exn) :
  in_guild i = true ->
  py_truthy (notification_channel i) = true ->
  py_int (notification_channel i) = Err x ->
  run e (TaskService.create_task l)
      (snd (update_dict l (set_aprovador_nome (user_display_name i)) w),
       (tr ++ [EvChat (Send ToApprover Processing)])%list)
  = (Ok result, (w1, tr1)) ->
  run e (TaskCommands.approve i l) (w, tr)
  = (Ok tt,
     (w1, (tr1
           ++ [EvChat (Send ToRequester
                         (Created (TaskCommands.or_else (r_ui_link result)
                                     (r_api_link result))));
               EvChat (Send ToApprover
                         (Created (TaskCommands.or_else (r_ui_link result)
                                     (r_api_link result))));
               EvChat (Send ToRequester NotCreated);
               EvChat (Send ToApprover NotCreated)])%list)).
Proof.
  intros Hguild Htruthy Hbad Hcreate. unfold TaskCommands.approve.
  rewrite run_bind, run_sync. cbn [fst].
  rewrite run_try_except, run_bind, run_chat, Hchat. cbn [fst snd].
  rewrite run_bind, Hcreate.
  rewrite run_bind, run_chat, Hchat. cbn [fst snd].
  rewrite run_bind, run_chat, Hchat. cbn [fst snd].
  rewrite run_bind, Hguild, Htruthy, run_bind, Hbad, run_lift.
  rewrite (not_created_told e Hchat). rewrite <- !app_assoc. reflexivity.
Qed.

End BadChannel.

(** In a guild whose stored notification channel is set but is not a
    number, an approval that creates the task tells the requester and
    the approver that the task was created and then, [int] having raised
    on the setting, tells both that it was approved but could not be
    created; the entry is removed. *)
Theorem handle_approval_bad_channel
    (i : interaction) (task_id : string) (e : env) (w : world) (tr : list event)
    (l : nat) (d : task_details) (est : option string) (created : created_task)
    (listing : list remote_project) (x : exn)
    (Hchat : forall c, chat_result e c = Ok tt)
    (Hfound : pending_tasks w !! task_id = Some l)
    (Hdict : dicts w !! l = Some d)
    (Hrequester : fetch_user_result e = Ok tt)
    (Hproject : PyStr.truthy (project_id d) = true)
    (Htitle : PyStr.truthy (nome_da_tarefa d) = true)
    (Hestimate : OpenProjectRepository.estimated_time d = Ok est)
    (Hconfigured : configured (repo w))
    (Hpost : post_response e = Ok created)
    (Hlisting : get_projects_response e = Ok listing)
    (Hguild : in_guild i = true)
    (Hset : py_truthy (notification_channel i) = true)
    (Hbad : py_int (notification_channel i) = Err x) :
  let '(r, (w', tr')) :=
    run e (TaskCommands.handle_approval i task_id true None) (w, tr) in
  r = Ok tt
  /\ pending_tasks w' !! task_id = None
  /\ exists body link listed,
       subject body = nome_da_tarefa d
       /\ posted listed = []
       /\ tr' = (tr ++ [EvChat Defer; EvFetchUser (solicitante_id d);
                        EvChat (Send ToApprover Processing);
                        EvPost (base_url (repo w) +:+ "/api/v3/work_packages") body]
                 ++ listed
                 ++ [EvChat (Send ToRequester (Created (Some link)));
                     EvChat (Send ToApprover (Created (Some link)));
                     EvChat (Send ToRequester NotCreated);
                     EvChat (Send ToApprover NotCreated)]
                 ++ (if has_message i then [EvChat DisableButtons] else []))%list.
Proof.
  unfold TaskCommands.handle_approval. rewrite error_handler_run.
  rewrite (handle_approval_body_found e i task_id true None w tr l d (Hchat Defer)
             Hfound Hdict Hrequester).
  rewrite run_bind.
  destruct (service_creates e i w l d Hdict
              ((tr ++ [EvChat Defer; EvFetchUser (solicitante_id d)])
               ++ [EvChat (Send ToApprover Processing)])%list
              est created listing Hproject Htitle Hestimate Hconfigured Hpost Hlisting)
    as (result & w2 & body & listed & link & Hrun & Hreg & Hlp & Hlf & Hlink & Htruthy
        & Hsubject & _).
  rewrite (approve_channel_raises e i Hchat l w _ result w2 _ x Hguild Hset Hbad Hrun).
  rewrite Hlink.
  rewrite run_bind, run_sync. cbn [fst snd]. rewrite run_try_except.
  destruct (has_message i); [rewrite run_chat, Hchat |]; cbn [fst snd run];
    (split; [reflexivity |]); (split; [apply get_after_remove |]);
    exists body, link, listed; (split; [exact Hsubject |]); (split; [exact Hlp |]);
    rewrite <- !app_assoc; reflexivity.
Qed.

Lemma handle_approval_bad_channel_witness :
  let i := mk_interaction 22 "bob" 901 true false false (PyStr "#tarefas") false in
  let '(r, (w', tr')) :=
    run (Sample.answers 2000 (Ok [Sample.site]) (Ok Sample.created))
        (TaskCommands.handle_approval i "t1" true None)
        (Sample.one_pending, []) in
  r = Ok tt
  /\ pending_tasks w' !! "t1" = None
  /\ exists body link listed,
       subject body = "Fix login"
       /\ posted listed = []
       /\ tr' = ([] ++ [EvChat Defer; EvFetchUser 11;
                        EvChat (Send ToApprover Processing);
                        EvPost "https://op.example/api/v3/work_packages" body]
                 ++ listed
                 ++ [EvChat (Send ToRequester (Created (Some link)));
                     EvChat (Send ToApprover (Created (Some link)));
                     EvChat (Send ToRequester NotCreated);
                     EvChat (Send ToApprover NotCreated)]
                 ++ [])%list.
Proof.
  apply (handle_approval_bad_channel
           (mk_interaction 22 "bob" 901 true false false (PyStr "#tarefas") false) "t1"
           (Sample.answers 2000 (Ok [Sample.site]) (Ok Sample.created))
           Sample.one_pending [] 0%nat (Sample.details "Fix login" "Broken")
           (Some "PT2H30M") Sample.created [Sample.site] ValueError);
    try reflexivity.
  split; reflexivity.
Defined.

(** A rejection of a pending submission, every message delivered, makes
    no request to OpenProject: it tells the requester and then the
    approver the reason, an absent or empty reason being replaced by the
    default text, removes the entry from the registry and changes
    nothing else. *)
Theorem handle_approval_rejects
    (i : interaction) (task_id : string) (reason : option string)
    (e : env) (w : world) (tr : list event) (l : nat) (d : task_details)
    (Hchat : forall c, chat_result e c = Ok tt)
    (Hfound : pending_tasks w !! task_id = Some l)
    (Hdict : dicts w !! l = Some d)
    (Hrequester : fetch_user_result e = Ok tt) :
  let motivo := match reason with
                | Some (String c s) => String c s
                | _ => TaskCommands.default_reason
                end in
  run e (TaskCommands.handle_approval i task_id false reason) (w, tr)
  = (Ok tt,
     (mk_world (dicts w) (delete task_id (pending_tasks w)) (repo w),
      (tr ++ [EvChat Defer; EvFetchUser (solicitante_id d);
              EvChat (Send ToRequester (Rejected motivo));
              EvChat (Send ToApprover (Rejected motivo))]
       ++ (if has_message i then [EvChat DisableButtons] else []))%list)).
Proof.
  unfold TaskCommands.handle_approval. rewrite error_handler_run.
  rewrite (handle_approval_body_found e i task_id false reason w tr l d (Hchat Defer)
             Hfound Hdict Hrequester).
  rewrite run_bind. unfold TaskCommands.reject.
  rewrite run_bind, run_chat, Hchat, run_chat, Hchat. cbn [fst snd].
  rewrite run_bind, run_sync. cbn [fst snd]. unfold TaskService.remove_pending_task.
  rewrite Hfound. cbn [fst snd]. rewrite run_try_except.
  assert (Hmotivo : default TaskCommands.default_reason (TaskCommands.or_else reason None)
                    = match reason with
                      | Some (String c s) => String c s
                      | _ => TaskCommands.default_reason
                      end).
  { destruct reason as [[| c s] |]; reflexivity. }
  rewrite Hmotivo.
  destruct (has_message i); [rewrite run_chat, Hchat |]; cbn [fst snd run];
    rewrite <- !app_assoc; reflexivity.
Qed.

Lemma handle_approval_rejects_witness :
  run (Sample.answers 2000 (Ok [Sample.site]) (Ok Sample.created))
      (TaskCommands.handle_approval Sample.bob "t1" false (Some "")) (Sample.one_pending, [])
  = (Ok tt,
     (mk_world (dicts Sample.one_pending) (delete "t1" (pending_tasks Sample.one_pending))
        (repo Sample.one_pending),
      ([] ++ [EvChat Defer; EvFetchUser 11;
              EvChat (Send ToRequester (Rejected TaskCommands.default_reason));
              EvChat (Send ToApprover (Rejected TaskCommands.default_reason))]
       ++ [])%list)).
Proof.
  apply (handle_approval_rejects Sample.bob "t1" (Some "")
           (Sample.answers 2000 (Ok [Sample.site]) (Ok Sample.created))
           Sample.one_pending [] 0%nat (Sample.details "Fix login" "Broken"));
    reflexivity.
Defined.

(** ** The settings of a server *)

(** A setting read after one was written is the value written when the
    guild and the name are those of the write, and otherwise what it
    was before the write: the settings of other guilds and the other
    settings of the guild are untouched. *)
Theorem server_setting_round_trip (guild_id guild_id' : Z) (key key' : string)
    (value dflt : pyvalue) (s : gmap string (gmap string pyvalue)) :
  ServerSettings.get_server_setting guild_id' key' dflt
    (ServerSettings.set_server_setting guild_id key value s)
  = if decide (guild_id' = guild_id /\ key' = key) then value
    else ServerSettings.get_server_setting guild_id' key' dflt s.
Proof.
  unfold ServerSettings.get_server_setting, ServerSettings.set_server_setting. cbn zeta.
  destruct (decide (guild_id' = guild_id)) as [-> | Hg].
  - destruct (s !! PyStr.str_of_int guild_id) as [g |] eqn:Hs.
    + rewrite lookup_alter_eq, Hs. cbn. destruct (decide (key' = key)) as [-> | Hk].
      * rewrite lookup_insert_eq. now rewrite decide_True.
      * rewrite lookup_insert_ne by congruence. rewrite decide_False by tauto.
        reflexivity.
    + rewrite lookup_alter_eq, lookup_insert_eq. cbn.
      destruct (decide (key' = key)) as [-> | Hk].
      * rewrite lookup_insert_eq. now rewrite decide_True.
      * rewrite lookup_insert_ne by congruence. rewrite lookup_empty.
        rewrite decide_False by tauto. reflexivity.
  - assert (Hne : PyStr.str_of_int guild_id <> PyStr.str_of_int guild_id').
    { intros H. apply str_of_int_inj in H. congruence. }
    rewrite lookup_alter_ne by exact Hne.
    rewrite decide_False by tauto.
    destruct (s !! PyStr.str_of_int guild_id); [reflexivity |].
    now rewrite lookup_insert_ne by exact Hne.
Qed.

(** ** The base URL of the repository *)

(** The base URL that [OpenProjectRepository.__init__] keeps is the URL
    given without its trailing slashes: it is followed in the argument
    by slashes only and does not itself end with a slash. *)
Theorem init_strips_slashes (url key : string) :
  exists tail,
    url = base_url (OpenProjectRepository.init url key) +:+ tail
    /\ Forall (fun c => c = "/"%char) (list_ascii_of_string tail)
    /\ forall s, base_url (OpenProjectRepository.init url key) <> s +:+ "/".
Proof.
  cbn [OpenProjectRepository.init base_url].
  induction url as [| c r (tail & Heq & Htail & Hend)].
  - exists "". repeat split; [constructor |]. intros [| c s']; discriminate.
  - cbn [OpenProjectRepository.rstrip_slash].
    destruct (OpenProjectRepository.rstrip_slash r) as [| c' r'] eqn:Hr.
    + destruct (Ascii.eqb_spec c "/") as [-> | Hc].
      * exists (String "/" tail). cbn in Heq. subst r. repeat split.
        -- cbn. now constructor.
        -- intros [| c s']; discriminate.
      * exists tail. cbn in Heq. subst r. repeat split; [exact Htail |].
        intros [| c0 [| c1 s']]; cbn; intros [= ]; congruence.
    + exists tail. repeat split; [| exact Htail |].
      * cbn. now rewrite Heq at 1.
      * intros [| c0 s'] H; [discriminate |].
        injection H as _ H. now apply Hend in H.
Qed.

(** ** The versions of a project *)

Section Versions.
Import PyStr ProjectVersions.

Lemma append_inj_l (a a' t : string) : a +:+ t = a' +:+ t -> a = a'.
Proof.
  intros H.
  assert (Hlen : String.length a = String.length a').
  { apply (f_equal String.length) in H. rewrite !append_length in H. lia. }
  revert a' H Hlen. induction a as [| c a IH]; intros [| c' a'] H Hlen;
    try discriminate; [reflexivity |].
  cbn in H. injection H as -> H. f_equal. apply IH; [exact H |].
  cbn in Hlen. lia.
Qed.

Lemma cache_key_inj (p p' : string) : cache_key p = cache_key p' -> p = p'.
Proof.
  unfold cache_key. intros H.
  assert (Hr : forall t a a' : string, t +:+ a = t +:+ a' -> a = a').
  { induction t as [| c t IH]; intros a a' Ht; [exact Ht |].
    injection Ht as Ht. now apply IH. }
  apply Hr in H. now apply append_inj_l in H.
Qed.

(** A call that finds no fresh entry, on a configured repository that
    OpenProject answers: the listing is stored under the key of the
    project and nothing else changes in the cache. *)
Lemma get_project_versions_miss (r : repository) (t : Q) (data : list remote_version)
    (project_id : string) (cache : gmap string cached_versions) :
  configured r ->
  cache_is_valid cache (cache_key project_id) t = false ->
  get_project_versions r t (Ok data) project_id cache
  = (Ok (to_version <$> data),
     <[cache_key project_id := mk_cached_versions (to_version <$> data) t]> cache,
     [base_url r +:+ "/api/v3/projects/" +:+ project_id +:+ "/versions"]).
Proof.
  intros [Hurl Hkey] Hmiss. unfold get_project_versions. cbn zeta.
  now rewrite Hmiss, Hurl, Hkey.
Qed.

End Versions.

(** Once [get_project_versions] has fetched the versions of a project,
    every call for that project less than [CACHE_DURATION] later answers
    with the same list without a request, whatever OpenProject would
    answer and also when the list is empty; the entries of the other
    projects are as they were before the fetch. *)
Theorem get_project_versions_cached (r : repository) (t t' : Q)
    (data : list ProjectVersions.remote_version)
    (response' : py (list ProjectVersions.remote_version))
    (project_id : string) (cache : gmap string ProjectVersions.cached_versions)
    (Hconfigured : configured r)
    (Hmiss : ProjectVersions.cache_is_valid cache (ProjectVersions.cache_key project_id) t
             = false)
    (Hfresh : (t' - t < CACHE_DURATION)%Q) :
  let '(versions, cache1, requested) :=
    ProjectVersions.get_project_versions r t (Ok data) project_id cache in
  requested = [base_url r +:+ "/api/v3/projects/" +:+ project_id +:+ "/versions"]
  /\ ProjectVersions.get_project_versions r t' response' project_id cache1
     = (versions, cache1, [])
  /\ forall other, other <> project_id ->
       cache1 !! ProjectVersions.cache_key other = cache !! ProjectVersions.cache_key other.
Proof.
  rewrite get_project_versions_miss by assumption.
  split; [reflexivity |]. split.
  - unfold ProjectVersions.get_project_versions, ProjectVersions.cache_is_valid. cbn zeta.
    rewrite lookup_insert_eq. cbn [ProjectVersions.cv_timestamp].
    apply Qlt_bool_true in Hfresh. rewrite Hfresh. reflexivity.
  - intros other Hother. rewrite lookup_insert_ne; [reflexivity |].
    intros H. apply cache_key_inj in H. congruence.
Qed.

Lemma get_project_versions_cached_witness :
  let r := OpenProjectRepository.init "https://op.example/" "key" in
  let '(versions, cache1, requested) :=
    ProjectVersions.get_project_versions r 1000 (Ok []) "7" ∅ in
  requested = [base_url r +:+ "/api/v3/projects/" +:+ "7" +:+ "/versions"]
  /\ ProjectVersions.get_project_versions r 4599 (Err OpenProjectError) "7" cache1
     = (versions, cache1, [])
  /\ forall other, other <> "7" ->
       cache1 !! ProjectVersions.cache_key other
       = (∅ : gmap string ProjectVersions.cached_versions) !! ProjectVersions.cache_key other.
Proof.
  apply (get_project_versions_cached (OpenProjectRepository.init "https://op.example/" "key")
           1000 4599 [] (Err OpenProjectError) "7" ∅).
  - split; reflexivity.
  - reflexivity.
  - reflexivity.
Defined.

(** ** From the chosen version to the request *)

Section ChosenVersion.
Import PyStr.



End ChosenVersion.


